(** * Ledger and stock logic of the billing front end

    A shallow embedding of [PartyManager] (party ledger balance) and
    [StockManager] (stock adjustment on sale and purchase), together with the
    kg/bag conversions of the item forms.

    Numbers.  A JavaScript [number] is modelled twice.  In the modules [JS],
    [PartyManager], [StockManager] and [EditItems] it is an exact rational or
    [NaN], [NaN] being what arithmetic yields on [undefined] (a field missing
    from a JSON record); rounding and the infinities are outside this model,
    which carries the statements on control flow, requests sent, guards and
    clamping, on what is fetched and filtered, and those worded for exact
    arithmetic.  In
    the module [Binary64] it is an IEEE 754 double, the arithmetic the
    program runs on; the ledger fold and the kg and bag conversions are
    embedded there again, and the statements on which rounding bears (what
    the balance is, whether the order of the transactions matters, what the
    form sends for a quantity in kg) are settled on that embedding.

    Strings.  Strings are lists of 8-bit characters; [toLowerCase] and [trim]
    act on ASCII letters and ASCII white space, where JavaScript also folds
    and strips the characters of Unicode.

    Effects.  The ledger only reads: each fetch is given by its outcome.  The
    stock manager talks to the persistence collaborator and keeps a set of
    processed invoices: its methods are state transformers over that set, the
    list of requests sent and the console, and the collaborator is a function
    from the requests sent so far and the next request to an outcome. *)

From stdpp Require Import gmap strings list.
From Stdlib Require Import Ascii QArith Qcanon Qround Lqa Sorted.
From Stdlib Require Floats.

Set Warnings "-inexact-float".

Local Open Scope Z_scope.

(** ** JavaScript numbers *)

Module JS.

Inductive number : Type :=
  | Num (q : Qc)
  | NaN.

Definition ofQ (q : Q) : number := Num (Q2Qc q).
Definition ofZ (z : Z) : number := Num (Qc_of_Z z).

Definition zero : number := ofZ 0.

(** [x + y], [x - y], [x * y] *)
Definition add (x y : number) : number :=
  match x, y with
  | Num a, Num b => Num (a + b)%Qc
  | _, _ => NaN
  end.

Definition sub (x y : number) : number :=
  match x, y with
  | Num a, Num b => Num (a - b)%Qc
  | _, _ => NaN
  end.

Definition mul (x y : number) : number :=
  match x, y with
  | Num a, Num b => Num (a * b)%Qc
  | _, _ => NaN
  end.

(** [x / y]; the program only divides by the literals 30 and 100, a zero
    divisor (an infinity or NaN in JavaScript) is mapped to [NaN]. *)
Definition div (x y : number) : number :=
  match x, y with
  | Num a, Num b => if decide (b = 0%Qc) then NaN else Num (a / b)%Qc
  | _, _ => NaN
  end.

(** [Math.round(x)]: the integer nearest to [x], halves rounded up. *)
Definition round (x : number) : number :=
  match x with
  | Num a => ofZ (Qfloor (a + Q2Qc (1 # 2))%Qc)
  | NaN => NaN
  end.

(** [Math.max(x, y)] *)
Definition max (x y : number) : number :=
  match x, y with
  | Num a, Num b => if decide (a < b)%Qc then Num b else Num a
  | _, _ => NaN
  end.

(** [x > y] and [x < y]: false as soon as one side is [NaN]. *)
Definition gt (x y : number) : bool :=
  match x, y with
  | Num a, Num b => bool_decide (b < a)%Qc
  | _, _ => false
  end.

Definition lt (x y : number) : bool := gt y x.

(** Truthiness of a number: [0] and [NaN] are falsy. *)
Definition truthy (x : number) : bool :=
  match x with
  | Num a => bool_decide (a ≠ 0%Qc)
  | NaN => false
  end.

(** [ToNumber] on a possibly missing field: [undefined] becomes [NaN]. *)
Definition toNumber (v : option number) : number :=
  match v with
  | Some x => x
  | None => NaN
  end.

(** Truthiness of a string: the empty string is falsy. *)
Definition truthyStr (s : string) : bool :=
  match s with
  | EmptyString => false
  | String _ _ => true
  end.

#[global] Instance number_eq_dec : EqDecision number.
Proof. solve_decision. Defined.

End JS.

Import JS.

Declare Scope js_scope.
Delimit Scope js_scope with js.
Infix "+" := JS.add : js_scope.
Infix "-" := JS.sub : js_scope.
Infix "*" := JS.mul : js_scope.
Infix "/" := JS.div : js_scope.

(** ** Outcome of an asynchronous call

    An [async] method either resolves with a value or rejects with an error;
    [await] on a rejected promise throws inside the caller. *)

Inductive Error : Type :=
  | ApiError (message : string).

Inductive Result (A : Type) : Type :=
  | Ok (a : A)
  | Throw (e : Error).
Arguments Ok {A} a.
Arguments Throw {A} e.

Definition bindR {A B} (r : Result A) (k : A -> Result B) : Result B :=
  match r with
  | Ok a => k a
  | Throw e => Throw e
  end.

(** [try { body } catch (error) { handler }] *)
Definition tryCatchR {A} (body : Result A) (handler : Error -> Result A) : Result A :=
  match body with
  | Ok a => Ok a
  | Throw e => handler e
  end.

Definition isOk {A} (r : Result A) : bool :=
  match r with
  | Ok _ => true
  | Throw _ => false
  end.

(** [String.prototype.toLowerCase], on ASCII letters. *)
Definition lowerAscii (c : ascii) : ascii :=
  let n := nat_of_ascii c in
  if (65 <=? n)%nat && (n <=? 90)%nat then ascii_of_nat (n + 32) else c.

Fixpoint toLowerCase (s : string) : string :=
  match s with
  | EmptyString => EmptyString
  | String c s' => String (lowerAscii c) (toLowerCase s')
  end.

(** ** PartyManager: the party ledger *)

Module PartyManager.

(** Records of the persistence API, with the fields the ledger reads.  The
    amount fields are optional: a record deserialized from JSON may lack
    them, whatever the declared interface says. *)
Record SaleInvoice : Type := {
  sale_id : string;
  sale_invoiceNo : string;
  sale_partyName : string;
  sale_phoneNumber : string;
  sale_totalAmount : option number;
  sale_date : string
}.

Record PurchaseBill : Type := {
  purchase_id : string;
  purchase_billNo : string;
  purchase_partyName : string;
  purchase_phoneNumber : string;
  purchase_totalAmount : option number;
  purchase_date : string
}.

Inductive TransactionType : Type :=
  | invoice
  | bill
  | payment_in
  | payment_out.

Record Payment : Type := {
  payment_id : string;
  payment_paymentNo : string;
  payment_type : TransactionType;
  payment_partyName : string;
  payment_phoneNumber : string;
  payment_amount : option number;
  payment_date : string
}.

Record PartyTransaction : Type := {
  id : string;
  partyId : string;
  type : TransactionType;
  amount : option number;
  date : string;
  reference : string
}.

Record BalanceBreakdown : Type := {
  balance : number;
  totalInvoiced : number;
  totalBilled : number;
  totalPaymentIn : number;
  totalPaymentOut : number;
  transactionCount : nat
}.

#[global] Instance TransactionType_eq_dec : EqDecision TransactionType.
Proof. solve_decision. Defined.

(** The three read endpoints, as the outcome each returns. *)
Record Api : Type := {
  getSales : Result (list SaleInvoice);
  getPurchases : Result (list PurchaseBill);
  getPayments : Result (list Payment)
}.

(** The body of the [forEach] in [getPartyBalance]. *)
Definition balanceStep (balance : number) (transaction : PartyTransaction) : number :=
  match type transaction with
  | invoice => (balance + toNumber (amount transaction))%js
  | bill => (balance - toNumber (amount transaction))%js
  | payment_in => (balance - toNumber (amount transaction))%js
  | payment_out => (balance + toNumber (amount transaction))%js
  end.

(** The five running totals of [calculatePartyBalanceFromTransactions]. *)
Record Totals : Type := {
  t_balance : number;
  t_totalInvoiced : number;
  t_totalBilled : number;
  t_totalPaymentIn : number;
  t_totalPaymentOut : number
}.

Definition totals0 : Totals :=
  {| t_balance := zero; t_totalInvoiced := zero; t_totalBilled := zero;
     t_totalPaymentIn := zero; t_totalPaymentOut := zero |}.

(** The body of the [forEach] in [calculatePartyBalanceFromTransactions]. *)
Definition breakdownStep (acc : Totals) (transaction : PartyTransaction) : Totals :=
  let a := toNumber (amount transaction) in
  match type transaction with
  | invoice =>
      {| t_balance := (t_balance acc + a)%js;
         t_totalInvoiced := (t_totalInvoiced acc + a)%js;
         t_totalBilled := t_totalBilled acc;
         t_totalPaymentIn := t_totalPaymentIn acc;
         t_totalPaymentOut := t_totalPaymentOut acc |}
  | bill =>
      {| t_balance := (t_balance acc - a)%js;
         t_totalInvoiced := t_totalInvoiced acc;
         t_totalBilled := (t_totalBilled acc + a)%js;
         t_totalPaymentIn := t_totalPaymentIn acc;
         t_totalPaymentOut := t_totalPaymentOut acc |}
  | payment_in =>
      {| t_balance := (t_balance acc - a)%js;
         t_totalInvoiced := t_totalInvoiced acc;
         t_totalBilled := t_totalBilled acc;
         t_totalPaymentIn := (t_totalPaymentIn acc + a)%js;
         t_totalPaymentOut := t_totalPaymentOut acc |}
  | payment_out =>
      {| t_balance := (t_balance acc + a)%js;
         t_totalInvoiced := t_totalInvoiced acc;
         t_totalBilled := t_totalBilled acc;
         t_totalPaymentIn := t_totalPaymentIn acc;
         t_totalPaymentOut := (t_totalPaymentOut acc + a)%js |}
  end.

(** What [getPartyBalance] computes once the transactions are fetched. *)
Definition balanceOf (transactions : list PartyTransaction) : number :=
  fold_left balanceStep transactions zero.

(** What [calculatePartyBalanceFromTransactions] computes once the
    transactions are fetched. *)
Definition breakdownOf (transactions : list PartyTransaction) : BalanceBreakdown :=
  let acc := fold_left breakdownStep transactions totals0 in
  {| balance := t_balance acc;
     totalInvoiced := t_totalInvoiced acc;
     totalBilled := t_totalBilled acc;
     totalPaymentIn := t_totalPaymentIn acc;
     totalPaymentOut := t_totalPaymentOut acc;
     transactionCount := length transactions |}.

Definition zeroBreakdown : BalanceBreakdown :=
  {| balance := zero; totalInvoiced := zero; totalBilled := zero;
     totalPaymentIn := zero; totalPaymentOut := zero; transactionCount := 0 |}.

Section WithDate.

(** [new Date(s).getTime()]: the timestamp of a date string, [NaN] when the
    string does not parse. *)
Variable getTime : string -> number.

(** The comparator passed to [sort]: newest first. *)
Definition compareByDate (a b : PartyTransaction) : number :=
  (getTime (date b) - getTime (date a))%js.

(** [Array.prototype.sort] is stable; an element moves behind another only
    when the comparator is positive ([NaN] counts as 0). *)
Fixpoint insertSorted (x : PartyTransaction) (l : list PartyTransaction)
  : list PartyTransaction :=
  match l with
  | [] => [x]
  | y :: l' =>
      if gt (compareByDate x y) zero then y :: insertSorted x l' else x :: y :: l'
  end.

Definition sortByDate (l : list PartyTransaction) : list PartyTransaction :=
  foldr insertSorted [] l.

Definition sameParty (partyName phoneNumber name phone : string) : bool :=
  bool_decide (toLowerCase name = toLowerCase partyName)
  && bool_decide (phone = phoneNumber).

Definition ofSale (partyId : string) (sale : SaleInvoice) : PartyTransaction :=
  {| id := sale_id sale; partyId := partyId; type := invoice;
     amount := sale_totalAmount sale; date := sale_date sale;
     reference := sale_invoiceNo sale |}.

Definition ofPurchase (partyId : string) (purchase : PurchaseBill) : PartyTransaction :=
  {| id := purchase_id purchase; partyId := partyId; type := bill;
     amount := purchase_totalAmount purchase; date := purchase_date purchase;
     reference := purchase_billNo purchase |}.

Definition ofPayment (partyId : string) (payment : Payment) : PartyTransaction :=
  {| id := payment_id payment; partyId := partyId; type := payment_type payment;
     amount := payment_amount payment; date := payment_date payment;
     reference := payment_paymentNo payment |}.

(** The transactions pushed before sorting, given the three fetched lists. *)
Definition collect (partyName phoneNumber : string)
    (sales : list SaleInvoice) (purchases : list PurchaseBill)
    (payments : list Payment) : list PartyTransaction :=
  let partyId := (toLowerCase partyName +:+ "-" +:+ phoneNumber)%string in
  map (ofSale partyId)
      (List.filter (fun s => sameParty partyName phoneNumber
                               (sale_partyName s) (sale_phoneNumber s)) sales)
  ++ map (ofPurchase partyId)
      (List.filter (fun p => sameParty partyName phoneNumber
                               (purchase_partyName p) (purchase_phoneNumber p)) purchases)
  ++ map (ofPayment partyId)
      (List.filter (fun p => sameParty partyName phoneNumber
                               (payment_partyName p) (payment_phoneNumber p)) payments).

Definition getPartyTransactions (api : Api) (partyName phoneNumber : string)
  : Result (list PartyTransaction) :=
  tryCatchR
    (bindR (getSales api) (fun sales =>
     bindR (getPurchases api) (fun purchases =>
     bindR (getPayments api) (fun payments =>
     Ok (sortByDate (collect partyName phoneNumber sales purchases payments))))))
    (fun _ => Ok []).

Definition getPartyBalance (api : Api) (partyName phoneNumber : string)
  : Result number :=
  tryCatchR
    (bindR (getPartyTransactions api partyName phoneNumber) (fun transactions =>
     Ok (balanceOf transactions)))
    (fun _ => Ok zero).

Definition calculatePartyBalanceFromTransactions (api : Api)
    (partyName phoneNumber : string) : Result BalanceBreakdown :=
  tryCatchR
    (bindR (getPartyTransactions api partyName phoneNumber) (fun transactions =>
     Ok (breakdownOf transactions)))
    (fun _ => Ok zeroBreakdown).

End WithDate.

(** The sum of the amounts of one kind, in list order. *)
Definition sumOfKind (k : TransactionType) (transactions : list PartyTransaction)
  : number :=
  foldr (fun t s => (toNumber (amount t) + s)%js) zero
        (List.filter (fun t => bool_decide (type t = k)) transactions).

(** The total a breakdown keeps for one kind of transaction. *)
Definition totalOf (k : TransactionType) (b : BalanceBreakdown) : number :=
  match k with
  | invoice => totalInvoiced b
  | bill => totalBilled b
  | payment_in => totalPaymentIn b
  | payment_out => totalPaymentOut b
  end.

(** The balance as the sign rule states it: invoices less bills less
    payments in plus payments out. *)
Definition signedSum (transactions : list PartyTransaction) : number :=
  (sumOfKind invoice transactions - sumOfKind bill transactions
   - sumOfKind payment_in transactions + sumOfKind payment_out transactions)%js.

End PartyManager.

(** ** StockManager: stock adjustment on sale and purchase *)

Module StockManager.

Inductive Category : Type :=
  | Primary
  | Kirana.

Record Item : Type := {
  item_id : option string;
  productName : string;
  category : Category;
  purchasePrice : number;
  salePrice : number;
  openingStock : number;   (* in bags *)
  asOfDate : string;
  lowStockAlert : number   (* in bags *)
}.

Record SaleItem : Type := {
  line_id : string;
  itemName : string;
  quantity : number;       (* in kg *)
  rate : number;
  total : number
}.

Inductive Operation : Type :=
  | add
  | subtract.

(** A request sent to the items endpoints of the persistence API. *)
Inductive Call : Type :=
  | UpdateBardanaStock (operation : Operation) (quantity : number)
  | GetItems (search : string)
  | UpdateItem (id : string) (openingStock : number)
  | GetBardana.

(** The persistence collaborator: the outcome of each request, which may
    depend on every request sent before it. *)
Record ItemsApi : Type := {
  respondUpdateBardanaStock : list Call -> Operation -> number -> Result Item;
  respondGetItems : list Call -> string -> Result (list Item);
  respondUpdateItem : list Call -> string -> number -> Result Item;
  respondGetBardana : list Call -> Result Item
}.

(** What [logWarn], [logError] and [console.error] print.  ([log] prints in
    development builds only and is not traced.) *)
Inductive LogEntry : Type :=
  | Warn (message : string)
  | Err (message : string) (error : Error).

(** The state the class works on: the static set [processedInvoices], the
    requests sent so far (oldest first) and the console. *)
Record State : Type := {
  processedInvoices : gset string;
  requests : list Call;
  console : list LogEntry
}.

Definition M (A : Type) : Type := State -> Result A * State.

Definition ret {A} (a : A) : M A := fun st => (Ok a, st).

Definition throw {A} (e : Error) : M A := fun st => (Throw e, st).

Definition bind {A B} (m : M A) (k : A -> M B) : M B :=
  fun st =>
    match m st with
    | (Ok a, st') => k a st'
    | (Throw e, st') => (Throw e, st')
    end.

(** [try { body } catch (error) { handler }] *)
Definition tryCatch {A} (body : M A) (handler : Error -> M A) : M A :=
  fun st =>
    match body st with
    | (Ok a, st') => (Ok a, st')
    | (Throw e, st') => handler e st'
    end.

Notation "x <~ m ;; k" := (bind m (fun x => k))
  (at level 100, m at next level, k at level 200, right associativity).
Notation "m ;;; k" := (bind m (fun _ => k))
  (at level 100, k at level 200, right associativity).

Definition sent (c : Call) (st : State) : State :=
  {| processedInvoices := processedInvoices st;
     requests := requests st ++ [c];
     console := console st |}.

Definition printed (e : LogEntry) (st : State) : State :=
  {| processedInvoices := processedInvoices st;
     requests := requests st;
     console := console st ++ [e] |}.

Definition logWarn (message : string) : M unit :=
  fun st => (Ok tt, printed (Warn message) st).

Definition logError (message : string) (error : Error) : M unit :=
  fun st => (Ok tt, printed (Err message error) st).

(** [Map<string, number>]: entries in insertion order, one per key. *)
Definition QuantityMap : Type := list (string * number).

Fixpoint mapGet (m : QuantityMap) (key : string) : option number :=
  match m with
  | [] => None
  | (k, v) :: m' => if decide (k = key) then Some v else mapGet m' key
  end.

Fixpoint mapSet (m : QuantityMap) (key : string) (value : number) : QuantityMap :=
  match m with
  | [] => [(key, value)]
  | (k, v) :: m' =>
      if decide (k = key) then (k, value) :: m' else (k, v) :: mapSet m' key value
  end.

(** [v || 0] on the result of [Map.get]. *)
Definition orZero (v : option number) : number :=
  match v with
  | Some x => if truthy x then x else zero
  | None => zero
  end.

(** The map of quantities by item name built by the first [forEach]. *)
Definition consolidate (items : list SaleItem) : QuantityMap :=
  fold_left
    (fun m item =>
       let currentQty := orZero (mapGet m (itemName item)) in
       mapSet m (itemName item) (currentQty + quantity item)%js)
    items [].

(** The Bardana total accumulated by the second [forEach]. *)
Definition totalQuantity (items : list SaleItem) : number :=
  fold_left (fun t item => (t + quantity item)%js) items zero.

(** [items.find(i => i.productName === itemName)] *)
Definition findItem (itemName : string) (items : list Item) : option Item :=
  List.find (fun i => bool_decide (productName i = itemName)) items.

(** [item && item.id]: the id of a found item, when it has a non-empty one. *)
Definition foundId (item : option Item) : option string :=
  match item with
  | Some i =>
      match item_id i with
      | Some id => if truthyStr id then Some id else None
      | None => None
      end
  | None => None
  end.

(** New stock of an item on a sale and on a purchase, in bags. *)
Definition stockAfterSale (openingStock quantity : number) : number :=
  let soldBags := (quantity / ofZ 30)%js in
  JS.max zero (round ((openingStock - soldBags) * ofZ 100) / ofZ 100)%js.

Definition stockAfterPurchase (openingStock quantity : number) : number :=
  let purchasedBags := (quantity / ofZ 30)%js in
  (round ((openingStock + purchasedBags) * ofZ 100) / ofZ 100)%js.

Definition notFoundMessage (itemName : string) : string :=
  ("Item " +:+ itemName +:+ " not found in backend")%string.

Definition updateErrorMessage (itemName : string) : string :=
  ("Error updating stock for " +:+ itemName +:+ ":")%string.

Section WithApi.

Variable api : ItemsApi.

Definition updateBardanaStock (operation : Operation) (quantity : number) : M Item :=
  fun st =>
    (respondUpdateBardanaStock api (requests st) operation quantity,
     sent (UpdateBardanaStock operation quantity) st).

Definition getItems (search : string) : M (list Item) :=
  fun st => (respondGetItems api (requests st) search, sent (GetItems search) st).

Definition updateItem (id : string) (openingStock : number) : M Item :=
  fun st =>
    (respondUpdateItem api (requests st) id openingStock,
     sent (UpdateItem id openingStock) st).

Definition getBardana : M Item :=
  fun st => (respondGetBardana api (requests st), sent GetBardana st).

(** One turn of the [for ... of] loop over the consolidated map; [newStock]
    is [stockAfterSale] or [stockAfterPurchase]. *)
Definition adjustItem (newStock : number -> number -> number)
    (entry : string * number) : M unit :=
  let '(itemName, quantity) := entry in
  tryCatch
    (items <~ getItems itemName ;;
     let item := findItem itemName items in
     match item, foundId item with
     | Some i, Some id =>
         updateItem id (newStock (openingStock i) quantity) ;;; ret tt
     | _, _ => logWarn (notFoundMessage itemName)
     end)
    (fun error => logError (updateErrorMessage itemName) error).

Fixpoint forEach {A} (body : A -> M unit) (l : list A) : M unit :=
  match l with
  | [] => ret tt
  | x :: l' => body x ;;; forEach body l'
  end.

Definition markProcessed (invoiceId : string) : M unit :=
  fun st =>
    (Ok tt,
     {| processedInvoices := {[invoiceId]} ∪ processedInvoices st;
        requests := requests st;
        console := console st |}).

(** [invoiceId && this.processedInvoices.has(invoiceId)] *)
Definition alreadyProcessed (invoiceId : option string) (st : State) : bool :=
  match invoiceId with
  | Some id => truthyStr id && bool_decide (id ∈ processedInvoices st)
  | None => false
  end.

Definition updateStockOnSale (soldItems : list SaleItem)
    (invoiceId : option string) : M unit :=
  tryCatch
    (fun st =>
       match soldItems with
       | [] => ret tt st
       | _ :: _ =>
           if alreadyProcessed invoiceId st then ret tt st
           else
             let soldItemsMap := consolidate soldItems in
             let totalBardanaReduction := totalQuantity soldItems in
             ((if gt totalBardanaReduction zero
               then updateBardanaStock subtract totalBardanaReduction ;;; ret tt
               else ret tt) ;;;
              forEach (adjustItem stockAfterSale) soldItemsMap ;;;
              match invoiceId with
              | Some id => if truthyStr id then markProcessed id else ret tt
              | None => ret tt
              end) st
       end)
    (fun error => logError "Error updating stock on sale:" error ;;; throw error).

Definition updateStockOnPurchase (purchasedItems : list SaleItem) : M unit :=
  tryCatch
    (match purchasedItems with
     | [] => ret tt
     | _ :: _ =>
         let purchasedItemsMap := consolidate purchasedItems in
         let totalBardanaAddition := totalQuantity purchasedItems in
         (if gt totalBardanaAddition zero
          then updateBardanaStock add totalBardanaAddition ;;; ret tt
          else ret tt) ;;;
         forEach (adjustItem stockAfterPurchase) purchasedItemsMap
     end)
    (fun error => logError "Error updating stock on purchase:" error ;;; throw error).

(** Current stock of an item, in kg. *)
Definition getItemStock (itemName : string) : M number :=
  tryCatch
    (items <~ getItems itemName ;;
     match findItem itemName items with
     | None => ret zero
     | Some item => ret (round (openingStock item * ofZ 30)%js)
     end)
    (fun error => logError "Error getting item stock:" error ;;; ret zero).

(** Current Bardana stock, in kg. *)
Definition getBardanaStock : M number :=
  tryCatch
    (bardana <~ getBardana ;;
     ret (round (openingStock bardana * ofZ 30)%js))
    (fun error => logError "Error getting Bardana stock:" error ;;; ret zero).

End WithApi.

(** A later state: the requests and the console have only grown. *)
Definition later (st st' : State) : Prop :=
  requests st `prefix_of` requests st' /\ console st `prefix_of` console st'.

(** The requests sent between two states. *)
Definition requestsSince (st st' : State) : list Call :=
  drop (length (requests st)) (requests st').

(** The item names looked up by a run of requests, in order. *)
Definition lookups (calls : list Call) : list string :=
  omap (fun c => match c with GetItems search => Some search | _ => None end) calls.

(** The error, if any, with which the Bardana update at the head of a sale
    or purchase is rejected; the update is sent for a positive total only. *)
Definition bardanaFailure (api : ItemsApi) (operation : Operation)
    (items : list SaleItem) (st : State) : option Error :=
  if gt (totalQuantity items) zero
  then match respondUpdateBardanaStock api (requests st) operation
               (totalQuantity items) with
       | Ok _ => None
       | Throw e => Some e
       end
  else None.

(** The Bardana request at the head of a call. *)
Definition bardanaCalls (operation : Operation) (items : list SaleItem) : list Call :=
  if gt (totalQuantity items) zero
  then [UpdateBardanaStock operation (totalQuantity items)]
  else [].

(** The state once the Bardana update at the head of a call is sent. *)
Definition afterBardana (operation : Operation) (items : list SaleItem)
    (st : State) : State :=
  if gt (totalQuantity items) zero
  then sent (UpdateBardanaStock operation (totalQuantity items)) st
  else st.

(** The state once the invoice is marked, if an id was given. *)
Definition marked (invoiceId : option string) (st : State) : State :=
  match invoiceId with
  | Some id =>
      if truthyStr id
      then {| processedInvoices := {[id]} ∪ processedInvoices st;
              requests := requests st;
              console := console st |}
      else st
  | None => st
  end.

(** What the turn of one consolidated item, begun in state [st1], has left in
    the state [final]: its look-up; when the look-up is rejected, a logged
    error; when no item with an id is found, a logged warning; otherwise the
    update of the item with its new stock, and a logged error if that update
    is rejected. *)
Definition turnOutcome (api : ItemsApi) (newStock : number -> number -> number)
    (itemName : string) (quantity : number) (st1 final : State) : Prop :=
  (requests st1 ++ [GetItems itemName]) `prefix_of` requests final
  /\ match respondGetItems api (requests st1) itemName with
     | Throw e => In (Err (updateErrorMessage itemName) e) (console final)
     | Ok items =>
         match findItem itemName items, foundId (findItem itemName items) with
         | Some i, Some id =>
             let v := newStock (openingStock i) quantity in
             (requests st1 ++ [GetItems itemName; UpdateItem id v])
               `prefix_of` requests final
             /\ forall e,
                 respondUpdateItem api (requests st1 ++ [GetItems itemName]) id v
                   = Throw e ->
                 In (Err (updateErrorMessage itemName) e) (console final)
         | _, _ => In (Warn (notFoundMessage itemName)) (console final)
         end
     end.

Definition isInvoiceProcessed (invoiceId : string) (st : State) : bool :=
  bool_decide (invoiceId ∈ processedInvoices st).

Definition isBardanaCall (c : Call) : bool :=
  match c with
  | UpdateBardanaStock _ _ => true
  | _ => false
  end.

(** Modelled from the spec: the persistence collaborator's Bardana update,
    which is not part of this repository.  The stock is kept in bags; the
    quantity of the request is taken from it or added to it in kg and the
    result converted back to bags (divided by 30). *)
Definition bardanaAfter (stockBags : number) (c : Call) : number :=
  match c with
  | UpdateBardanaStock subtract q => ((stockBags * ofZ 30 - q) / ofZ 30)%js
  | UpdateBardanaStock add q => ((stockBags * ofZ 30 + q) / ofZ 30)%js
  | _ => stockBags
  end.

End StockManager.

(** ** The item edit form: kg on screen, bags in the store *)

Module EditItems.

Import StockManager.

(** [String.prototype.trim], on ASCII white space. *)
Definition isSpace (c : ascii) : bool :=
  let n := nat_of_ascii c in
  bool_decide (n = 32 \/ n = 9 \/ n = 10 \/ n = 11 \/ n = 12 \/ n = 13)%nat.

Fixpoint trimStart (l : list ascii) : list ascii :=
  match l with
  | [] => []
  | c :: l' => if isSpace c then trimStart l' else l
  end.

Definition trim (s : string) : string :=
  String.string_of_list_ascii
    (rev (trimStart (rev (trimStart (String.list_ascii_of_string s))))).

(** The form state.  The screen keeps the numeric fields as text; they are
    held here as what [parseFloat] makes of the text ([NaN] for a blank or
    non-numeric entry), the stock fields being in kg. *)
Record ItemForm : Type := {
  form_productName : string;
  form_category : Category;
  form_purchasePrice : number;
  form_salePrice : number;
  form_openingStock : number;   (* in kg *)
  form_asOfDate : string;
  form_lowStockAlert : number   (* in kg *)
}.

(** The patch sent to [ItemsApiService.updateItem]. *)
Record UpdateData : Type := {
  upd_productName : string;
  upd_category : Category;
  upd_purchasePrice : number;
  upd_salePrice : number;
  upd_openingStock : number;    (* in bags *)
  upd_asOfDate : string;
  upd_lowStockAlert : number    (* in bags *)
}.

(** [isNaN(x) || x < 0] *)
Definition invalid (x : number) : bool :=
  match x with
  | NaN => true
  | Num _ => lt x zero
  end.

(** [loadItem]: the form filled from the stored item. *)
Definition loadItem (foundItem : Item) : ItemForm :=
  {| form_productName := productName foundItem;
     form_category := category foundItem;
     form_purchasePrice := purchasePrice foundItem;
     form_salePrice := salePrice foundItem;
     form_openingStock := (openingStock foundItem * ofZ 30)%js;
     form_asOfDate := asOfDate foundItem;
     form_lowStockAlert := (lowStockAlert foundItem * ofZ 30)%js |}.

(** [handleSaveItem]: the patch sent for a form, [None] when a check fails
    and an alert is shown instead. *)
Definition handleSaveItem (itemForm : ItemForm) : option UpdateData :=
  if bool_decide (trim (form_productName itemForm) = EmptyString)
     || bool_decide (trim (form_asOfDate itemForm) = EmptyString)
  then None
  else if invalid (form_purchasePrice itemForm) then None
  else if invalid (form_salePrice itemForm) then None
  else if invalid (form_openingStock itemForm) then None
  else if invalid (form_lowStockAlert itemForm) then None
  else
    Some {| upd_productName := trim (form_productName itemForm);
            upd_category := form_category itemForm;
            upd_purchasePrice := form_purchasePrice itemForm;
            upd_salePrice := form_salePrice itemForm;
            upd_openingStock := (form_openingStock itemForm / ofZ 30)%js;
            upd_asOfDate := form_asOfDate itemForm;
            upd_lowStockAlert := (form_lowStockAlert itemForm / ofZ 30)%js |}.

End EditItems.

(** ** The remaining comparisons of JavaScript numbers *)

Module JSOrder.

(** [x >= y] and [x <= y]: false as soon as one side is [NaN]. *)
Definition ge (x y : number) : bool :=
  match x, y with
  | Num a, Num b => bool_decide (b ≤ a)%Qc
  | _, _ => false
  end.

Definition le (x y : number) : bool := ge y x.

End JSOrder.

Import JSOrder.

(** ** StockManager: reversal, stock queries and the processed set *)

Module StockManagerRest.

Import StockManager.

(** New stock of an item when its sale is reverted, in bags. *)
Definition stockAfterRevert (openingStock quantity : number) : number :=
  let soldBags := (quantity / ofZ 30)%js in
  (round ((openingStock + soldBags) * ofZ 100) / ofZ 100)%js.

Definition restoreErrorMessage (itemName : string) : string :=
  ("Error restoring stock for " +:+ itemName +:+ ":")%string.

Section WithApi.

Variable api : ItemsApi.

(** One turn of the loop of [revertStockOnSale].  ([console.log] lines are
    not traced, [console.warn] and [console.error] are.) *)
Definition restoreItem (entry : string * number) : M unit :=
  let '(itemName, quantity) := entry in
  tryCatch
    (items <~ getItems api itemName ;;
     let item := findItem itemName items in
     match item, foundId item with
     | Some i, Some id =>
         updateItem api id (stockAfterRevert (openingStock i) quantity) ;;; ret tt
     | _, _ => logWarn (notFoundMessage itemName)
     end)
    (fun error => logError (restoreErrorMessage itemName) error).

(** [revertStockOnSale]: no guard on the list and none on the invoice. *)
Definition revertStockOnSale (soldItems : list SaleItem) : M unit :=
  tryCatch
    (let soldItemsMap := consolidate soldItems in
     let totalBardanaRestoration := totalQuantity soldItems in
     (if gt totalBardanaRestoration zero
      then updateBardanaStock api add totalBardanaRestoration ;;; ret tt
      else ret tt) ;;;
     forEach restoreItem soldItemsMap)
    (fun error => logError "Error reverting stock on sale:" error ;;; throw error).

Definition hasSufficientStock (itemName : string) (requiredQuantity : number)
  : M bool :=
  currentStock <~ getItemStock api itemName ;;
  ret (ge currentStock requiredQuantity).

Definition hasSufficientBardanaStock (requiredQuantity : number) : M bool :=
  currentStock <~ getBardanaStock api ;;
  ret (ge currentStock requiredQuantity).

(** [getItems()] and [getItems({search: ''})] are the same request: an empty
    search is left out of the query. *)
Definition getAllItemsWithStock : M (list Item) :=
  tryCatch
    (getItems api "")
    (fun error => logError "Error getting all items with stock:" error ;;; ret []).

Definition getLowStockItems : M (list Item) :=
  tryCatch
    (items <~ getItems api "" ;;
     ret (List.filter (fun item => le (openingStock item) (lowStockAlert item)) items))
    (fun error => logError "Error getting low stock items:" error ;;; ret []).

End WithApi.

Definition clearProcessedInvoices : M unit :=
  fun st =>
    (Ok tt,
     {| processedInvoices := ∅; requests := requests st; console := console st |}).

Definition removeProcessedInvoice (invoiceId : string) : M unit :=
  fun st =>
    (Ok tt,
     {| processedInvoices := processedInvoices st ∖ {[invoiceId]};
        requests := requests st;
        console := console st |}).

Definition getProcessedInvoicesCount (st : State) : nat :=
  size (processedInvoices st).

(** The sum of the quantities of the lines that name one item. *)
Definition quantityOf (name : string) (items : list SaleItem) : number :=
  totalQuantity (List.filter (fun item => bool_decide (itemName item = name)) items).

(** A query answered after the single read request [c]: it does not throw,
    sends [c] and nothing else, and leaves the processed set alone. *)
Definition reads {A} (m : M A) (c : Call) (st : State) : Prop :=
  isOk (fst (m st)) = true
  /\ requests (snd (m st)) = requests st ++ [c]
  /\ processedInvoices (snd (m st)) = processedInvoices st.

End StockManagerRest.

(** ** PartyManager: parties with their balances, and the balance maps of the
    screens *)

Module PartyManagerRest.

Import PartyManager.

Record Party : Type := {
  party_id : string;
  party_name : string;
  party_phoneNumber : string;
  party_balance : number;      (* the stored, advisory balance *)
  party_address : option string;
  party_email : option string
}.

(** A party merged with its breakdown. *)
Record PartyWithBalance : Type := {
  party : Party;
  calculatedBalance : number;
  pb_totalInvoiced : number;
  pb_totalBilled : number;
  pb_totalPaymentIn : number;
  pb_totalPaymentOut : number;
  pb_transactionCount : nat
}.

(** [Promise.all] over a list of calls: every value, in order, or the first
    error. *)
Fixpoint allR {A B} (f : A -> Result B) (l : list A) : Result (list B) :=
  match l with
  | [] => Ok []
  | x :: l' =>
      bindR (f x) (fun y => bindR (allR f l') (fun ys => Ok (y :: ys)))
  end.

Section WithDate.

Variable getTime : string -> number.

(** [a] is dated no earlier than [b]. *)
Definition notOlder (a b : PartyTransaction) : Prop :=
  ge (getTime (date a)) (getTime (date b)) = true.


(** [getParties] is the outcome of [PartyApiService.getParties]. *)
Definition getAllParties (getParties : Result (list Party)) : Result (list Party) :=
  tryCatchR getParties (fun _ => Ok []).

Definition withBalance (api : Api) (p : Party) : Result PartyWithBalance :=
  bindR (calculatePartyBalanceFromTransactions getTime api
           (party_name p) (party_phoneNumber p))
    (fun balanceData =>
       Ok {| party := p;
             calculatedBalance := balance balanceData;
             pb_totalInvoiced := totalInvoiced balanceData;
             pb_totalBilled := totalBilled balanceData;
             pb_totalPaymentIn := totalPaymentIn balanceData;
             pb_totalPaymentOut := totalPaymentOut balanceData;
             pb_transactionCount := transactionCount balanceData |}).

Definition getPartiesWithBalances (api : Api) (getParties : Result (list Party))
  : Result (list PartyWithBalance) :=
  tryCatchR
    (bindR (getAllParties getParties) (fun parties => allR (withBalance api) parties))
    (fun _ => Ok []).

(** The key of a party in the balance maps of the screens. *)
Definition partyKey (p : Party) : string :=
  (party_name p +:+ "-" +:+ party_phoneNumber p)%string.

(** [calculateCustomerBalances] of the sales screen ([calculatePartyBalances]
    of the purchase screen is the same code): the map handed to the state
    setter, [None] when an error was caught and the state left alone. *)
Definition calculateCustomerBalances (api : Api) (customersData : list Party)
  : option (gmap string number) :=
  match
    foldl (fun acc customer =>
             bindR acc (fun balances =>
             bindR (getPartyBalance getTime api (party_name customer)
                      (party_phoneNumber customer)) (fun balance =>
             Ok (<[partyKey customer := balance]> balances))))
          (Ok ∅) customersData
  with
  | Ok balances => Some balances
  | Throw _ => None
  end.

End WithDate.

(** [customerBalances[customerKey] ?? customer.balance] *)
Definition latestBalance (balances : gmap string number) (customer : Party) : number :=
  match balances !! partyKey customer with
  | Some b => b
  | None => party_balance customer
  end.

End PartyManagerRest.

(** ** The arithmetic of the program: binary64

    The modules above compute with exact rationals; what is proved on them
    does not lean on the absence of rounding.  Where rounding decides, the
    code is embedded a second time over IEEE 754 doubles, the kernel's
    primitive floats, which add, subtract, multiply and divide as JavaScript
    does (round to nearest, ties to even).  The definitions keep the names
    and the shape of their exact counterparts. *)

Module Binary64.

Import Floats.
Import PartyManager.
Local Open Scope float_scope.

Definition number : Set := float.

Definition zero : number := 0.

(** [x > y], [x < y] and [isNaN(x)] *)
Definition gt (x y : number) : bool := y <? x.
Definition lt (x y : number) : bool := x <? y.
Definition isNaN (x : number) : bool := is_nan x.

(** [ToNumber] on a possibly missing field: [undefined] becomes [NaN]. *)
Definition toNumber (v : option number) : number :=
  match v with
  | Some x => x
  | None => nan
  end.

(** The double of an integer of at most 63 bits. *)
Definition ofZ (z : Z) : number :=
  match z with
  | Z0 => 0
  | Zpos _ => of_uint63 (Uint63.of_Z z)
  | Zneg p => - of_uint63 (Uint63.of_Z (Zpos p))
  end.

(** [Math.round(x)]: the integer nearest to [x], halves rounded up; [NaN],
    the infinities and the integers (every double with a non-negative
    exponent) are returned as they are, and a negative [x] that rounds to
    zero gives [-0]. *)
Definition round (x : number) : number :=
  match Prim2SF x with
  | S754_finite s m e =>
      if (0 <=? e)%Z then x
      else
        let n := ((2 * (if s then Z.neg m else Z.pos m) + 2 ^ (- e))
                  / 2 ^ (1 - e))%Z in
        if (n =? 0)%Z then (if s then -0 else 0) else ofZ n
  | _ => x
  end.

(** [Math.max(x, y)]: [NaN] if either is, and [+0] above [-0]. *)
Definition max (x y : number) : number :=
  if is_nan x || is_nan y then nan
  else if x <? y then y
  else if y <? x then x
  else if get_sign x then y else x.

(** The real number a double stands for; none for [NaN] and the
    infinities. *)
Definition value (x : number) : option Q :=
  match Prim2SF x with
  | S754_zero _ => Some 0%Q
  | S754_finite s m e =>
      Some (inject_Z (if s then Z.neg m else Z.pos m) * Qpower 2 e)%Q
  | _ => None
  end.

Definition real (x : number) : Q :=
  match value x with
  | Some q => q
  | None => 0%Q
  end.

Definition finite (x : number) : bool :=
  match value x with
  | Some _ => true
  | None => false
  end.

(** [op x y] was computed without rounding: operands and result are finite
    and the result is the exact one, [opQ] being [op] on the rationals. *)
Definition exact (op : number -> number -> number) (opQ : Q -> Q -> Q)
    (x y : number) : bool :=
  match value x, value y, value (op x y) with
  | Some a, Some b, Some c => Qeq_bool c (opQ a b)
  | _, _, _ => false
  end.

(** *** The party ledger *)

Record SaleInvoice : Type := {
  sale_id : string;
  sale_invoiceNo : string;
  sale_partyName : string;
  sale_phoneNumber : string;
  sale_totalAmount : option number;
  sale_date : string
}.

Record PurchaseBill : Type := {
  purchase_id : string;
  purchase_billNo : string;
  purchase_partyName : string;
  purchase_phoneNumber : string;
  purchase_totalAmount : option number;
  purchase_date : string
}.

Record Payment : Type := {
  payment_id : string;
  payment_paymentNo : string;
  payment_type : TransactionType;
  payment_partyName : string;
  payment_phoneNumber : string;
  payment_amount : option number;
  payment_date : string
}.

Record PartyTransaction : Type := {
  id : string;
  partyId : string;
  type : TransactionType;
  amount : option number;
  date : string;
  reference : string
}.

Record BalanceBreakdown : Type := {
  balance : number;
  totalInvoiced : number;
  totalBilled : number;
  totalPaymentIn : number;
  totalPaymentOut : number;
  transactionCount : nat
}.

Record Api : Type := {
  getSales : Result (list SaleInvoice);
  getPurchases : Result (list PurchaseBill);
  getPayments : Result (list Payment)
}.

(** The body of the [forEach] in [getPartyBalance]. *)
Definition balanceStep (balance : number) (transaction : PartyTransaction) : number :=
  match type transaction with
  | invoice => balance + toNumber (amount transaction)
  | bill => balance - toNumber (amount transaction)
  | payment_in => balance - toNumber (amount transaction)
  | payment_out => balance + toNumber (amount transaction)
  end.

(** The five running totals of [calculatePartyBalanceFromTransactions]. *)
Record Totals : Type := {
  t_balance : number;
  t_totalInvoiced : number;
  t_totalBilled : number;
  t_totalPaymentIn : number;
  t_totalPaymentOut : number
}.

Definition totals0 : Totals :=
  {| t_balance := zero; t_totalInvoiced := zero; t_totalBilled := zero;
     t_totalPaymentIn := zero; t_totalPaymentOut := zero |}.

(** The body of the [forEach] in [calculatePartyBalanceFromTransactions]. *)
Definition breakdownStep (acc : Totals) (transaction : PartyTransaction) : Totals :=
  let a := toNumber (amount transaction) in
  match type transaction with
  | invoice =>
      {| t_balance := t_balance acc + a;
         t_totalInvoiced := t_totalInvoiced acc + a;
         t_totalBilled := t_totalBilled acc;
         t_totalPaymentIn := t_totalPaymentIn acc;
         t_totalPaymentOut := t_totalPaymentOut acc |}
  | bill =>
      {| t_balance := t_balance acc - a;
         t_totalInvoiced := t_totalInvoiced acc;
         t_totalBilled := t_totalBilled acc + a;
         t_totalPaymentIn := t_totalPaymentIn acc;
         t_totalPaymentOut := t_totalPaymentOut acc |}
  | payment_in =>
      {| t_balance := t_balance acc - a;
         t_totalInvoiced := t_totalInvoiced acc;
         t_totalBilled := t_totalBilled acc;
         t_totalPaymentIn := t_totalPaymentIn acc + a;
         t_totalPaymentOut := t_totalPaymentOut acc |}
  | payment_out =>
      {| t_balance := t_balance acc + a;
         t_totalInvoiced := t_totalInvoiced acc;
         t_totalBilled := t_totalBilled acc;
         t_totalPaymentIn := t_totalPaymentIn acc;
         t_totalPaymentOut := t_totalPaymentOut acc + a |}
  end.

(** What [getPartyBalance] computes once the transactions are fetched. *)
Definition balanceOf (transactions : list PartyTransaction) : number :=
  fold_left balanceStep transactions zero.

Definition ofTotals (acc : Totals) (count : nat) : BalanceBreakdown :=
  {| balance := t_balance acc;
     totalInvoiced := t_totalInvoiced acc;
     totalBilled := t_totalBilled acc;
     totalPaymentIn := t_totalPaymentIn acc;
     totalPaymentOut := t_totalPaymentOut acc;
     transactionCount := count |}.

(** What [calculatePartyBalanceFromTransactions] computes once the
    transactions are fetched. *)
Definition breakdownOf (transactions : list PartyTransaction) : BalanceBreakdown :=
  ofTotals (fold_left breakdownStep transactions totals0) (length transactions).

Definition zeroBreakdown : BalanceBreakdown := ofTotals totals0 0.

Section WithDate.

(** [new Date(s).getTime()] *)
Variable getTime : string -> number.

(** The comparator passed to [sort]: newest first. *)
Definition compareByDate (a b : PartyTransaction) : number :=
  getTime (date b) - getTime (date a).

(** [Array.prototype.sort] is stable; an element moves behind another only
    when the comparator is positive. *)
Fixpoint insertSorted (x : PartyTransaction) (l : list PartyTransaction)
  : list PartyTransaction :=
  match l with
  | [] => [x]
  | y :: l' =>
      if gt (compareByDate x y) zero then y :: insertSorted x l' else x :: y :: l'
  end.

Definition sortByDate (l : list PartyTransaction) : list PartyTransaction :=
  foldr insertSorted [] l.

Definition ofSale (partyId : string) (sale : SaleInvoice) : PartyTransaction :=
  {| id := sale_id sale; partyId := partyId; type := invoice;
     amount := sale_totalAmount sale; date := sale_date sale;
     reference := sale_invoiceNo sale |}.

Definition ofPurchase (partyId : string) (purchase : PurchaseBill) : PartyTransaction :=
  {| id := purchase_id purchase; partyId := partyId; type := bill;
     amount := purchase_totalAmount purchase; date := purchase_date purchase;
     reference := purchase_billNo purchase |}.

Definition ofPayment (partyId : string) (payment : Payment) : PartyTransaction :=
  {| id := payment_id payment; partyId := partyId; type := payment_type payment;
     amount := payment_amount payment; date := payment_date payment;
     reference := payment_paymentNo payment |}.

(** The transactions pushed before sorting, given the three fetched lists. *)
Definition collect (partyName phoneNumber : string)
    (sales : list SaleInvoice) (purchases : list PurchaseBill)
    (payments : list Payment) : list PartyTransaction :=
  let partyId := (toLowerCase partyName +:+ "-" +:+ phoneNumber)%string in
  map (ofSale partyId)
      (List.filter (fun s => sameParty partyName phoneNumber
                               (sale_partyName s) (sale_phoneNumber s)) sales)
  ++ map (ofPurchase partyId)
      (List.filter (fun p => sameParty partyName phoneNumber
                               (purchase_partyName p) (purchase_phoneNumber p)) purchases)
  ++ map (ofPayment partyId)
      (List.filter (fun p => sameParty partyName phoneNumber
                               (payment_partyName p) (payment_phoneNumber p)) payments).

Definition getPartyTransactions (api : Api) (partyName phoneNumber : string)
  : Result (list PartyTransaction) :=
  tryCatchR
    (bindR (getSales api) (fun sales =>
     bindR (getPurchases api) (fun purchases =>
     bindR (getPayments api) (fun payments =>
     Ok (sortByDate (collect partyName phoneNumber sales purchases payments))))))
    (fun _ => Ok []).

Definition getPartyBalance (api : Api) (partyName phoneNumber : string)
  : Result number :=
  tryCatchR
    (bindR (getPartyTransactions api partyName phoneNumber) (fun transactions =>
     Ok (balanceOf transactions)))
    (fun _ => Ok zero).

Definition calculatePartyBalanceFromTransactions (api : Api)
    (partyName phoneNumber : string) : Result BalanceBreakdown :=
  tryCatchR
    (bindR (getPartyTransactions api partyName phoneNumber) (fun transactions =>
     Ok (breakdownOf transactions)))
    (fun _ => Ok zeroBreakdown).

End WithDate.

(** The sum of the amounts of one kind, accumulated in list order. *)
Definition sumOfKind (k : TransactionType) (transactions : list PartyTransaction)
  : number :=
  fold_left (fun s t => s + toNumber (amount t))
            (List.filter (fun t => bool_decide (type t = k)) transactions) zero.

(** The total a breakdown keeps for one kind of transaction. *)
Definition totalOf (k : TransactionType) (b : BalanceBreakdown) : number :=
  match k with
  | invoice => totalInvoiced b
  | bill => totalBilled b
  | payment_in => totalPaymentIn b
  | payment_out => totalPaymentOut b
  end.

(** The two operations of one turn of the loop were exact. *)
Definition exactStep (acc : Totals) (transaction : PartyTransaction) : bool :=
  let a := toNumber (amount transaction) in
  match type transaction with
  | invoice =>
      exact add Qplus (t_balance acc) a && exact add Qplus (t_totalInvoiced acc) a
  | bill =>
      exact sub Qminus (t_balance acc) a && exact add Qplus (t_totalBilled acc) a
  | payment_in =>
      exact sub Qminus (t_balance acc) a && exact add Qplus (t_totalPaymentIn acc) a
  | payment_out =>
      exact add Qplus (t_balance acc) a && exact add Qplus (t_totalPaymentOut acc) a
  end.

Fixpoint exactFrom (acc : Totals) (transactions : list PartyTransaction) : bool :=
  match transactions with
  | [] => true
  | t :: rest => exactStep acc t && exactFrom (breakdownStep acc t) rest
  end.

(** No addition or subtraction of the loop over [transactions] rounds: the
    case of whole amounts whose sums stay below 2^53. *)
Definition exactRun (transactions : list PartyTransaction) : bool :=
  exactFrom totals0 transactions.

(** The amounts of one kind added up as real numbers. *)
Definition sumQ (k : TransactionType) (transactions : list PartyTransaction) : Q :=
  foldr (fun t s => if bool_decide (type t = k)
                    then (real (toNumber (amount t)) + s)%Q else s)
        0%Q transactions.

(** *** The item edit form *)

Record Item : Type := {
  item_id : option string;
  productName : string;
  category : StockManager.Category;
  purchasePrice : number;
  salePrice : number;
  openingStock : number;   (* in bags *)
  asOfDate : string;
  lowStockAlert : number   (* in bags *)
}.

(** The form state, the numeric fields held as what [parseFloat] makes of
    their text, the stock fields in kg. *)
Record ItemForm : Type := {
  form_productName : string;
  form_category : StockManager.Category;
  form_purchasePrice : number;
  form_salePrice : number;
  form_openingStock : number;   (* in kg *)
  form_asOfDate : string;
  form_lowStockAlert : number   (* in kg *)
}.

(** The patch sent to [ItemsApiService.updateItem]. *)
Record UpdateData : Type := {
  upd_productName : string;
  upd_category : StockManager.Category;
  upd_purchasePrice : number;
  upd_salePrice : number;
  upd_openingStock : number;    (* in bags *)
  upd_asOfDate : string;
  upd_lowStockAlert : number    (* in bags *)
}.

(** [isNaN(x) || x < 0] *)
Definition invalid (x : number) : bool := isNaN x || lt x zero.

(** [loadItem]: the form filled from the stored item. *)
Definition loadItem (foundItem : Item) : ItemForm :=
  {| form_productName := productName foundItem;
     form_category := category foundItem;
     form_purchasePrice := purchasePrice foundItem;
     form_salePrice := salePrice foundItem;
     form_openingStock := openingStock foundItem * 30;
     form_asOfDate := asOfDate foundItem;
     form_lowStockAlert := lowStockAlert foundItem * 30 |}.

(** [handleSaveItem]: the patch sent for a form, [None] when a check fails
    and an alert is shown instead. *)
Definition handleSaveItem (itemForm : ItemForm) : option UpdateData :=
  if bool_decide (EditItems.trim (form_productName itemForm) = EmptyString)
     || bool_decide (EditItems.trim (form_asOfDate itemForm) = EmptyString)
  then None
  else if invalid (form_purchasePrice itemForm) then None
  else if invalid (form_salePrice itemForm) then None
  else if invalid (form_openingStock itemForm) then None
  else if invalid (form_lowStockAlert itemForm) then None
  else
    Some {| upd_productName := EditItems.trim (form_productName itemForm);
            upd_category := form_category itemForm;
            upd_purchasePrice := form_purchasePrice itemForm;
            upd_salePrice := form_salePrice itemForm;
            upd_openingStock := form_openingStock itemForm / 30;
            upd_asOfDate := form_asOfDate itemForm;
            upd_lowStockAlert := form_lowStockAlert itemForm / 30 |}.

(** The kg [getItemStock] returns for an item that is found. *)
Definition stockInKg (item : Item) : number := round (openingStock item * 30).

(** *** The stock written on a sale, a purchase and a reversal, in bags *)

Definition stockAfterSale (openingStock quantity : number) : number :=
  let soldBags := quantity / 30 in
  max 0 (round ((openingStock - soldBags) * 100) / 100).

Definition stockAfterPurchase (openingStock quantity : number) : number :=
  let purchasedBags := quantity / 30 in
  round ((openingStock + purchasedBags) * 100) / 100.

Definition stockAfterRevert (openingStock quantity : number) : number :=
  let soldBags := quantity / 30 in
  round ((openingStock + soldBags) * 100) / 100.

End Binary64.

(** ** Sample data

    A party, a small catalog and two collaborators, used to run the
    definitions on concrete inputs. *)

Import PartyManager StockManager EditItems.

Module LedgerExamples.

Definition noDate (_ : string) : number := NaN.

Definition inv500 : PartyTransaction :=
  {| id := "s1"; partyId := "ravi-98"; type := invoice;
     amount := Some (ofZ 500); date := "2024-01-05"; reference := "12" |}.

Definition payIn200 : PartyTransaction :=
  {| id := "p1"; partyId := "ravi-98"; type := payment_in;
     amount := Some (ofZ 200); date := "2024-01-07"; reference := "3" |}.

(** An invoice without amount, and the same invoice with the amount 0. *)
Definition invMissing : PartyTransaction :=
  {| id := "s2"; partyId := "ravi-98"; type := invoice;
     amount := None; date := "2024-02-01"; reference := "13" |}.

Definition invZero : PartyTransaction :=
  {| id := "s2"; partyId := "ravi-98"; type := invoice;
     amount := Some zero; date := "2024-02-01"; reference := "13" |}.

(** A sale whose JSON record came without [totalAmount]. *)
Definition saleWithoutAmount : SaleInvoice :=
  {| sale_id := "s2"; sale_invoiceNo := "13"; sale_partyName := "Ravi";
     sale_phoneNumber := "98"; sale_totalAmount := None;
     sale_date := "2024-02-01" |}.

Definition bill100 : PurchaseBill :=
  {| purchase_id := "b1"; purchase_billNo := "4"; purchase_partyName := "ravi";
     purchase_phoneNumber := "98"; purchase_totalAmount := Some (ofZ 100);
     purchase_date := "2024-01-09" |}.

Definition apiMissingAmount : Api :=
  {| getSales := Ok [saleWithoutAmount];
     getPurchases := Ok [bill100];
     getPayments := Ok [] |}.

(** The sales endpoint is down; the other two answer. *)
Definition apiSalesDown : Api :=
  {| getSales := Throw (ApiError "Network error occurred");
     getPurchases := Ok [bill100];
     getPayments := Ok [] |}.

End LedgerExamples.

Module StockExamples.

Definition rice : Item :=
  {| item_id := Some "i1"; productName := "Rice"; category := Primary;
     purchasePrice := ofZ 40; salePrice := ofZ 50; openingStock := ofZ 1;
     asOfDate := "2024-01-01"; lowStockAlert := ofZ 1 |}.

Definition wheat : Item :=
  {| item_id := Some "i2"; productName := "Wheat"; category := Primary;
     purchasePrice := ofZ 20; salePrice := ofZ 25; openingStock := ofZ 10;
     asOfDate := "2024-01-01"; lowStockAlert := ofZ 2 |}.

Definition bardana : Item :=
  {| item_id := Some "b0"; productName := "Bardana"; category := Primary;
     purchasePrice := zero; salePrice := zero; openingStock := ofZ 50;
     asOfDate := "2024-01-01"; lowStockAlert := ofZ 5 |}.

(** A collaborator that knows rice and wheat, accepts every Bardana update
    and rejects the updates of wheat. *)
Definition shop : ItemsApi :=
  {| respondUpdateBardanaStock := fun _ _ _ => Ok bardana;
     respondGetItems := fun _ _ => Ok [rice; wheat];
     respondUpdateItem := fun _ id _ =>
       if decide (id = "i2") then Throw (ApiError "Request failed") else Ok rice;
     respondGetBardana := fun _ => Ok bardana |}.

(** The same collaborator with the Bardana endpoint down. *)
Definition shopBardanaDown : ItemsApi :=
  {| respondUpdateBardanaStock := fun _ _ _ => Throw (ApiError "Request failed");
     respondGetItems := respondGetItems shop;
     respondUpdateItem := respondUpdateItem shop;
     respondGetBardana := respondGetBardana shop |}.

Definition line (name : string) (kg : Z) : SaleItem :=
  {| line_id := "1"; itemName := name; quantity := ofZ kg;
     rate := ofZ 50; total := ofZ (50 * kg) |}.

(** 100 kg of rice, 30 kg of sugar (not in the catalog), 60 kg of wheat. *)
Definition sale1 : list SaleItem := [line "Rice" 100; line "Sugar" 30; line "Wheat" 60].

Definition purchase1 : list SaleItem := [line "Wheat" 190].

Definition sale2 : list SaleItem := [line "Rice" 30].

Definition start : State :=
  {| processedInvoices := ∅; requests := []; console := [] |}.

End StockExamples.

Module FormExamples.

(** The form with the opening stock entered in kg. *)
Definition wheatForm (kg : number) : ItemForm :=
  {| form_productName := "Wheat"; form_category := Primary;
     form_purchasePrice := ofZ 20; form_salePrice := ofZ 25;
     form_openingStock := kg; form_asOfDate := "2024-01-01";
     form_lowStockAlert := ofZ 60 |}.

(** The stored item with the opening stock in bags. *)
Definition wheatWith (bags : number) : Item :=
  {| item_id := Some "i2"; productName := "Wheat"; category := Primary;
     purchasePrice := ofZ 20; salePrice := ofZ 25; openingStock := bags;
     asOfDate := "2024-01-01"; lowStockAlert := ofZ 2 |}.

(** The patch the form sends for [wheatForm kg]. *)
Definition wheatData (kg : number) : UpdateData :=
  {| upd_productName := "Wheat"; upd_category := Primary;
     upd_purchasePrice := ofZ 20; upd_salePrice := ofZ 25;
     upd_openingStock := (kg / ofZ 30)%js; upd_asOfDate := "2024-01-01";
     upd_lowStockAlert := (ofZ 60 / ofZ 30)%js |}.

End FormExamples.

Module MoreExamples.

Import StockExamples.

(** A stand-in for the date parser: the length of the string. *)
Definition byLength (s : string) : number := ofZ (Z.of_nat (String.length s)).

Definition saleOn (date : string) : PartyManager.SaleInvoice :=
  {| PartyManager.sale_id := "s"; PartyManager.sale_invoiceNo := "1";
     PartyManager.sale_partyName := "Ravi"; PartyManager.sale_phoneNumber := "98";
     PartyManager.sale_totalAmount := Some (ofZ 10);
     PartyManager.sale_date := date |}.

Definition apiTwoSales : PartyManager.Api :=
  {| PartyManager.getSales := Ok [saleOn "2024"; saleOn "2024-01-05"];
     PartyManager.getPurchases := Ok [];
     PartyManager.getPayments := Ok [] |}.

Definition ravi : PartyManagerRest.Party :=
  {| PartyManagerRest.party_id := "p1"; PartyManagerRest.party_name := "Ravi";
     PartyManagerRest.party_phoneNumber := "98";
     PartyManagerRest.party_balance := ofZ 7;
     PartyManagerRest.party_address := None;
     PartyManagerRest.party_email := None |}.

Definition asha : PartyManagerRest.Party :=
  {| PartyManagerRest.party_id := "p2"; PartyManagerRest.party_name := "Asha";
     PartyManagerRest.party_phoneNumber := "77";
     PartyManagerRest.party_balance := ofZ 3;
     PartyManagerRest.party_address := None;
     PartyManagerRest.party_email := None |}.

(** Two lines of rice around a line of wheat. *)
Definition sale3 : list SaleItem := [line "Rice" 20; line "Wheat" 5; line "Rice" 10].

End MoreExamples.

Module BinaryExamples.

Import Floats Binary64.
Local Open Scope float_scope.

(** A stand-in for the date parser that keeps the order of ISO dates: the
    number the digits of the string spell, 20240103 for "2024-01-03". *)
Fixpoint digitsOf (s : string) (acc : Z) : Z :=
  match s with
  | EmptyString => acc
  | String c s' =>
      let n := Z.of_nat (nat_of_ascii c) in
      if (48 <=? n)%Z && (n <=? 57)%Z then digitsOf s' (10 * acc + (n - 48))%Z
      else digitsOf s' acc
  end.

Definition dayNumber (s : string) : number := ofZ (digitsOf s 0).

Definition sale (id : string) (totalAmount : number) (date : string) : SaleInvoice :=
  {| sale_id := id; sale_invoiceNo := id; sale_partyName := "Ravi";
     sale_phoneNumber := "98"; sale_totalAmount := Some totalAmount;
     sale_date := date |}.

Definition purchase (id : string) (totalAmount : number) (date : string)
  : PurchaseBill :=
  {| purchase_id := id; purchase_billNo := id; purchase_partyName := "Ravi";
     purchase_phoneNumber := "98"; purchase_totalAmount := Some totalAmount;
     purchase_date := date |}.

Definition payment (id : string) (type : TransactionType) (amount : number)
    (date : string) : Payment :=
  {| payment_id := id; payment_paymentNo := id; payment_type := type;
     payment_partyName := "Ravi"; payment_phoneNumber := "98";
     payment_amount := Some amount; payment_date := date |}.

Definition transaction (type : TransactionType) (amount : number) (date : string)
  : PartyTransaction :=
  {| id := "t"; partyId := "ravi-98"; type := type; amount := Some amount;
     date := date; reference := "1" |}.

(** Sales of 0.1 and 0.2 with a purchase of 0.3 dated between them. *)
Definition apiTenths : Api :=
  {| getSales := Ok [sale "s1" 0.1 "2024-01-03"; sale "s2" 0.2 "2024-01-01"];
     getPurchases := Ok [purchase "b1" 0.3 "2024-01-02"];
     getPayments := Ok [] |}.

(** Three sales of one day, and the same three fetched in the reverse
    order. *)
Definition threeSales : list SaleInvoice :=
  [sale "s1" 0.1 "2024-01-05"; sale "s2" 0.2 "2024-01-05";
   sale "s3" 0.3 "2024-01-05"].

Definition apiOfSales (sales : list SaleInvoice) : Api :=
  {| getSales := Ok sales; getPurchases := Ok []; getPayments := Ok [] |}.

(** A ledger in whole rupees: 500 invoiced, 200 paid in, 100 billed and 50
    paid out. *)
Definition wholeLedger : list PartyTransaction :=
  [transaction invoice 500 "2024-01-07"; transaction payment_in 200 "2024-01-05";
   transaction bill 100 "2024-01-04"; transaction payment_out 50 "2024-01-02"].

(** The edit form with the opening stock entered in kg. *)
Definition wheatForm (kg : number) : ItemForm :=
  {| form_productName := "Wheat"; form_category := Primary;
     form_purchasePrice := 20; form_salePrice := 25;
     form_openingStock := kg; form_asOfDate := "2024-01-01";
     form_lowStockAlert := 60 |}.

(** The stored item with the opening stock in bags. *)
Definition wheatWith (bags : number) : Item :=
  {| item_id := Some "i2"; productName := "Wheat"; category := Primary;
     purchasePrice := 20; salePrice := 25; openingStock := bags;
     asOfDate := "2024-01-01"; lowStockAlert := 2 |}.

End BinaryExamples.

Import LedgerExamples StockExamples FormExamples.

(** * Properties *)

(** ** Arithmetic on [number] *)

Section NumberFacts.

Lemma Num_eq (a b : Qc) : (this a == this b)%Q -> Num a = Num b.
Proof. intros H. f_equal. now apply Qc_is_canon. Qed.

Lemma add_comm (x y : number) : (x + y)%js = (y + x)%js.
Proof. destruct x, y; simpl; try reflexivity. f_equal. ring. Qed.

Lemma add_zero_l (x : number) : (zero + x)%js = x.
Proof.
  destruct x; simpl; try reflexivity. f_equal.
  apply Qc_is_canon. simpl. rewrite Qred_correct. ring.
Qed.

Lemma add_zero_r (x : number) : (x + zero)%js = x.
Proof. rewrite add_comm. apply add_zero_l. Qed.

Lemma add_NaN_r (x : number) : (x + NaN)%js = NaN.
Proof. now destruct x. Qed.

Lemma sub_NaN_r (x : number) : (x - NaN)%js = NaN.
Proof. now destruct x. Qed.

End NumberFacts.

(** Splits an equation between numbers into the cases [Num]/[NaN] of its
    variables and leaves the rational identity to [ring]. *)
Ltac number_ring :=
  intros;
  repeat match goal with x : number |- _ => destruct x end;
  simpl; try reflexivity; f_equal; ring.

(** ** The ledger *)

Section LedgerFacts.

Lemma sumOfKind_cons k t txs :
  sumOfKind k (t :: txs) =
  if bool_decide (type t = k)
  then (toNumber (amount t) + sumOfKind k txs)%js
  else sumOfKind k txs.
Proof. unfold sumOfKind. simpl. now destruct (bool_decide (type t = k)). Qed.

Lemma signedSum_nil : signedSum [] = zero.
Proof. apply Num_eq. vm_compute. reflexivity. Qed.

Lemma balance_fold (txs : list PartyTransaction) :
  forall b, fold_left balanceStep txs b = (b + signedSum txs)%js.
Proof.
  induction txs as [|t txs IH]; intros b.
  - rewrite signedSum_nil. simpl. now rewrite add_zero_r.
  - unfold signedSum in *. simpl fold_left. rewrite IH, !sumOfKind_cons. unfold balanceStep.
    destruct (type t); simpl bool_decide; cbv iota;
      generalize (toNumber (amount t)) (sumOfKind invoice txs)
        (sumOfKind bill txs) (sumOfKind payment_in txs)
        (sumOfKind payment_out txs); number_ring.
Qed.

Lemma breakdown_fold (txs : list PartyTransaction) :
  forall acc,
    fold_left breakdownStep txs acc =
    {| t_balance := (t_balance acc + signedSum txs)%js;
       t_totalInvoiced := (t_totalInvoiced acc + sumOfKind invoice txs)%js;
       t_totalBilled := (t_totalBilled acc + sumOfKind bill txs)%js;
       t_totalPaymentIn := (t_totalPaymentIn acc + sumOfKind payment_in txs)%js;
       t_totalPaymentOut := (t_totalPaymentOut acc + sumOfKind payment_out txs)%js |}.
Proof.
  induction txs as [|t txs IH]; intros acc.
  - rewrite signedSum_nil. destruct acc. unfold sumOfKind. simpl.
    now rewrite !add_zero_r.
  - unfold signedSum in *. simpl fold_left. rewrite IH, !sumOfKind_cons. unfold breakdownStep.
    destruct acc as [b i bl pi po].
    destruct (type t); simpl; f_equal;
      generalize (toNumber (amount t)) (sumOfKind invoice txs)
        (sumOfKind bill txs) (sumOfKind payment_in txs)
        (sumOfKind payment_out txs); number_ring.
Qed.

Lemma breakdownOf_sums (txs : list PartyTransaction) :
  breakdownOf txs =
  {| balance := signedSum txs;
     totalInvoiced := sumOfKind invoice txs;
     totalBilled := sumOfKind bill txs;
     totalPaymentIn := sumOfKind payment_in txs;
     totalPaymentOut := sumOfKind payment_out txs;
     transactionCount := length txs |}.
Proof.
  unfold breakdownOf. rewrite breakdown_fold. unfold totals0.
  cbn [t_balance t_totalInvoiced t_totalBilled t_totalPaymentIn t_totalPaymentOut].
  now rewrite !add_zero_l.
Qed.

Lemma balanceOf_sum (txs : list PartyTransaction) : balanceOf txs = signedSum txs.
Proof. unfold balanceOf. rewrite balance_fold. apply add_zero_l. Qed.

(** [getPartyTransactions] catches every error: it always resolves. *)
Lemma getPartyTransactions_resolves getTime api partyName phoneNumber :
  exists txs, getPartyTransactions getTime api partyName phoneNumber = Ok txs.
Proof.
  unfold getPartyTransactions.
  destruct (getSales api), (getPurchases api), (getPayments api); simpl; eauto.
Qed.

Lemma calculate_of_transactions getTime api partyName phoneNumber txs :
  getPartyTransactions getTime api partyName phoneNumber = Ok txs ->
  calculatePartyBalanceFromTransactions getTime api partyName phoneNumber
    = Ok (breakdownOf txs)
  /\ getPartyBalance getTime api partyName phoneNumber = Ok (balanceOf txs).
Proof.
  intros H. unfold calculatePartyBalanceFromTransactions, getPartyBalance.
  now rewrite H.
Qed.

Lemma insertSorted_permutation getTime x l :
  insertSorted getTime x l ≡ₚ x :: l.
Proof.
  induction l as [|y l IH]; simpl; [reflexivity|].
  destruct (gt _ _); [|reflexivity].
  rewrite IH. apply perm_swap.
Qed.

Lemma sortByDate_permutation getTime l : sortByDate getTime l ≡ₚ l.
Proof.
  induction l as [|x l IH]; simpl; [reflexivity|].
  rewrite insertSorted_permutation. now rewrite IH.
Qed.

(** A transaction without amount turns the sum of its kind into [NaN], and
    the balance with it. *)
Lemma sumOfKind_missing_amount t txs :
  In t txs -> amount t = None -> sumOfKind (type t) txs = NaN.
Proof.
  intros Hin Hnone. induction txs as [|x txs IH]; [destruct Hin|].
  rewrite sumOfKind_cons. destruct Hin as [->|Hin].
  - rewrite bool_decide_eq_true_2 by reflexivity. now rewrite Hnone.
  - rewrite (IH Hin). destruct (bool_decide _); [apply add_NaN_r | reflexivity].
Qed.

Lemma balance_missing_amount t txs :
  In t txs -> amount t = None -> balanceOf txs = NaN.
Proof.
  intros Hin Hnone. rewrite balanceOf_sum. unfold signedSum.
  pose proof (sumOfKind_missing_amount t txs Hin Hnone) as H.
  destruct (type t); rewrite H;
    repeat first [rewrite add_NaN_r | rewrite sub_NaN_r]; try reflexivity;
    now destruct (sumOfKind _ _), (sumOfKind _ _), (sumOfKind _ _).
Qed.

End LedgerFacts.

(** ** The ledger in binary64 *)

Section BinaryLedger.

Import Floats Binary64 BinaryExamples.

Lemma exact_real op opQ x y :
  exact op opQ x y = true ->
  (real (op x y) == opQ (real x) (real y))%Q
  /\ finite x = true /\ finite y = true /\ finite (op x y) = true.
Proof.
  unfold exact, real, finite.
  destruct (value x), (value y), (value (op x y)); try discriminate.
  intros H. apply Qeq_bool_iff in H. auto.
Qed.

Lemma finite_zero : finite zero = true.
Proof. reflexivity. Qed.

Lemma real_zero : real zero = 0%Q.
Proof. reflexivity. Qed.

(** The loop keeps the balance of [getPartyBalance] in its first
    component. *)
Lemma balance_of_fold transactions acc :
  t_balance (fold_left breakdownStep transactions acc)
  = fold_left balanceStep transactions (t_balance acc).
Proof.
  revert acc. induction transactions as [|t rest IH]; intros acc; [reflexivity|].
  cbn [fold_left]. rewrite IH. f_equal.
  unfold breakdownStep, balanceStep. now destruct (type t).
Qed.

(** Each total only sees the transactions of its kind. *)
Lemma totals_of_fold transactions acc :
  let acc' := fold_left breakdownStep transactions acc in
  let sumFrom k start :=
    fold_left (fun s t => (s + toNumber (amount t))%float)
      (List.filter (fun t => bool_decide (type t = k)) transactions) start in
  t_totalInvoiced acc' = sumFrom invoice (t_totalInvoiced acc)
  /\ t_totalBilled acc' = sumFrom bill (t_totalBilled acc)
  /\ t_totalPaymentIn acc' = sumFrom payment_in (t_totalPaymentIn acc)
  /\ t_totalPaymentOut acc' = sumFrom payment_out (t_totalPaymentOut acc).
Proof.
  revert acc. induction transactions as [|t rest IH]; intros acc.
  - cbn [fold_left List.filter]. auto.
  - cbn [fold_left List.filter]. specialize (IH (breakdownStep acc t)).
    cbn zeta in IH. destruct IH as (H1 & H2 & H3 & H4).
    cbn zeta. rewrite H1, H2, H3, H4. unfold breakdownStep.
    destruct (type t); repeat case_bool_decide; try congruence;
      cbn [fold_left t_totalInvoiced t_totalBilled t_totalPaymentIn
           t_totalPaymentOut]; auto.
Qed.

(** What an exact run leaves in the five accumulators, as real numbers. *)
Lemma exactFrom_values transactions acc :
  exactFrom acc transactions = true ->
  let acc' := fold_left breakdownStep transactions acc in
  (real (t_totalInvoiced acc')
   == real (t_totalInvoiced acc) + sumQ invoice transactions)%Q
  /\ (real (t_totalBilled acc')
      == real (t_totalBilled acc) + sumQ bill transactions)%Q
  /\ (real (t_totalPaymentIn acc')
      == real (t_totalPaymentIn acc) + sumQ payment_in transactions)%Q
  /\ (real (t_totalPaymentOut acc')
      == real (t_totalPaymentOut acc) + sumQ payment_out transactions)%Q
  /\ (real (t_balance acc')
      == real (t_balance acc) + sumQ invoice transactions
         - sumQ bill transactions - sumQ payment_in transactions
         + sumQ payment_out transactions)%Q.
Proof.
  revert acc. induction transactions as [|t rest IH]; intros acc Hrun.
  - unfold sumQ. cbn [fold_left foldr]. repeat split; lra.
  - cbn [exactFrom] in Hrun. apply andb_prop in Hrun. destruct Hrun as [Hstep Hrest].
    specialize (IH _ Hrest). cbn zeta in IH.
    destruct IH as (H1 & H2 & H3 & H4 & H5).
    cbn [fold_left]. cbn zeta. rewrite H1, H2, H3, H4, H5. clear H1 H2 H3 H4 H5 Hrest.
    unfold exactStep in Hstep. unfold breakdownStep, sumQ. cbn [foldr].
    destruct (type t); cbn [t_balance t_totalInvoiced t_totalBilled
                             t_totalPaymentIn t_totalPaymentOut];
      apply andb_prop in Hstep; destruct Hstep as [Hb Ht];
      apply exact_real in Hb, Ht; destruct Hb as [Hb _], Ht as [Ht _];
      rewrite Hb, Ht; repeat case_bool_decide; try congruence;
      repeat split; lra.
Qed.

Lemma exactFrom_finite transactions acc :
  exactFrom acc transactions = true ->
  finite (t_balance acc) = true ->
  finite (t_totalInvoiced acc) = true ->
  finite (t_totalBilled acc) = true ->
  finite (t_totalPaymentIn acc) = true ->
  finite (t_totalPaymentOut acc) = true ->
  let acc' := fold_left breakdownStep transactions acc in
  finite (t_balance acc') = true
  /\ finite (t_totalInvoiced acc') = true
  /\ finite (t_totalBilled acc') = true
  /\ finite (t_totalPaymentIn acc') = true
  /\ finite (t_totalPaymentOut acc') = true.
Proof.
  revert acc. induction transactions as [|t rest IH];
    intros acc Hrun Fb Fi Fl Fp Fo.
  - cbn [fold_left]. auto.
  - cbn [exactFrom] in Hrun. apply andb_prop in Hrun. destruct Hrun as [Hstep Hrest].
    cbn [fold_left]. cbn zeta. apply IH; [exact Hrest|..];
      unfold exactStep in Hstep; unfold breakdownStep;
      destruct (type t); cbn [t_balance t_totalInvoiced t_totalBilled
                               t_totalPaymentIn t_totalPaymentOut];
      apply andb_prop in Hstep; destruct Hstep as [Hb Ht];
      apply exact_real in Hb, Ht; tauto.
Qed.

Lemma sumQ_permutation k transactions transactions' :
  Permutation transactions transactions' ->
  (sumQ k transactions == sumQ k transactions')%Q.
Proof.
  induction 1 as [|t l l' _ IH|t u l|l l' l'' _ IH1 _ IH2]; unfold sumQ in *;
    cbn [foldr].
  - reflexivity.
  - destruct (bool_decide (type t = k)); [now rewrite IH | exact IH].
  - destruct (bool_decide (type t = k)), (bool_decide (type u = k)); lra.
  - now rewrite IH1.
Qed.

Lemma insertSorted64_permutation getTime x l :
  Permutation (insertSorted getTime x l) (x :: l).
Proof.
  induction l as [|y l IH]; cbn [insertSorted]; [reflexivity|].
  destruct (gt (compareByDate getTime x y) zero); [|reflexivity].
  rewrite IH. apply perm_swap.
Qed.

Lemma sortByDate64_permutation getTime l : Permutation (sortByDate getTime l) l.
Proof.
  induction l as [|x l IH]; cbn [sortByDate foldr]; [reflexivity|].
  rewrite insertSorted64_permutation. constructor. exact IH.
Qed.

Lemma getPartyTransactions64_resolves getTime api partyName phoneNumber :
  exists transactions,
    getPartyTransactions getTime api partyName phoneNumber = Ok transactions
    /\ calculatePartyBalanceFromTransactions getTime api partyName phoneNumber
       = Ok (breakdownOf transactions)
    /\ getPartyBalance getTime api partyName phoneNumber
       = Ok (balanceOf transactions).
Proof.
  unfold calculatePartyBalanceFromTransactions, getPartyBalance,
    getPartyTransactions.
  destruct (getSales api) as [sales|e]; cbn; [|eauto].
  destruct (getPurchases api) as [purchases|e]; cbn; [|eauto].
  destruct (getPayments api) as [payments|e]; cbn; eauto.
Qed.

Lemma exactRun_values transactions :
  exactRun transactions = true ->
  let b := breakdownOf transactions in
  (forall k, finite (totalOf k b) = true
             /\ (real (totalOf k b) == sumQ k transactions)%Q)
  /\ finite (balance b) = true
  /\ (real (balance b)
      == sumQ invoice transactions - sumQ bill transactions
         - sumQ payment_in transactions + sumQ payment_out transactions)%Q.
Proof.
  intros Hrun. unfold exactRun in Hrun.
  destruct (exactFrom_values _ _ Hrun) as (H1 & H2 & H3 & H4 & H5).
  destruct (exactFrom_finite _ _ Hrun finite_zero finite_zero finite_zero
              finite_zero finite_zero) as (Fb & Fi & Fl & Fp & Fo).
  cbn zeta in *. unfold breakdownOf, ofTotals.
  cbn [balance totalInvoiced totalBilled totalPaymentIn totalPaymentOut].
  cbn [totals0 t_balance t_totalInvoiced t_totalBilled t_totalPaymentIn
       t_totalPaymentOut] in H1, H2, H3, H4, H5.
  rewrite real_zero in H1, H2, H3, H4, H5.
  split; [|split].
  - intros []; cbn [totalOf totalInvoiced totalBilled totalPaymentIn totalPaymentOut];
      (split; [assumption|]); lra.
  - exact Fb.
  - lra.
Qed.

End BinaryLedger.

Section BinaryLedgerClaims.

Import Floats Binary64 BinaryExamples.
Local Open Scope float_scope.

(** C1.  In the program's arithmetic.  For every transaction list the
    breakdown holds the balance [getPartyBalance] returns, accumulated
    transaction by transaction in list order (an invoice or a payment out
    adds its amount, a bill or a payment in subtracts it, whatever the sign
    of the running balance), the four totals, each the amounts of its kind
    added up in list order, and the length of the list; both methods resolve
    with these figures on the transactions fetched.  When no addition or
    subtraction of the loop rounds, each total is the real sum of the
    amounts of its kind and the balance is invoices - bills - payments in +
    payments out; the balance is never computed from the totals.  A single
    transaction of 100 gives 100, -100, -100 and 100. *)
Theorem balance_follows_sign_rule :
  (forall transactions,
      let b := breakdownOf transactions in
      balanceOf transactions = balance b
      /\ transactionCount b = length transactions
      /\ (forall k, totalOf k b = sumOfKind k transactions)
      /\ (exactRun transactions = true ->
          (forall k, finite (totalOf k b) = true
                     /\ (real (totalOf k b) == sumQ k transactions)%Q)
          /\ finite (balance b) = true
          /\ (real (balance b)
              == real (totalInvoiced b) - real (totalBilled b)
                 - real (totalPaymentIn b) + real (totalPaymentOut b))%Q))
  /\ (forall getTime api partyName phoneNumber,
        exists transactions,
          getPartyTransactions getTime api partyName phoneNumber = Ok transactions
          /\ calculatePartyBalanceFromTransactions getTime api partyName phoneNumber
             = Ok (breakdownOf transactions)
          /\ getPartyBalance getTime api partyName phoneNumber
             = Ok (balanceOf transactions))
  /\ (forall t,
        toNumber (amount t) = 100%float ->
        breakdownOf [t]
        = match type t with
          | invoice =>
              {| balance := 100; totalInvoiced := 100; totalBilled := 0;
                 totalPaymentIn := 0; totalPaymentOut := 0;
                 transactionCount := 1%nat |}
          | bill =>
              {| balance := -100; totalInvoiced := 0; totalBilled := 100;
                 totalPaymentIn := 0; totalPaymentOut := 0;
                 transactionCount := 1%nat |}
          | payment_in =>
              {| balance := -100; totalInvoiced := 0; totalBilled := 0;
                 totalPaymentIn := 100; totalPaymentOut := 0;
                 transactionCount := 1%nat |}
          | payment_out =>
              {| balance := 100; totalInvoiced := 0; totalBilled := 0;
                 totalPaymentIn := 0; totalPaymentOut := 100;
                 transactionCount := 1%nat |}
          end).
Proof.
  split; [|split].
  - intros transactions b. subst b. split; [|split; [|split]].
    + unfold balanceOf, breakdownOf, ofTotals. cbn [balance].
      now rewrite balance_of_fold.
    + reflexivity.
    + intros k.
      destruct (totals_of_fold transactions totals0) as (H1 & H2 & H3 & H4).
      unfold breakdownOf, ofTotals, sumOfKind.
      destruct k; cbn [totalOf totalInvoiced totalBilled totalPaymentIn
                       totalPaymentOut]; assumption.
    + intros Hrun. destruct (exactRun_values _ Hrun) as (Ht & Fb & Hb).
      split; [exact Ht|]. split; [exact Fb|].
      destruct (Ht invoice) as [_ Hi], (Ht bill) as [_ Hl],
        (Ht payment_in) as [_ Hp], (Ht payment_out) as [_ Ho].
      cbn [totalOf] in Hi, Hl, Hp, Ho. cbn zeta in Hb. lra.
  - apply getPartyTransactions64_resolves.
  - intros t Ht. unfold breakdownOf, ofTotals. cbn [fold_left length].
    unfold breakdownStep. rewrite Ht. now destruct (type t).
Qed.

(** A ledger in whole rupees: no step rounds, and the balance 250 is the
    totals combined, 500 - 100 - 200 + 50. *)
Lemma balance_follows_sign_rule_witness :
  exactRun wholeLedger = true
  /\ balance (breakdownOf wholeLedger) = 250%float
  /\ (real (balance (breakdownOf wholeLedger))
      == real (totalInvoiced (breakdownOf wholeLedger))
         - real (totalBilled (breakdownOf wholeLedger))
         - real (totalPaymentIn (breakdownOf wholeLedger))
         + real (totalPaymentOut (breakdownOf wholeLedger)))%Q.
Proof.
  split; [reflexivity|]. split; [reflexivity|].
  destruct balance_follows_sign_rule as [H _].
  apply (H wholeLedger). reflexivity.
Defined.

(** C1, as stated, fails in the program's arithmetic.  Sales of 0.1 and 0.2
    and a purchase of 0.3 dated between them are folded newest first: the
    balance is ((0 + 0.1) - 0.3) + 0.2 = 2^-55, where the totals give
    (0.1 + 0.2) - 0.3 = 2^-54; the run is not exact. *)
Lemma balance_differs_from_totals :
  exists b,
    calculatePartyBalanceFromTransactions dayNumber apiTenths "Ravi" "98" = Ok b
    /\ getPartyBalance dayNumber apiTenths "Ravi" "98" = Ok (balance b)
    /\ bindR (getPartyTransactions dayNumber apiTenths "Ravi" "98")
         (fun transactions => Ok (map type transactions))
       = Ok [invoice; bill; invoice]
    /\ balance b = 0x1p-55%float
    /\ (totalInvoiced b - totalBilled b - totalPaymentIn b + totalPaymentOut b)%float
       = 0x1p-54%float
    /\ balance b
       <> (totalInvoiced b - totalBilled b - totalPaymentIn b + totalPaymentOut b)%float
    /\ exactRun [transaction invoice 0.1 "2024-01-03";
                 transaction bill 0.3 "2024-01-02";
                 transaction invoice 0.2 "2024-01-01"] = false.
Proof.
  eexists. split; [reflexivity|]. cbn [balance].
  repeat split; try reflexivity. vm_compute. discriminate.
Qed.

(** C2.  In the program's arithmetic.  Reordering the transactions never
    changes the count, and changes the balance and the totals by rounding
    only: for a list and a permutation of it on which no addition or
    subtraction of the loop rounds, the balance and the four totals are the
    same numbers.  The date sort of [getPartyTransactions] only permutes the
    transactions it is given. *)
Theorem order_matters_only_by_rounding :
  (forall transactions transactions',
      Permutation transactions transactions' ->
      let b := breakdownOf transactions in
      let b' := breakdownOf transactions' in
      transactionCount b = transactionCount b'
      /\ (exactRun transactions = true ->
          exactRun transactions' = true ->
          finite (balance b) = true /\ finite (balance b') = true
          /\ (real (balance b) == real (balance b'))%Q
          /\ forall k, finite (totalOf k b) = true /\ finite (totalOf k b') = true
                       /\ (real (totalOf k b) == real (totalOf k b'))%Q))
  /\ (forall getTime transactions,
        Permutation (sortByDate getTime transactions) transactions).
Proof.
  split; [|intros; apply sortByDate64_permutation].
  intros transactions transactions' Hperm b b'. subst b b'. split.
  - unfold breakdownOf, ofTotals. cbn [transactionCount].
    now apply Permutation_length.
  - intros Hrun Hrun'.
    destruct (exactRun_values _ Hrun) as (Ht & Fb & Hb).
    destruct (exactRun_values _ Hrun') as (Ht' & Fb' & Hb').
    cbn zeta in *. split; [exact Fb|]. split; [exact Fb'|]. split.
    + rewrite Hb, Hb'.
      rewrite (sumQ_permutation invoice _ _ Hperm),
        (sumQ_permutation bill _ _ Hperm),
        (sumQ_permutation payment_in _ _ Hperm),
        (sumQ_permutation payment_out _ _ Hperm). reflexivity.
    + intros k. destruct (Ht k) as [F H], (Ht' k) as [F' H'].
      split; [exact F|]. split; [exact F'|].
      now rewrite H, H', (sumQ_permutation k _ _ Hperm).
Qed.

(** The whole ledger and its reverse. *)
Lemma order_matters_only_by_rounding_witness :
  exactRun wholeLedger = true
  /\ exactRun (rev wholeLedger) = true
  /\ (real (balance (breakdownOf wholeLedger))
      == real (balance (breakdownOf (rev wholeLedger))))%Q.
Proof.
  split; [reflexivity|]. split; [reflexivity|].
  destruct order_matters_only_by_rounding as [H _].
  apply (H wholeLedger (rev wholeLedger)); [|reflexivity..].
  apply Permutation_rev.
Defined.

(** C2, as stated, fails in the program's arithmetic.  Three sales of one
    day, 0.1, 0.2 and 0.3, fetched in that order and in the reverse order,
    which the date sort keeps: (0.1 + 0.2) + 0.3 = 0.6000000000000001
    against (0.3 + 0.2) + 0.1 = 0.6. *)
Lemma reordering_changes_balance :
  Permutation threeSales (rev threeSales)
  /\ exists b b',
       calculatePartyBalanceFromTransactions dayNumber (apiOfSales threeSales)
         "Ravi" "98" = Ok b
       /\ calculatePartyBalanceFromTransactions dayNumber
            (apiOfSales (rev threeSales)) "Ravi" "98" = Ok b'
       /\ balance b = 0.6000000000000001%float
       /\ balance b' = 0.6%float
       /\ totalInvoiced b = 0.6000000000000001%float
       /\ totalInvoiced b' = 0.6%float
       /\ balance b <> balance b'
       /\ transactionCount b = transactionCount b'.
Proof.
  split; [apply Permutation_rev|]. do 2 eexists.
  split; [reflexivity|]. split; [reflexivity|]. cbn [balance totalInvoiced].
  repeat split; try reflexivity. vm_compute. discriminate.
Qed.

End BinaryLedgerClaims.

(** C3, as stated, fails: an invoice without amount does not count as an
    invoice of 0.  Its balance and its total invoiced are [NaN], and so is
    the balance the two methods return for a party with such a sale. *)
Lemma missing_amount_not_zero :
  breakdownOf [invMissing] <> breakdownOf [invZero]
  /\ balance (breakdownOf [invMissing]) = NaN
  /\ totalInvoiced (breakdownOf [invMissing]) = NaN
  /\ balance (breakdownOf [invZero]) = zero
  /\ calculatePartyBalanceFromTransactions noDate apiMissingAmount "Ravi" "98"
     = Ok {| balance := NaN; totalInvoiced := NaN; totalBilled := ofZ 100;
             totalPaymentIn := zero; totalPaymentOut := zero;
             transactionCount := 2 |}
  /\ getPartyBalance noDate apiMissingAmount "Ravi" "98" = Ok NaN.
Proof.
  split; [intros H; discriminate H|].
  split; [reflexivity|]. split; [reflexivity|].
  split; [apply Num_eq; reflexivity|]. split; [|reflexivity].
  vm_compute. do 2 f_equal. apply Num_eq. reflexivity.
Qed.

(** C3, amended.  The balance computation has no error conditions: both
    methods always resolve, and the empty list gives the all-zero breakdown.
    A missing amount is not taken as 0: the amount is added as it is, so a
    transaction without amount makes the balance and the total of its kind
    [NaN]; it is counted in [transactionCount] like any other. *)
Theorem missing_amount_gives_NaN :
  breakdownOf [] = zeroBreakdown
  /\ (forall getTime api partyName phoneNumber,
        isOk (calculatePartyBalanceFromTransactions getTime api partyName
                phoneNumber) = true
        /\ isOk (getPartyBalance getTime api partyName phoneNumber) = true)
  /\ (forall t txs,
        In t txs -> amount t = None ->
        balanceOf txs = NaN
        /\ balance (breakdownOf txs) = NaN
        /\ totalOf (type t) (breakdownOf txs) = NaN
        /\ transactionCount (breakdownOf txs) = length txs).
Proof.
  split; [reflexivity|]. split.
  - intros getTime api partyName phoneNumber.
    destruct (getPartyTransactions_resolves getTime api partyName phoneNumber)
      as [txs Htxs].
    destruct (calculate_of_transactions _ _ _ _ _ Htxs) as [-> ->].
    split; reflexivity.
  - intros t txs Hin Hnone.
    pose proof (balance_missing_amount t txs Hin Hnone) as H.
    pose proof (sumOfKind_missing_amount t txs Hin Hnone) as Hk.
    split; [exact H|].
    rewrite breakdownOf_sums. cbn [balance transactionCount].
    split; [now rewrite <- balanceOf_sum|]. split; [|reflexivity].
    destruct (type t); exact Hk.
Qed.

(** An invoice without amount followed by an invoice of 500. *)
Lemma missing_amount_gives_NaN_witness :
  balanceOf [invMissing; inv500] = NaN
  /\ balance (breakdownOf [invMissing; inv500]) = NaN
  /\ totalOf invoice (breakdownOf [invMissing; inv500]) = NaN
  /\ transactionCount (breakdownOf [invMissing; inv500]) = 2%nat.
Proof.
  destruct missing_amount_gives_NaN as (_ & _ & H).
  apply (H invMissing [invMissing; inv500]).
  - left. reflexivity.
  - reflexivity.
Defined.

(** C4, as stated, fails: with the sales endpoint down nothing is thrown,
    and the party gets the all-zero breakdown although a bill of 100 was
    fetched for it. *)
Lemma fetch_failure_not_propagated :
  ~ (isOk (getSales apiSalesDown) = false ->
     exists e, calculatePartyBalanceFromTransactions noDate apiSalesDown "Ravi" "98"
               = Throw e)
  /\ getSales apiSalesDown = Throw (ApiError "Network error occurred")
  /\ getPurchases apiSalesDown = Ok [bill100]
  /\ getPartyTransactions noDate apiSalesDown "Ravi" "98" = Ok []
  /\ calculatePartyBalanceFromTransactions noDate apiSalesDown "Ravi" "98"
     = Ok zeroBreakdown
  /\ getPartyBalance noDate apiSalesDown "Ravi" "98" = Ok zero.
Proof.
  split; [|repeat split].
  intros H. destruct (H eq_refl) as [e He]. discriminate He.
Qed.

(** C4, amended.  When the fetch of sales, purchases or payments fails,
    [getPartyTransactions] catches the error and resolves with the empty
    list, so [calculatePartyBalanceFromTransactions] resolves with the
    all-zero breakdown and [getPartyBalance] with 0; no error reaches the
    caller. *)
Theorem fetch_failure_defaults_to_empty getTime api partyName phoneNumber :
  isOk (getSales api) && isOk (getPurchases api) && isOk (getPayments api) = false ->
  getPartyTransactions getTime api partyName phoneNumber = Ok []
  /\ calculatePartyBalanceFromTransactions getTime api partyName phoneNumber
     = Ok zeroBreakdown
  /\ getPartyBalance getTime api partyName phoneNumber = Ok zero.
Proof.
  intros H.
  assert (Hempty : getPartyTransactions getTime api partyName phoneNumber = Ok []).
  { unfold getPartyTransactions.
    destruct (getSales api), (getPurchases api), (getPayments api);
      simpl in *; congruence. }
  split; [exact Hempty|].
  unfold calculatePartyBalanceFromTransactions, getPartyBalance.
  rewrite Hempty. split; reflexivity.
Qed.

(** The sample party with the sales endpoint down. *)
Lemma fetch_failure_defaults_to_empty_witness :
  getPartyTransactions noDate apiSalesDown "Ravi" "98" = Ok []
  /\ calculatePartyBalanceFromTransactions noDate apiSalesDown "Ravi" "98"
     = Ok zeroBreakdown
  /\ getPartyBalance noDate apiSalesDown "Ravi" "98" = Ok zero.
Proof.
  apply (fetch_failure_defaults_to_empty noDate apiSalesDown "Ravi" "98").
  reflexivity.
Defined.

(** ** Stock arithmetic *)

Section StockArithmetic.

Lemma thirty_nonzero : Qc_of_Z 30 <> 0%Qc.
Proof. intros H. apply (f_equal this) in H. discriminate H. Qed.

Lemma hundred_nonzero : Qc_of_Z 100 <> 0%Qc.
Proof. intros H. apply (f_equal this) in H. discriminate H. Qed.

(** Rewrites comparisons between canonical rationals into comparisons in
    [Q]. *)
Ltac to_Q :=
  unfold Qclt, Qcle, Qcplus, Qcminus, Qcopp, Qcmult, Qcdiv, Qcinv, Q2Qc in *;
  simpl this in *; rewrite ?Qred_correct in *.

Lemma stockAfterSale_not_negative o q : lt (stockAfterSale o q) zero = false.
Proof.
  unfold stockAfterSale.
  destruct (round ((o - q / ofZ 30) * ofZ 100) / ofZ 100)%js as [b|];
    [|reflexivity].
  unfold JS.max, zero, ofZ.
  destruct (decide (Qc_of_Z 0 < b)%Qc) as [Hlt|Hge]; unfold lt, gt;
    apply bool_decide_eq_false; intros H.
  - apply (Qclt_not_le _ _ Hlt). now apply Qclt_le_weak.
  - exact (Qclt_not_eq _ _ H eq_refl).
Qed.

Lemma round_of_negative (x : Qc) :
  (x < Qc_of_Z 0)%Qc ->
  (Qfloor (x * Qc_of_Z 100 + Q2Qc (1 # 2))%Qc <= 0)%Z.
Proof.
  intros H. to_Q.
  transitivity (Qfloor (1 # 2)); [|discriminate].
  apply Qfloor_resp_le.
  revert H. generalize (this x). intros y H.
  unfold inject_Z in *. lra.
Qed.

Lemma stockAfterSale_clamps o q :
  lt (o - q / ofZ 30)%js zero = true -> stockAfterSale o q = zero.
Proof.
  unfold stockAfterSale. destruct o as [a|], q as [k|]; try discriminate.
  unfold ofZ, JS.div at 2, JS.div at 2.
  destruct (decide (Qc_of_Z 30 = 0%Qc)) as [H30|_];
    [now apply thirty_nonzero in H30|].
  cbn [JS.sub JS.mul round]. unfold lt, gt, zero, ofZ.
  intros H. apply bool_decide_eq_true, round_of_negative in H.
  unfold JS.div.
  destruct (decide (Qc_of_Z 100 = 0%Qc)) as [H100|_];
    [now apply hundred_nonzero in H100|].
  unfold JS.max.
  destruct (decide _) as [Hpos|_]; [exfalso|reflexivity].
  revert Hpos H.
  generalize (Qfloor ((a - k / Qc_of_Z 30) * Qc_of_Z 100 + Q2Qc (1 # 2))%Qc).
  intros n Hpos Hn. to_Q.
  rewrite Zle_Qle in Hn. revert Hpos Hn. generalize (inject_Z n). intros x Hpos Hn.
  assert (Hx : (x * / inject_Z 100 == x * (1 # 100))%Q)
    by (unfold inject_Z; field).
  rewrite Hx in Hpos. unfold inject_Z in *. lra.
Qed.

End StockArithmetic.

(** ** The stock adjustment *)

#[global] Instance later_preorder : PreOrder later.
Proof.
  split.
  - intros st. split; reflexivity.
  - intros a b c [H1 H2] [H3 H4]. split; etransitivity; eassumption.
Qed.

Section StockFacts.

Variable api : ItemsApi.

Lemma later_sent c st : later st (sent c st).
Proof. split; simpl; [now apply prefix_app_r | reflexivity]. Qed.

Lemma later_printed e st : later st (printed e st).
Proof. split; simpl; [reflexivity | now apply prefix_app_r]. Qed.

(** One turn of the loop, case by case. *)
Lemma adjustItem_unfold newStock name kg st :
  adjustItem api newStock (name, kg) st =
  let st1 := sent (GetItems name) st in
  match respondGetItems api (requests st) name with
  | Throw e => (Ok tt, printed (Err (updateErrorMessage name) e) st1)
  | Ok items =>
      match findItem name items, foundId (findItem name items) with
      | Some i, Some id =>
          let v := newStock (openingStock i) kg in
          let st2 := sent (UpdateItem id v) st1 in
          match respondUpdateItem api (requests st1) id v with
          | Ok _ => (Ok tt, st2)
          | Throw e => (Ok tt, printed (Err (updateErrorMessage name) e) st2)
          end
      | _, _ => (Ok tt, printed (Warn (notFoundMessage name)) st1)
      end
  end.
Proof.
  unfold adjustItem, tryCatch, bind, getItems, updateItem, logWarn, logError, ret.
  destruct (respondGetItems api (requests st) name) as [items|e]; [|reflexivity].
  destruct (findItem name items) as [i|]; [|reflexivity].
  destruct (foundId (Some i)) as [id|]; [|reflexivity].
  cbn zeta.
  destruct (respondUpdateItem api _ id _); reflexivity.
Qed.

Lemma adjustItem_ok newStock entry st :
  fst (adjustItem api newStock entry st) = Ok tt.
Proof.
  destruct entry as [name kg]. rewrite adjustItem_unfold. cbn zeta.
  repeat case_match; reflexivity.
Qed.

Lemma adjustItem_processed newStock entry st :
  processedInvoices (snd (adjustItem api newStock entry st)) = processedInvoices st.
Proof.
  destruct entry as [name kg]. rewrite adjustItem_unfold. cbn zeta.
  repeat case_match; reflexivity.
Qed.

Lemma adjustItem_later newStock entry st :
  later st (snd (adjustItem api newStock entry st)).
Proof.
  destruct entry as [name kg]. rewrite adjustItem_unfold. cbn zeta.
  repeat case_match; cbn [snd];
    repeat (etransitivity; [|first [apply later_printed | apply later_sent]]);
    reflexivity.
Qed.

Lemma adjustItem_requests newStock name kg st :
  exists k,
    requests (snd (adjustItem api newStock (name, kg) st)) = requests st ++ k
    /\ lookups k = [name]
    /\ Forall (fun c => match c with
                        | GetItems _ => True
                        | UpdateItem _ v => exists o, v = newStock o kg
                        | _ => False
                        end) k.
Proof.
  rewrite adjustItem_unfold. cbn zeta.
  repeat case_match; cbn [snd sent printed requests]; rewrite <- ?app_assoc;
    eexists; (split; [reflexivity|]); (split; [reflexivity|]);
    repeat constructor; eauto.
Qed.

Lemma forEach_cons newStock entry entries st :
  forEach (adjustItem api newStock) (entry :: entries) st =
  forEach (adjustItem api newStock) entries
    (snd (adjustItem api newStock entry st)).
Proof.
  cbn [forEach]. unfold bind.
  pose proof (adjustItem_ok newStock entry st) as H.
  destruct (adjustItem api newStock entry st) as [[[]|e] st']; [reflexivity|].
  discriminate H.
Qed.

Lemma forEach_ok newStock entries st :
  fst (forEach (adjustItem api newStock) entries st) = Ok tt.
Proof.
  revert st. induction entries as [|x l IH]; intros st; [reflexivity|].
  rewrite forEach_cons. apply IH.
Qed.

Lemma forEach_processed newStock entries st :
  processedInvoices (snd (forEach (adjustItem api newStock) entries st))
  = processedInvoices st.
Proof.
  revert st. induction entries as [|x l IH]; intros st; [reflexivity|].
  rewrite forEach_cons, IH. apply adjustItem_processed.
Qed.

Lemma forEach_later newStock entries st :
  later st (snd (forEach (adjustItem api newStock) entries st)).
Proof.
  revert st. induction entries as [|x l IH]; intros st; [reflexivity|].
  rewrite forEach_cons. etransitivity; [apply adjustItem_later | apply IH].
Qed.

(** Whatever the collaborator answers, the loop looks up every entry once,
    in order, and sends nothing but look-ups and item updates. *)
Lemma forEach_requests newStock entries st :
  exists k,
    requests (snd (forEach (adjustItem api newStock) entries st)) = requests st ++ k
    /\ lookups k = map fst entries
    /\ Forall (fun c => match c with
                        | GetItems _ => True
                        | UpdateItem _ v => exists o kg, v = newStock o kg
                        | _ => False
                        end) k.
Proof.
  revert st. induction entries as [|[name kg] l IH]; intros st.
  - exists []. cbn. rewrite app_nil_r. repeat split. constructor.
  - rewrite forEach_cons.
    destruct (adjustItem_requests newStock name kg st) as (k1 & E1 & L1 & F1).
    destruct (IH (snd (adjustItem api newStock (name, kg) st))) as (k2 & E2 & L2 & F2).
    exists (k1 ++ k2). rewrite E2, E1, <- app_assoc. split; [reflexivity|].
    split.
    + unfold lookups in *. rewrite omap_app, L1, L2. reflexivity.
    + apply Forall_app. split; [|exact F2].
      eapply Forall_impl; [exact F1|]. intros [] H; try exact H.
      destruct H as [o ->]. eauto.
Qed.

(** Every entry of the map gets its turn, in some later state, and what the
    turn leaves stays in the final state. *)
Lemma forEach_turn newStock entries st entry :
  In entry entries ->
  exists st1,
    later st st1
    /\ later (snd (adjustItem api newStock entry st1))
             (snd (forEach (adjustItem api newStock) entries st)).
Proof.
  revert st. induction entries as [|x l IH]; intros st Hin; [destruct Hin|].
  rewrite forEach_cons. destruct Hin as [->|Hin].
  - exists st. split; [reflexivity | apply forEach_later].
  - destruct (IH (snd (adjustItem api newStock x st)) Hin) as (st1 & H1 & H2).
    exists st1. split; [|exact H2].
    etransitivity; [apply adjustItem_later | exact H1].
Qed.

Lemma adjustItem_outcome newStock name kg st final :
  later (snd (adjustItem api newStock (name, kg) st)) final ->
  turnOutcome api newStock name kg st final.
Proof.
  rewrite adjustItem_unfold. cbn zeta. unfold turnOutcome.
  intros [Hreq Hcon].
  destruct (respondGetItems api (requests st) name) as [items|e].
  - destruct (findItem name items) as [i|] eqn:Hi.
    + destruct (foundId (Some i)) as [id|] eqn:Hid.
      * cbn zeta.
        destruct (respondUpdateItem api (requests (sent (GetItems name) st)) id _)
          as [it|e] eqn:Hupd; cbn [snd sent printed requests console] in *;
          rewrite <- app_assoc in Hreq; cbn [app] in Hreq.
        -- split; [|split; [exact Hreq|]].
           ++ etransitivity; [|exact Hreq].
              apply prefix_app, prefix_cons, prefix_nil.
           ++ intros e He. congruence.
        -- split; [|split; [exact Hreq|]].
           ++ etransitivity; [|exact Hreq].
              apply prefix_app, prefix_cons, prefix_nil.
           ++ intros e' He'. rewrite Hupd in He'. injection He' as <-.
              destruct Hcon as [k ->]. rewrite !in_app_iff. left. right. now left.
      * cbn [snd sent printed requests console] in *. split; [exact Hreq|].
        destruct Hcon as [k ->]. rewrite !in_app_iff. left. right. now left.
    + cbn [snd sent printed requests console foundId] in *. split; [exact Hreq|].
      destruct Hcon as [k ->]. rewrite !in_app_iff. left. right. now left.
  - cbn [snd sent printed requests console] in *. split; [exact Hreq|].
    destruct Hcon as [k ->]. rewrite !in_app_iff. left. right. now left.
Qed.

Lemma forEach_run newStock entries st :
  forEach (adjustItem api newStock) entries st =
  (Ok tt, snd (forEach (adjustItem api newStock) entries st)).
Proof.
  pose proof (forEach_ok newStock entries st) as H.
  destruct (forEach (adjustItem api newStock) entries st) as [r st'].
  cbn in *. now subst.
Qed.

Lemma updateStockOnSale_empty invoiceId st :
  updateStockOnSale api [] invoiceId st = (Ok tt, st).
Proof. reflexivity. Qed.

Lemma updateStockOnSale_skip soldItems invoiceId st :
  alreadyProcessed invoiceId st = true ->
  updateStockOnSale api soldItems invoiceId st = (Ok tt, st).
Proof.
  intros H. destruct soldItems; [reflexivity|].
  unfold updateStockOnSale, tryCatch. now rewrite H.
Qed.

(** A call that gets past the two guards, case by case. *)
Lemma updateStockOnSale_unfold soldItems invoiceId st :
  soldItems <> [] ->
  alreadyProcessed invoiceId st = false ->
  updateStockOnSale api soldItems invoiceId st =
  match bardanaFailure api subtract soldItems st with
  | Some e =>
      (Throw e,
       printed (Err "Error updating stock on sale:" e)
         (afterBardana subtract soldItems st))
  | None =>
      (Ok tt,
       marked invoiceId
         (snd (forEach (adjustItem api stockAfterSale) (consolidate soldItems)
                 (afterBardana subtract soldItems st))))
  end.
Proof.
  intros Hne Hfresh. destruct soldItems as [|s l]; [congruence|].
  unfold updateStockOnSale, tryCatch. rewrite Hfresh.
  unfold bardanaFailure, afterBardana.
  set (items := s :: l). unfold bind at 1.
  destruct (gt (totalQuantity items) zero).
  - unfold bind at 1, updateBardanaStock.
    destruct (respondUpdateBardanaStock api (requests st) subtract
                (totalQuantity items)) as [it|e]; [|reflexivity].
    unfold ret at 1, bind. rewrite forEach_run.
    destruct invoiceId as [id|]; [|reflexivity].
    unfold marked. now destruct (truthyStr id).
  - unfold ret at 1, bind. rewrite forEach_run.
    destruct invoiceId as [id|]; [|reflexivity].
    unfold marked. now destruct (truthyStr id).
Qed.

Lemma updateStockOnPurchase_unfold purchasedItems st :
  purchasedItems <> [] ->
  updateStockOnPurchase api purchasedItems st =
  match bardanaFailure api add purchasedItems st with
  | Some e =>
      (Throw e,
       printed (Err "Error updating stock on purchase:" e)
         (afterBardana add purchasedItems st))
  | None =>
      (Ok tt,
       snd (forEach (adjustItem api stockAfterPurchase)
              (consolidate purchasedItems)
              (afterBardana add purchasedItems st)))
  end.
Proof.
  intros Hne. destruct purchasedItems as [|s l]; [congruence|].
  unfold updateStockOnPurchase, tryCatch.
  unfold bardanaFailure, afterBardana.
  set (items := s :: l). unfold bind at 1.
  destruct (gt (totalQuantity items) zero).
  - unfold bind at 1, updateBardanaStock.
    destruct (respondUpdateBardanaStock api (requests st) add
                (totalQuantity items)) as [it|e]; [|reflexivity].
    unfold ret at 1. now rewrite forEach_run.
  - unfold ret at 1. now rewrite forEach_run.
Qed.

End StockFacts.

Section StockCalls.

Variable api : ItemsApi.

Lemma requestsSince_app st st' k :
  requests st' = requests st ++ k -> requestsSince st st' = k.
Proof. intros H. unfold requestsSince. rewrite H. apply drop_app_length. Qed.

Lemma requests_marked invoiceId st : requests (marked invoiceId st) = requests st.
Proof. destruct invoiceId as [id|]; [|reflexivity]. cbn. now destruct (truthyStr id). Qed.

Lemma console_marked invoiceId st : console (marked invoiceId st) = console st.
Proof. destruct invoiceId as [id|]; [|reflexivity]. cbn. now destruct (truthyStr id). Qed.

Lemma later_marked invoiceId st : later st (marked invoiceId st).
Proof. split; [rewrite requests_marked | rewrite console_marked]; reflexivity. Qed.

Lemma requests_afterBardana operation items st :
  requests (afterBardana operation items st)
  = requests st ++ bardanaCalls operation items.
Proof.
  unfold afterBardana, bardanaCalls.
  destruct (gt _ _); cbn; [reflexivity | now rewrite app_nil_r].
Qed.

Lemma later_afterBardana operation items st :
  later st (afterBardana operation items st).
Proof. unfold afterBardana. destruct (gt _ _); [apply later_sent | reflexivity]. Qed.

(** The requests of a sale that gets past the guards: the Bardana update,
    then look-ups and item updates only. *)
Lemma sale_requests soldItems invoiceId st :
  soldItems <> [] ->
  alreadyProcessed invoiceId st = false ->
  exists k,
    requests (snd (updateStockOnSale api soldItems invoiceId st))
    = requests st ++ bardanaCalls subtract soldItems ++ k
    /\ (bardanaFailure api subtract soldItems st = None ->
        lookups k = map fst (consolidate soldItems))
    /\ Forall (fun c => match c with
                        | GetItems _ => True
                        | UpdateItem _ v => exists o kg, v = stockAfterSale o kg
                        | _ => False
                        end) k.
Proof.
  intros Hne Hfresh. rewrite updateStockOnSale_unfold by assumption.
  destruct (bardanaFailure api subtract soldItems st) as [e|].
  - exists []. split; [|split; [discriminate | constructor]].
    cbn [snd printed requests].
    now rewrite requests_afterBardana, app_nil_r.
  - destruct (forEach_requests api stockAfterSale (consolidate soldItems)
                (afterBardana subtract soldItems st)) as (k & E & L & F).
    exists k. split; [|split; [intros _; exact L | exact F]].
    cbn [snd].
    now rewrite requests_marked, E, requests_afterBardana, <- app_assoc.
Qed.

Lemma purchase_requests purchasedItems st :
  purchasedItems <> [] ->
  exists k,
    requests (snd (updateStockOnPurchase api purchasedItems st))
    = requests st ++ bardanaCalls add purchasedItems ++ k
    /\ (bardanaFailure api add purchasedItems st = None ->
        lookups k = map fst (consolidate purchasedItems))
    /\ Forall (fun c => match c with
                        | GetItems _ => True
                        | UpdateItem _ v => exists o kg, v = stockAfterPurchase o kg
                        | _ => False
                        end) k.
Proof.
  intros Hne. rewrite updateStockOnPurchase_unfold by assumption.
  destruct (bardanaFailure api add purchasedItems st) as [e|].
  - exists []. split; [|split; [discriminate | constructor]].
    cbn [snd printed requests].
    now rewrite requests_afterBardana, app_nil_r.
  - destruct (forEach_requests api stockAfterPurchase (consolidate purchasedItems)
                (afterBardana add purchasedItems st)) as (k & E & L & F).
    exists k. split; [|split; [intros _; exact L | exact F]].
    cbn [snd].
    now rewrite E, requests_afterBardana, <- app_assoc.
Qed.

Lemma filter_bardana_item_calls (newStock : number -> number -> number) k :
  Forall (fun c => match c with
                   | GetItems _ => True
                   | UpdateItem _ v => exists o kg, v = newStock o kg
                   | _ => False
                   end) k ->
  List.filter isBardanaCall k = [].
Proof.
  induction 1 as [|c k Hc _ IH]; [reflexivity|].
  destruct c; cbn; try exact IH; destruct Hc.
Qed.

(** The turn of every consolidated item of a sale or purchase. *)
Lemma turns_of_loop newStock entries st0 final name kg :
  later (snd (forEach (adjustItem api newStock) entries st0)) final ->
  In (name, kg) entries ->
  exists st1, later st0 st1 /\ turnOutcome api newStock name kg st1 final.
Proof.
  intros Hfinal Hin.
  destruct (forEach_turn api newStock entries st0 (name, kg) Hin) as (st1 & H1 & H2).
  exists st1. split; [exact H1|].
  apply adjustItem_outcome. etransitivity; eassumption.
Qed.

Lemma totalQuantity_quantities items :
  totalQuantity items = fold_left JS.add (map quantity items) zero.
Proof.
  unfold totalQuantity. generalize zero.
  induction items as [|x l IH]; intros acc; [reflexivity|]. cbn. apply IH.
Qed.

Lemma bardanaAfter_round_trip stockBags q :
  gt q zero = true ->
  bardanaAfter (bardanaAfter stockBags (UpdateBardanaStock subtract q))
               (UpdateBardanaStock add q) = stockBags.
Proof.
  destruct q as [k|]; [intros _|discriminate].
  destruct stockBags as [s|]; [|reflexivity].
  unfold bardanaAfter, ofZ. cbn [JS.mul JS.sub JS.add]. unfold JS.div.
  destruct (decide (Qc_of_Z 30 = 0%Qc)) as [H30|H30];
    [now apply thirty_nonzero in H30|].
  cbn [JS.mul JS.add]. f_equal. field. exact H30.
Qed.

End StockCalls.

(** C5.  In a sale that reaches the per-item loop, every consolidated pair
    (item name, total kg) gets its turn; when its look-up finds an item with
    an id, the update sent for it carries
    max(0, round((openingStock - kg/30) * 100) / 100) bags.  That value is
    never negative, and it is exactly 0 when openingStock - kg/30 is below
    zero.  No item update sent by the call carries a negative stock. *)
Theorem sale_stock_floor api soldItems invoiceId st name kg :
  soldItems <> [] ->
  alreadyProcessed invoiceId st = false ->
  bardanaFailure api subtract soldItems st = None ->
  In (name, kg) (consolidate soldItems) ->
  let final := snd (updateStockOnSale api soldItems invoiceId st) in
  (exists st1,
      later st st1
      /\ (requests st1 ++ [GetItems name]) `prefix_of` requests final
      /\ forall items i id,
          respondGetItems api (requests st1) name = Ok items ->
          findItem name items = Some i ->
          foundId (Some i) = Some id ->
          let v := JS.max zero
                     (round ((openingStock i - kg / ofZ 30) * ofZ 100) / ofZ 100)%js in
          (requests st1 ++ [GetItems name; UpdateItem id v])
            `prefix_of` requests final
          /\ lt v zero = false
          /\ (lt (openingStock i - kg / ofZ 30)%js zero = true -> v = zero))
  /\ (forall id v, In (UpdateItem id v) (requestsSince st final) -> lt v zero = false).
Proof.
  intros Hne Hfresh Hbardana Hin final. split.
  - assert (Hfinal : final
      = marked invoiceId
          (snd (forEach (adjustItem api stockAfterSale) (consolidate soldItems)
                  (afterBardana subtract soldItems st)))).
    { unfold final. rewrite updateStockOnSale_unfold by assumption.
      now rewrite Hbardana. }
    destruct (turns_of_loop api stockAfterSale (consolidate soldItems)
                (afterBardana subtract soldItems st) final name kg)
      as (st1 & Hlater & Hturn).
    { rewrite Hfinal. apply later_marked. }
    { exact Hin. }
    exists st1. split.
    { etransitivity; [apply later_afterBardana | exact Hlater]. }
    destruct Hturn as [Hlookup Hturn]. split; [exact Hlookup|].
    intros items i id Hget Hfind Hid v.
    rewrite Hget, Hfind, Hid in Hturn.
    destruct Hturn as [Hsent _].
    split; [exact Hsent|]. split.
    + apply stockAfterSale_not_negative.
    + apply stockAfterSale_clamps.
  - intros id v Hv.
    destruct (sale_requests api soldItems invoiceId st Hne Hfresh)
      as (k & Hreq & _ & Hk).
    unfold final in Hv. rewrite (requestsSince_app _ _ _ Hreq) in Hv.
    apply in_app_or in Hv. destruct Hv as [Hv|Hv].
    + unfold bardanaCalls in Hv. destruct (gt _ _); cbn in Hv; [|tauto].
      destruct Hv as [Hv|[]]. discriminate Hv.
    + rewrite Forall_forall in Hk. apply list_elem_of_In, Hk in Hv. cbn in Hv.
      destruct Hv as (o & q & ->). apply stockAfterSale_not_negative.
Qed.

(** The rice of the sample sale: 100 kg sold out of one bag. *)
Lemma sale_stock_floor_witness :
  let final := snd (updateStockOnSale shop sale1 (Some "INV-1") start) in
  (exists st1,
      later start st1
      /\ (requests st1 ++ [GetItems "Rice"]) `prefix_of` requests final
      /\ forall items i id,
          respondGetItems shop (requests st1) "Rice" = Ok items ->
          findItem "Rice" items = Some i ->
          foundId (Some i) = Some id ->
          let v := JS.max zero
                     (round ((openingStock i - (zero + ofZ 100) / ofZ 30) * ofZ 100)
                      / ofZ 100)%js in
          (requests st1 ++ [GetItems "Rice"; UpdateItem id v])
            `prefix_of` requests final
          /\ lt v zero = false
          /\ (lt (openingStock i - (zero + ofZ 100) / ofZ 30)%js zero = true -> v = zero))
  /\ (forall id v, In (UpdateItem id v) (requestsSince start final) -> lt v zero = false).
Proof.
  apply (sale_stock_floor shop sale1 (Some "INV-1") start "Rice" (zero + ofZ 100)%js).
  - discriminate.
  - reflexivity.
  - reflexivity.
  - left. reflexivity.
Defined.

(** C6, as stated, fails for the empty transaction id: the call completes,
    the id is not recorded, and a second call with it sends the Bardana
    update again. *)
Lemma empty_id_not_recorded :
  let first := updateStockOnSale shop sale1 (Some "") start in
  let second := updateStockOnSale shop sale1 (Some "") (snd first) in
  fst first = Ok tt
  /\ isInvoiceProcessed "" (snd first) = false
  /\ fst second = Ok tt
  /\ List.filter isBardanaCall (requests (snd second))
     = [UpdateBardanaStock subtract (totalQuantity sale1);
        UpdateBardanaStock subtract (totalQuantity sale1)].
Proof. cbv zeta. repeat split. Qed.

(** C6, amended.  For a non-empty transaction id: when the id is already in
    the processed set the call returns at once and leaves the state as it
    was, so no request is sent; after a completed call with a fresh id and a
    non-empty item list, [isInvoiceProcessed] answers true for the id and a
    second call with it changes nothing. *)
Theorem sale_idempotent_for_given_id api soldItems id st :
  truthyStr id = true ->
  (id ∈ processedInvoices st ->
   updateStockOnSale api soldItems (Some id) st = (Ok tt, st))
  /\ (soldItems <> [] ->
      id ∉ processedInvoices st ->
      fst (updateStockOnSale api soldItems (Some id) st) = Ok tt ->
      let st' := snd (updateStockOnSale api soldItems (Some id) st) in
      isInvoiceProcessed id st' = true
      /\ updateStockOnSale api soldItems (Some id) st' = (Ok tt, st')
      /\ requestsSince st' (snd (updateStockOnSale api soldItems (Some id) st')) = []).
Proof.
  intros Hid. split.
  - intros Hin. apply updateStockOnSale_skip. cbn. rewrite Hid.
    now apply bool_decide_eq_true.
  - intros Hne Hfresh Hok st'.
    assert (Hrun : alreadyProcessed (Some id) st = false).
    { cbn. rewrite Hid. now apply bool_decide_eq_false. }
    assert (Hmarked : id ∈ processedInvoices st').
    { unfold st' in *. rewrite updateStockOnSale_unfold in * by assumption.
      destruct (bardanaFailure api subtract soldItems st); [discriminate Hok|].
      cbn. rewrite Hid. cbn. set_solver. }
    assert (Hskip : updateStockOnSale api soldItems (Some id) st' = (Ok tt, st')).
    { apply updateStockOnSale_skip. cbn. rewrite Hid.
      now apply bool_decide_eq_true. }
    split; [now apply bool_decide_eq_true|]. split; [exact Hskip|].
    rewrite Hskip. apply requestsSince_app. cbn. now rewrite app_nil_r.
Qed.

(** The sample sale under the id INV-1, called twice. *)
Lemma sale_idempotent_for_given_id_witness :
  ("INV-1" ∈ processedInvoices start ->
   updateStockOnSale shop sale1 (Some "INV-1") start = (Ok tt, start))
  /\ (let st' := snd (updateStockOnSale shop sale1 (Some "INV-1") start) in
      isInvoiceProcessed "INV-1" st' = true
      /\ updateStockOnSale shop sale1 (Some "INV-1") st' = (Ok tt, st')
      /\ requestsSince st' (snd (updateStockOnSale shop sale1 (Some "INV-1") st')) = []).
Proof.
  destruct (sale_idempotent_for_given_id shop sale1 "INV-1" start eq_refl)
    as [Hskip Hfirst].
  split; [exact Hskip|].
  apply Hfirst.
  - discriminate.
  - apply not_elem_of_empty.
  - reflexivity.
Defined.

(** C7.  For line items totalling q > 0 kg, a sale that gets past its guards
    sends exactly one Bardana update, "subtract q", and a purchase exactly
    one, "add q"; q is the sum of the quantities and does not depend on the
    item names.  With both updates accepted, the Bardana stock of the
    collaborator is after the sale and the purchase what it was before. *)
Theorem bardana_symmetry api sold purchased invoiceId st q :
  totalQuantity sold = q ->
  totalQuantity purchased = q ->
  gt q zero = true ->
  alreadyProcessed invoiceId st = false ->
  let st1 := snd (updateStockOnSale api sold invoiceId st) in
  let st2 := snd (updateStockOnPurchase api purchased st1) in
  bardanaFailure api subtract sold st = None ->
  bardanaFailure api add purchased st1 = None ->
  List.filter isBardanaCall (requestsSince st st1) = [UpdateBardanaStock subtract q]
  /\ List.filter isBardanaCall (requestsSince st1 st2) = [UpdateBardanaStock add q]
  /\ q = fold_left JS.add (map quantity sold) zero
  /\ q = fold_left JS.add (map quantity purchased) zero
  /\ (forall stockBags,
        fold_left bardanaAfter
          (List.filter isBardanaCall (requestsSince st st2)) stockBags
        = stockBags).
Proof.
  intros Hsold Hpurchased Hq Hfresh st1 st2 _ _.
  assert (Hne1 : sold <> []).
  { intros ->. rewrite <- Hsold in Hq. discriminate Hq. }
  assert (Hne2 : purchased <> []).
  { intros ->. rewrite <- Hpurchased in Hq. discriminate Hq. }
  destruct (sale_requests api sold invoiceId st Hne1 Hfresh) as (k1 & E1 & _ & F1).
  destruct (purchase_requests api purchased st1 Hne2) as (k2 & E2 & _ & F2).
  fold st1 in E1. fold st2 in E2.
  unfold bardanaCalls in E1, E2. rewrite Hsold, Hq in E1. rewrite Hpurchased, Hq in E2.
  apply filter_bardana_item_calls in F1, F2.
  assert (H1 : List.filter isBardanaCall (requestsSince st st1)
               = [UpdateBardanaStock subtract q]).
  { rewrite (requestsSince_app _ _ _ E1). cbn. now rewrite F1. }
  assert (H2 : List.filter isBardanaCall (requestsSince st1 st2)
               = [UpdateBardanaStock add q]).
  { rewrite (requestsSince_app _ _ _ E2). cbn. now rewrite F2. }
  split; [exact H1|]. split; [exact H2|].
  split; [rewrite <- Hsold; apply totalQuantity_quantities|].
  split; [rewrite <- Hpurchased; apply totalQuantity_quantities|].
  intros stockBags.
  assert (E : requests st2
              = requests st ++ ([UpdateBardanaStock subtract q] ++ k1)
                ++ [UpdateBardanaStock add q] ++ k2).
  { rewrite E2, E1. now rewrite <- !app_assoc. }
  rewrite (requestsSince_app _ _ _ E).
  rewrite !List.filter_app, F1, F2. cbn [List.filter isBardanaCall app fold_left].
  now apply bardanaAfter_round_trip.
Qed.

(** The sample sale of 190 kg followed by the sample purchase of 190 kg. *)
Lemma bardana_symmetry_witness :
  let st1 := snd (updateStockOnSale shop sale1 (Some "INV-1") start) in
  let st2 := snd (updateStockOnPurchase shop purchase1 st1) in
  List.filter isBardanaCall (requestsSince start st1)
    = [UpdateBardanaStock subtract (totalQuantity sale1)]
  /\ List.filter isBardanaCall (requestsSince st1 st2)
    = [UpdateBardanaStock add (totalQuantity sale1)]
  /\ totalQuantity sale1 = fold_left JS.add (map quantity sale1) zero
  /\ totalQuantity sale1 = fold_left JS.add (map quantity purchase1) zero
  /\ (forall stockBags,
        fold_left bardanaAfter
          (List.filter isBardanaCall (requestsSince start st2)) stockBags
        = stockBags).
Proof.
  apply (bardana_symmetry shop sale1 purchase1 (Some "INV-1") start
           (totalQuantity sale1)).
  - reflexivity.
  - apply Num_eq. vm_compute. reflexivity.
  - reflexivity.
  - reflexivity.
  - reflexivity.
  - reflexivity.
Defined.

(** C8.  In a sale or purchase that gets past its guards, the call throws
    exactly when the Bardana update at its head is rejected, with that
    error.  Otherwise it completes, whatever the collaborator answers in the
    loop: every consolidated item is looked up, once and in order, and each
    leaves its outcome in the final state -- a logged error when its look-up
    or its update is rejected, a logged warning when no item with an id is
    found, and otherwise the update of its stock.  A call stopped by a guard
    (no items, or an invoice already processed) returns without an error. *)
Theorem best_effort_per_item api :
  (forall soldItems invoiceId st,
      soldItems <> [] ->
      alreadyProcessed invoiceId st = false ->
      let r := updateStockOnSale api soldItems invoiceId st in
      match bardanaFailure api subtract soldItems st with
      | Some e => fst r = Throw e
      | None =>
          fst r = Ok tt
          /\ lookups (requestsSince st (snd r)) = map fst (consolidate soldItems)
          /\ forall name kg,
              In (name, kg) (consolidate soldItems) ->
              exists st1,
                later st st1
                /\ turnOutcome api stockAfterSale name kg st1 (snd r)
      end)
  /\ (forall purchasedItems st,
        purchasedItems <> [] ->
        let r := updateStockOnPurchase api purchasedItems st in
        match bardanaFailure api add purchasedItems st with
        | Some e => fst r = Throw e
        | None =>
            fst r = Ok tt
            /\ lookups (requestsSince st (snd r))
               = map fst (consolidate purchasedItems)
            /\ forall name kg,
                In (name, kg) (consolidate purchasedItems) ->
                exists st1,
                  later st st1
                  /\ turnOutcome api stockAfterPurchase name kg st1 (snd r)
        end)
  /\ (forall soldItems invoiceId st,
        soldItems = [] \/ alreadyProcessed invoiceId st = true ->
        updateStockOnSale api soldItems invoiceId st = (Ok tt, st))
  /\ (forall st, updateStockOnPurchase api [] st = (Ok tt, st)).
Proof.
  split; [|split; [|split]].
  - intros soldItems invoiceId st Hne Hfresh r.
    destruct (sale_requests api soldItems invoiceId st Hne Hfresh)
      as (k & Hreq & Hlook & Hk).
    unfold r in *. clear r.
    rewrite updateStockOnSale_unfold in * by assumption.
    destruct (bardanaFailure api subtract soldItems st) as [e|]; [reflexivity|].
    split; [reflexivity|]. split.
    + rewrite (requestsSince_app _ _ _ Hreq). unfold lookups in *.
      rewrite omap_app, Hlook by reflexivity.
      unfold bardanaCalls. now destruct (gt _ _).
    + intros name kg Hin. cbn [snd].
      destruct (turns_of_loop api stockAfterSale (consolidate soldItems)
                  (afterBardana subtract soldItems st)
                  (marked invoiceId
                     (snd (forEach (adjustItem api stockAfterSale)
                             (consolidate soldItems)
                             (afterBardana subtract soldItems st))))
                  name kg (later_marked _ _) Hin) as (st1 & H1 & H2).
      exists st1. split; [|exact H2].
      etransitivity; [apply later_afterBardana | exact H1].
  - intros purchasedItems st Hne r.
    destruct (purchase_requests api purchasedItems st Hne)
      as (k & Hreq & Hlook & Hk).
    unfold r in *. clear r.
    rewrite updateStockOnPurchase_unfold in * by assumption.
    destruct (bardanaFailure api add purchasedItems st) as [e|]; [reflexivity|].
    split; [reflexivity|]. split.
    + rewrite (requestsSince_app _ _ _ Hreq). unfold lookups in *.
      rewrite omap_app, Hlook by reflexivity.
      unfold bardanaCalls. now destruct (gt _ _).
    + intros name kg Hin. cbn [snd].
      destruct (turns_of_loop api stockAfterPurchase (consolidate purchasedItems)
                  (afterBardana add purchasedItems st) _
                  name kg (reflexivity _) Hin) as (st1 & H1 & H2).
      exists st1. split; [|exact H2].
      etransitivity; [apply later_afterBardana | exact H1].
  - intros soldItems invoiceId st [->|H];
      [apply updateStockOnSale_empty | now apply updateStockOnSale_skip].
  - reflexivity.
Qed.

(** The sale of the examples, request by request: rice is clamped to 0 bags,
    sugar is not in the catalog, the update of wheat is rejected, and the
    call completes and records the invoice. *)
Example sale1_trace :
  let r := updateStockOnSale shop sale1 (Some "INV-1") start in
  fst r = Ok tt
  /\ requests (snd r)
     = [UpdateBardanaStock subtract (totalQuantity sale1);
        GetItems "Rice";
        UpdateItem "i1" (stockAfterSale (ofZ 1) (zero + ofZ 100)%js);
        GetItems "Sugar";
        GetItems "Wheat";
        UpdateItem "i2" (stockAfterSale (ofZ 10) (zero + ofZ 60)%js)]
  /\ console (snd r)
     = [Warn "Item Sugar not found in backend";
        Err "Error updating stock for Wheat:" (ApiError "Request failed")]
  /\ stockAfterSale (ofZ 1) (zero + ofZ 100)%js = zero
  /\ stockAfterSale (ofZ 10) (zero + ofZ 60)%js = ofZ 8
  /\ isInvoiceProcessed "INV-1" (snd r) = true.
Proof.
  cbv zeta. repeat split.
  apply Num_eq. vm_compute. reflexivity.
Qed.

(** The sample sale: the rejected update of wheat is logged and the call
    completes; with the Bardana endpoint down the call throws. *)
Lemma best_effort_per_item_witness :
  let r := updateStockOnSale shop sale1 (Some "INV-1") start in
  fst r = Ok tt
  /\ lookups (requestsSince start (snd r)) = ["Rice"; "Sugar"; "Wheat"]
  /\ (exists st1,
        later start st1
        /\ turnOutcome shop stockAfterSale "Wheat" (zero + ofZ 60)%js st1 (snd r))
  /\ fst (updateStockOnSale shopBardanaDown sale1 (Some "INV-1") start)
     = Throw (ApiError "Request failed").
Proof.
  destruct (best_effort_per_item shop) as [Hsale _].
  pose proof (Hsale sale1 (Some "INV-1") start ltac:(discriminate) eq_refl)
    as (Hok & Hlook & Hturn).
  split; [exact Hok|]. split; [exact Hlook|]. split.
  - apply Hturn. right. right. left. reflexivity.
  - destruct (best_effort_per_item shopBardanaDown) as [Hdown _].
    exact (Hdown sale1 (Some "INV-1") start ltac:(discriminate) eq_refl).
Defined.

(** C10, as stated, fails for the empty transaction id: the Bardana update
    is accepted and the call completes, yet the processed set is left as it
    was. *)
Lemma empty_id_not_added :
  let r := updateStockOnSale shop sale2 (Some "") start in
  ("" ∉ processedInvoices start)
  /\ bardanaFailure shop subtract sale2 start = None
  /\ fst r = Ok tt
  /\ processedInvoices (snd r) = processedInvoices start
  /\ ("" ∉ processedInvoices (snd r)).
Proof.
  cbv zeta. split; [apply not_elem_of_empty|].
  split; [reflexivity|]. split; [reflexivity|].
  split; [reflexivity|]. apply not_elem_of_empty.
Qed.

(** C10, amended.  For a non-empty, fresh transaction id and a non-empty item
    list: when the Bardana update is accepted (or not needed) the call
    completes and the id is in the processed set afterwards, whatever
    happened to the look-ups and updates of the items, so that a second call
    with it returns at once; when the Bardana update is rejected the call
    throws that error and the processed set is what it was. *)
Theorem processed_iff_bardana_accepted api soldItems id st :
  truthyStr id = true ->
  soldItems <> [] ->
  id ∉ processedInvoices st ->
  let r := updateStockOnSale api soldItems (Some id) st in
  match bardanaFailure api subtract soldItems st with
  | None =>
      fst r = Ok tt
      /\ processedInvoices (snd r) = {[id]} ∪ processedInvoices st
      /\ updateStockOnSale api soldItems (Some id) (snd r) = (Ok tt, snd r)
  | Some e =>
      fst r = Throw e
      /\ processedInvoices (snd r) = processedInvoices st
  end.
Proof.
  intros Hid Hne Hfresh r.
  assert (Hrun : alreadyProcessed (Some id) st = false).
  { cbn. rewrite Hid. now apply bool_decide_eq_false. }
  unfold r. rewrite updateStockOnSale_unfold by assumption.
  destruct (bardanaFailure api subtract soldItems st) as [e|].
  - split; [reflexivity|]. cbn [snd printed processedInvoices].
    unfold afterBardana. now destruct (gt _ _).
  - cbn [fst snd].
    assert (Hset : processedInvoices
                     (marked (Some id)
                        (snd (forEach (adjustItem api stockAfterSale)
                                (consolidate soldItems)
                                (afterBardana subtract soldItems st))))
                   = {[id]} ∪ processedInvoices st).
    { cbn. rewrite Hid. cbn. rewrite forEach_processed.
      unfold afterBardana. now destruct (gt _ _). }
    split; [reflexivity|]. split; [exact Hset|].
    apply updateStockOnSale_skip. cbn [alreadyProcessed]. rewrite Hid.
    apply bool_decide_eq_true.
    replace (processedInvoices _) with ({[id]} ∪ processedInvoices st).
    apply elem_of_union_l, elem_of_singleton. reflexivity.
Qed.

(** The sample sale under the id INV-7, with the Bardana endpoint up and
    down. *)
Lemma processed_iff_bardana_accepted_witness :
  (let r := updateStockOnSale shop sale1 (Some "INV-7") start in
   fst r = Ok tt
   /\ processedInvoices (snd r) = {[ "INV-7" ]} ∪ processedInvoices start
   /\ updateStockOnSale shop sale1 (Some "INV-7") (snd r) = (Ok tt, snd r))
  /\ (let r := updateStockOnSale shopBardanaDown sale1 (Some "INV-7") start in
      fst r = Throw (ApiError "Request failed")
      /\ processedInvoices (snd r) = processedInvoices start).
Proof.
  split.
  - apply (processed_iff_bardana_accepted shop sale1 "INV-7" start).
    + reflexivity.
    + discriminate.
    + apply not_elem_of_empty.
  - apply (processed_iff_bardana_accepted shopBardanaDown sale1 "INV-7" start).
    + reflexivity.
    + discriminate.
    + apply not_elem_of_empty.
Defined.

(** ** The kg and bag conversions in binary64 *)

Section BinaryForm.

Import Floats Binary64 BinaryExamples.
Local Open Scope float_scope.

Lemma handleSaveItem64_sends itemForm data :
  handleSaveItem itemForm = Some data ->
  upd_openingStock data = form_openingStock itemForm / 30
  /\ upd_lowStockAlert data = form_lowStockAlert itemForm / 30
  /\ invalid (form_openingStock itemForm) = false.
Proof.
  unfold handleSaveItem. intros H.
  repeat case_match; try discriminate H.
  injection H as <-. auto.
Qed.

(** C9, as stated, fails: 100 kg is not sent as 3.33 bags.  The form sends
    100/30 = 3.3333333333333335 bags, the quotient as binary64 gives it. *)
Lemma save_does_not_round :
  exists data,
    handleSaveItem (wheatForm 100) = Some data
    /\ upd_openingStock data = 3.3333333333333335
    /\ upd_openingStock data <> 3.33.
Proof.
  eexists. split; [reflexivity|]. cbn [upd_openingStock wheatForm form_openingStock].
  split; [reflexivity|]. vm_compute. discriminate.
Qed.

(** C9, amended.  In the program's arithmetic.  The opening stock entered in
    kg is sent as kg / 30, and the low stock alert likewise, with no
    rounding step beyond the division itself; the form shows a stored stock
    as bags * 30 and [getItemStock] returns that product rounded to whole
    kg.  So 900 kg is sent as exactly 30 bags, and 30 bags are shown as
    exactly 900 kg; 100 kg is sent as 3.3333333333333335 bags, which are
    shown as 100 kg, where 3.33 bags would be shown as 99.9 kg (100 from
    [getItemStock]).  Not every quantity comes back as entered: 31 kg is
    sent as 1.0333333333333334 bags, which are shown as
    31.000000000000004 kg. *)
Theorem opening_stock_conversion (itemForm : ItemForm) (data : UpdateData) :
  handleSaveItem itemForm = Some data ->
  upd_openingStock data = form_openingStock itemForm / 30
  /\ upd_lowStockAlert data = form_lowStockAlert itemForm / 30
  /\ (forall stored,
        form_openingStock (loadItem stored) = openingStock stored * 30
        /\ stockInKg stored = round (openingStock stored * 30))
  /\ (form_openingStock itemForm = 900 -> upd_openingStock data = 30)
  /\ (form_openingStock itemForm = 100 ->
      upd_openingStock data = 3.3333333333333335)
  /\ (form_openingStock itemForm = 31 ->
      upd_openingStock data = 1.0333333333333334)
  /\ (forall stored,
        (openingStock stored = 30 ->
         form_openingStock (loadItem stored) = 900 /\ stockInKg stored = 900)
        /\ (openingStock stored = 3.3333333333333335 ->
            form_openingStock (loadItem stored) = 100 /\ stockInKg stored = 100)
        /\ (openingStock stored = 3.33 ->
            form_openingStock (loadItem stored) = 99.9 /\ stockInKg stored = 100)
        /\ (openingStock stored = 1.0333333333333334 ->
            form_openingStock (loadItem stored) = 31.000000000000004
            /\ stockInKg stored = 31)).
Proof.
  intros Hsave. destruct (handleSaveItem64_sends _ _ Hsave) as (Ho & Hl & _).
  split; [exact Ho|]. split; [exact Hl|]. split; [intros; split; reflexivity|].
  rewrite Ho. split; [now intros ->|]. split; [now intros ->|].
  split; [now intros ->|].
  intros stored. unfold stockInKg. cbn [loadItem form_openingStock].
  split; [|split; [|split]]; intros ->; split; reflexivity.
Qed.

(** 900 kg entered for wheat. *)
Lemma opening_stock_conversion_witness :
  exists data,
    handleSaveItem (wheatForm 900) = Some data
    /\ upd_openingStock data = 30
    /\ form_openingStock (loadItem (wheatWith 30)) = 900
    /\ stockInKg (wheatWith 30) = 900.
Proof.
  eexists. split; [reflexivity|].
  destruct (opening_stock_conversion (wheatForm 900) _ eq_refl)
    as (_ & _ & _ & H900 & _ & _ & Hshown).
  split; [now apply H900|].
  now apply (Hshown (wheatWith 30)).
Defined.

(** The stock written by a purchase at a tie of the exact model: 0.375 bags
    and 6 kg make 57.49999999999999 hundredths in binary64, written as 0.57
    bags; and 0.125 bags less 3 kg are written as 0.02 bags. *)
Example stock_rounding_at_ties :
  stockAfterPurchase 0.375 6 = 0.57
  /\ stockAfterRevert 0.375 6 = 0.57
  /\ stockAfterSale 0.125 3 = 0.02
  /\ stockAfterSale 1 100 = 0.
Proof. repeat split; reflexivity. Qed.

(** Loading 0.03 bags and saving the form untouched sends
    0.029999999999999995 bags. *)
Example load_then_save_rounds :
  exists data,
    handleSaveItem (loadItem (wheatWith 0.03)) = Some data
    /\ upd_openingStock data = 0.029999999999999995.
Proof. eexists. split; reflexivity. Qed.

End BinaryForm.

(** * Further properties *)

(** ** Reversal of a sale *)

Import StockManagerRest MoreExamples.

Section RevertFacts.

Variable api : ItemsApi.

Lemma restoreItem_unfold name kg st :
  restoreItem api (name, kg) st =
  let st1 := sent (GetItems name) st in
  match respondGetItems api (requests st) name with
  | Throw e => (Ok tt, printed (Err (restoreErrorMessage name) e) st1)
  | Ok items =>
      match findItem name items, foundId (findItem name items) with
      | Some i, Some id =>
          let v := stockAfterRevert (openingStock i) kg in
          let st2 := sent (UpdateItem id v) st1 in
          match respondUpdateItem api (requests st1) id v with
          | Ok _ => (Ok tt, st2)
          | Throw e => (Ok tt, printed (Err (restoreErrorMessage name) e) st2)
          end
      | _, _ => (Ok tt, printed (Warn (notFoundMessage name)) st1)
      end
  end.
Proof.
  unfold restoreItem, tryCatch, bind, getItems, updateItem, logWarn, logError, ret.
  destruct (respondGetItems api (requests st) name) as [items|e]; [|reflexivity].
  destruct (findItem name items) as [i|]; [|reflexivity].
  destruct (foundId (Some i)) as [id|]; [|reflexivity].
  cbn zeta.
  destruct (respondUpdateItem api _ id _); reflexivity.
Qed.

(** A turn of the reversal and a turn of a purchase, begun with the same
    requests behind them, send the same requests. *)
Lemma restoreItem_like_purchase entry st st' :
  requests st = requests st' ->
  fst (restoreItem api entry st) = Ok tt
  /\ requests (snd (restoreItem api entry st))
     = requests (snd (adjustItem api stockAfterPurchase entry st'))
  /\ processedInvoices (snd (restoreItem api entry st)) = processedInvoices st.
Proof.
  intros Hreq. destruct entry as [name kg].
  rewrite restoreItem_unfold, adjustItem_unfold. cbn zeta. rewrite <- Hreq.
  change (stockAfterRevert) with stockAfterPurchase.
  destruct (respondGetItems api (requests st) name) as [items|e];
    [|cbn; now rewrite Hreq].
  destruct (findItem name items) as [i|]; [|cbn; now rewrite Hreq].
  destruct (foundId (Some i)) as [id|]; [|cbn; now rewrite Hreq].
  cbn [sent requests]. rewrite <- Hreq.
  destruct (respondUpdateItem api _ id _); cbn; now rewrite Hreq.
Qed.

Lemma forEach_restore_cons entry entries st :
  forEach (restoreItem api) (entry :: entries) st =
  forEach (restoreItem api) entries (snd (restoreItem api entry st)).
Proof.
  cbn [forEach]. unfold bind.
  destruct (restoreItem_like_purchase entry st st eq_refl) as (Hok & _).
  destruct (restoreItem api entry st) as [[[]|e] st1]; [reflexivity|].
  discriminate Hok.
Qed.

Lemma forEach_restore_like_purchase entries :
  forall st st',
    requests st = requests st' ->
    fst (forEach (restoreItem api) entries st) = Ok tt
    /\ requests (snd (forEach (restoreItem api) entries st))
       = requests (snd (forEach (adjustItem api stockAfterPurchase) entries st'))
    /\ processedInvoices (snd (forEach (restoreItem api) entries st))
       = processedInvoices st.
Proof.
  induction entries as [|x l IH]; intros st st' Hreq.
  - cbn. auto.
  - rewrite forEach_cons, forEach_restore_cons.
    destruct (restoreItem_like_purchase x st st' Hreq) as (_ & Hr & Hp).
    destruct (IH _ _ Hr) as (H1 & H2 & H3).
    split; [exact H1|]. split; [exact H2|]. now rewrite H3.
Qed.

Lemma revertStockOnSale_unfold soldItems st :
  revertStockOnSale api soldItems st =
  match bardanaFailure api add soldItems st with
  | Some e =>
      (Throw e,
       printed (Err "Error reverting stock on sale:" e)
         (afterBardana add soldItems st))
  | None =>
      (Ok tt,
       snd (forEach (restoreItem api) (consolidate soldItems)
              (afterBardana add soldItems st)))
  end.
Proof.
  unfold revertStockOnSale, tryCatch, bardanaFailure, afterBardana.
  cbv zeta. unfold bind at 1.
  destruct (gt (totalQuantity soldItems) zero).
  - unfold bind at 1, updateBardanaStock.
    destruct (respondUpdateBardanaStock api (requests st) add
                (totalQuantity soldItems)) as [it|e]; [|reflexivity].
    unfold ret at 1.
    destruct (forEach_restore_like_purchase (consolidate soldItems)
                (sent (UpdateBardanaStock add (totalQuantity soldItems)) st) _
                eq_refl) as (Hok & _).
    destruct (forEach _ _ _) as [[[]|e] st1]; [reflexivity | discriminate Hok].
  - unfold ret at 1.
    destruct (forEach_restore_like_purchase (consolidate soldItems) st _ eq_refl)
      as (Hok & _).
    destruct (forEach _ _ _) as [[[]|e] st1]; [reflexivity | discriminate Hok].
Qed.

Lemma revertStockOnSale_processed soldItems st :
  processedInvoices (snd (revertStockOnSale api soldItems st)) = processedInvoices st.
Proof.
  rewrite revertStockOnSale_unfold.
  assert (Hb : processedInvoices (afterBardana add soldItems st) = processedInvoices st).
  { unfold afterBardana. now destruct (gt _ _). }
  destruct (bardanaFailure api add soldItems st); cbn [snd printed processedInvoices].
  - exact Hb.
  - destruct (forEach_restore_like_purchase (consolidate soldItems)
                (afterBardana add soldItems st) _ eq_refl) as (_ & _ & Hp).
    now rewrite Hp.
Qed.

(** A completed sale under a non-empty id leaves the id in the set. *)
Lemma completed_sale_is_processed soldItems id st :
  truthyStr id = true ->
  soldItems <> [] ->
  fst (updateStockOnSale api soldItems (Some id) st) = Ok tt ->
  id ∈ processedInvoices (snd (updateStockOnSale api soldItems (Some id) st)).
Proof.
  intros Hid Hne Hok.
  destruct (alreadyProcessed (Some id) st) eqn:Hdone.
  - rewrite updateStockOnSale_skip by exact Hdone. cbn in *.
    rewrite Hid in Hdone. now apply bool_decide_eq_true in Hdone.
  - rewrite updateStockOnSale_unfold in * by assumption.
    destruct (bardanaFailure api subtract soldItems st); [discriminate Hok|].
    cbn. rewrite Hid. cbn. set_solver.
Qed.

End RevertFacts.

(** X1.  Reverting a sale sends to the collaborator exactly the requests a
    purchase of the same items sends, with the same outcome: the Bardana
    update "add" of the total kg when it is positive, then one look-up per
    consolidated item and the update round((stock + kg/30) * 100) / 100.  It
    has no guard for the empty list (which sends nothing) and never changes
    the processed set. *)
Theorem revert_sends_what_purchase_sends api soldItems st :
  let r := revertStockOnSale api soldItems st in
  let p := updateStockOnPurchase api soldItems st in
  fst r = fst p
  /\ requests (snd r) = requests (snd p)
  /\ processedInvoices (snd r) = processedInvoices st
  /\ revertStockOnSale api [] st = (Ok tt, st).
Proof.
  cbv zeta. split; [|split; [|split]].
  - rewrite revertStockOnSale_unfold. destruct soldItems as [|s l]; [reflexivity|].
    rewrite updateStockOnPurchase_unfold by discriminate.
    now destruct (bardanaFailure api add (s :: l) st).
  - rewrite revertStockOnSale_unfold. destruct soldItems as [|s l]; [reflexivity|].
    rewrite updateStockOnPurchase_unfold by discriminate.
    destruct (bardanaFailure api add (s :: l) st); [reflexivity|].
    cbn [snd].
    now destruct (forEach_restore_like_purchase api (consolidate (s :: l))
                    (afterBardana add (s :: l) st) _ eq_refl) as (_ & H & _).
  - apply revertStockOnSale_processed.
  - reflexivity.
Qed.

(** X2.  Reverting does not forget the invoice: after a completed sale under
    a non-empty id, whatever is reverted afterwards, the id is still in the
    processed set and the same sale under that id is skipped, sending
    nothing. *)
Theorem revert_keeps_invoice_processed api soldItems id reverted st :
  truthyStr id = true ->
  soldItems <> [] ->
  fst (updateStockOnSale api soldItems (Some id) st) = Ok tt ->
  let st1 := snd (updateStockOnSale api soldItems (Some id) st) in
  let st2 := snd (revertStockOnSale api reverted st1) in
  isInvoiceProcessed id st2 = true
  /\ updateStockOnSale api soldItems (Some id) st2 = (Ok tt, st2).
Proof.
  intros Hid Hne Hok st1 st2.
  assert (Hin : id ∈ processedInvoices st2).
  { unfold st2. rewrite revertStockOnSale_processed.
    now apply completed_sale_is_processed. }
  split; [now apply bool_decide_eq_true|].
  apply updateStockOnSale_skip. cbn. rewrite Hid. now apply bool_decide_eq_true.
Qed.

(** The sample sale, reverted, then repeated under its id. *)
Lemma revert_keeps_invoice_processed_witness :
  let st1 := snd (updateStockOnSale shop sale1 (Some "INV-1") start) in
  let st2 := snd (revertStockOnSale shop sale1 st1) in
  isInvoiceProcessed "INV-1" st2 = true
  /\ updateStockOnSale shop sale1 (Some "INV-1") st2 = (Ok tt, st2).
Proof.
  apply (revert_keeps_invoice_processed shop sale1 "INV-1" sale1 start).
  - reflexivity.
  - discriminate.
  - reflexivity.
Defined.

(** ** Consolidation by item name *)

Section ConsolidateFacts.

Lemma mapGet_mapSet_eq m key value : mapGet (mapSet m key value) key = Some value.
Proof.
  induction m as [|[k v] m IH]; cbn.
  - now rewrite decide_True.
  - destruct (decide (k = key)) as [->|Hne]; cbn.
    + now rewrite decide_True.
    + now rewrite decide_False.
Qed.

Lemma mapGet_mapSet_ne m key key' value :
  key <> key' -> mapGet (mapSet m key value) key' = mapGet m key'.
Proof.
  intros Hne. induction m as [|[k v] m IH]; cbn.
  - now rewrite decide_False.
  - destruct (decide (k = key)) as [->|Hk]; cbn.
    + now rewrite !decide_False.
    + destruct (decide (k = key')); [reflexivity | exact IH].
Qed.

Lemma mapGet_None m key : mapGet m key = None <-> ~ In key (map fst m).
Proof.
  induction m as [|[k v] m IH]; cbn; [tauto|].
  destruct (decide (k = key)) as [->|Hne].
  - split; [discriminate | tauto].
  - rewrite IH. tauto.
Qed.

Lemma mapGet_Some_in m key value :
  mapGet m key = Some value -> In key (map fst m).
Proof.
  induction m as [|[k v] m IH]; cbn; [discriminate|].
  destruct (decide (k = key)) as [->|Hne]; [tauto | auto].
Qed.

Lemma keys_mapSet m key value :
  map fst (mapSet m key value)
  = match mapGet m key with
    | Some _ => map fst m
    | None => map fst m ++ [key]
    end.
Proof.
  induction m as [|[k v] m IH]; cbn; [reflexivity|].
  destruct (decide (k = key)) as [->|Hne]; cbn; [reflexivity|].
  rewrite IH. now destruct (mapGet m key).
Qed.

Lemma consolidate_snoc items item :
  consolidate (items ++ [item])
  = mapSet (consolidate items) (itemName item)
      (orZero (mapGet (consolidate items) (itemName item)) + quantity item)%js.
Proof. unfold consolidate. now rewrite fold_left_app. Qed.

Lemma totalQuantity_snoc items item :
  totalQuantity (items ++ [item]) = (totalQuantity items + quantity item)%js.
Proof. unfold totalQuantity. now rewrite fold_left_app. Qed.

Lemma consolidate_keys items :
  NoDup (map fst (consolidate items))
  /\ forall name, In name (map fst (consolidate items)) <-> In name (map itemName items).
Proof.
  induction items as [|item items IH] using rev_ind.
  - split; [constructor | reflexivity].
  - destruct IH as [Hnd Hin]. rewrite consolidate_snoc, keys_mapSet.
    destruct (mapGet (consolidate items) (itemName item)) eqn:Hget.
    + split; [exact Hnd|]. intros name. rewrite Hin, map_app, in_app_iff. cbn.
      split; [tauto|]. intros [H|[<-|[]]]; [exact H|].
      apply Hin. eapply mapGet_Some_in. exact Hget.
    + apply mapGet_None in Hget. split.
      * apply NoDup_app. split; [exact Hnd|]. split; [|apply NoDup_singleton].
        intros x Hx Hx'. apply list_elem_of_In in Hx.
        apply list_elem_of_singleton in Hx'. subst. tauto.
      * intros name. rewrite !map_app, !in_app_iff, Hin. reflexivity.
Qed.

Lemma zero_canon : Num 0%Qc = zero.
Proof. apply Num_eq. reflexivity. Qed.

Lemma orZero_finite (a : Qc) : orZero (Some (Num a)) = Num a.
Proof.
  unfold orZero, truthy. destruct (bool_decide (a <> 0%Qc)) eqn:H; [reflexivity|].
  apply bool_decide_eq_false in H.
  destruct (decide (a = 0%Qc)) as [->|Hne]; [|tauto].
  symmetry. apply zero_canon.
Qed.

Lemma totalQuantity_finite items :
  Forall (fun item => quantity item <> NaN) items ->
  exists q, totalQuantity items = Num q.
Proof.
  induction items as [|item items IH] using rev_ind; intros H.
  - eexists. reflexivity.
  - apply Forall_app in H. destruct H as [H Hitem].
    apply Forall_cons in Hitem. destruct Hitem as [Hitem _].
    destruct (IH H) as [q Hq]. rewrite totalQuantity_snoc, Hq.
    destruct (quantity item) as [b|]; [|congruence]. eexists. reflexivity.
Qed.

Lemma quantityOf_snoc name items item :
  quantityOf name (items ++ [item])
  = if bool_decide (itemName item = name)
    then (quantityOf name items + quantity item)%js
    else quantityOf name items.
Proof.
  unfold quantityOf. rewrite List.filter_app. cbn [List.filter].
  destruct (bool_decide (itemName item = name)).
  - apply totalQuantity_snoc.
  - now rewrite app_nil_r.
Qed.

Lemma quantityOf_absent name items :
  ~ In name (map itemName items) -> quantityOf name items = zero.
Proof.
  intros H. unfold quantityOf.
  replace (List.filter _ items) with (@nil SaleItem); [reflexivity|].
  induction items as [|x l IH]; [reflexivity|]. cbn in *.
  rewrite bool_decide_eq_false_2 by tauto. apply IH. tauto.
Qed.

Lemma quantityOf_finite name items :
  Forall (fun item => quantity item <> NaN) items ->
  exists q, quantityOf name items = Num q.
Proof.
  intros H. apply totalQuantity_finite.
  rewrite Forall_forall in *. intros x Hx. apply H.
  apply list_elem_of_In in Hx. apply list_elem_of_In.
  apply List.filter_In in Hx. tauto.
Qed.

Lemma consolidate_get name items :
  Forall (fun item => quantity item <> NaN) items ->
  mapGet (consolidate items) name
  = if decide (name ∈ map itemName items)
    then Some (quantityOf name items)
    else None.
Proof.
  revert name. induction items as [|item items IH] using rev_ind; intros name H.
  - reflexivity.
  - apply Forall_app in H. destruct H as [H Hitem].
    rewrite consolidate_snoc, quantityOf_snoc.
    assert (Hold : orZero (mapGet (consolidate items) (itemName item))
                   = quantityOf (itemName item) items).
    { rewrite (IH _ H). destruct (decide _) as [Hin|Hout].
      - destruct (quantityOf_finite (itemName item) items H) as [q ->].
        apply orZero_finite.
      - rewrite quantityOf_absent; [reflexivity|]. now rewrite <- list_elem_of_In. }
    rewrite Hold. destruct (decide (itemName item = name)) as [<-|Hne].
    + rewrite mapGet_mapSet_eq, bool_decide_eq_true_2 by reflexivity.
      rewrite decide_True; [reflexivity|].
      rewrite map_app, elem_of_app. right. cbn. apply list_elem_of_singleton.
      reflexivity.
    + rewrite mapGet_mapSet_ne, bool_decide_eq_false_2, (IH _ H) by assumption.
      destruct (decide (name ∈ map itemName items)) as [Hin|Hout].
      * rewrite decide_True; [reflexivity|]. rewrite map_app, elem_of_app. tauto.
      * rewrite decide_False; [reflexivity|]. rewrite map_app, elem_of_app. cbn.
        rewrite list_elem_of_singleton. intros [?|?]; [tauto | congruence].
Qed.

End ConsolidateFacts.

(** X3.  The consolidated map has one entry per item name: its keys are
    pairwise distinct and are exactly the names the lines carry, so it is
    empty only for the empty list. *)
Theorem consolidate_one_entry_per_name (items : list SaleItem) :
  NoDup (map fst (consolidate items))
  /\ (forall name,
        In name (map fst (consolidate items)) <-> In name (map itemName items))
  /\ (consolidate items = [] <-> items = []).
Proof.
  destruct (consolidate_keys items) as [Hnd Hin]. split; [exact Hnd|].
  split; [exact Hin|]. split.
  - intros Hnil. destruct items as [|x l]; [reflexivity|]. exfalso.
    specialize (Hin (itemName x)). rewrite Hnil in Hin. cbn in Hin. tauto.
  - intros ->. reflexivity.
Qed.

(** X4.  When no quantity is [NaN], the entry of each item name holds the
    quantities of the lines that name it, added up from 0 in line order, as
    the Bardana total adds up all the lines; names that do not occur have no
    entry. *)
Theorem consolidate_keeps_totals (items : list SaleItem) :
  Forall (fun item => quantity item <> NaN) items ->
  forall name,
    mapGet (consolidate items) name
    = if decide (name ∈ map itemName items)
      then Some (quantityOf name items)
      else None.
Proof.
  intros H name. now apply consolidate_get.
Qed.

(** Rice consolidated out of two lines, and no entry for sugar. *)
Lemma consolidate_keeps_totals_witness :
  mapGet (consolidate sale3) "Rice" = Some (quantityOf "Rice" sale3)
  /\ quantityOf "Rice" sale3 = ofZ 30
  /\ mapGet (consolidate sale3) "Sugar" = None.
Proof.
  assert (H : Forall (fun item => quantity item <> NaN) sale3)
    by (repeat constructor; discriminate).
  split; [|split].
  - now rewrite (consolidate_keeps_totals sale3 H "Rice").
  - apply Num_eq. vm_compute. reflexivity.
  - now rewrite (consolidate_keeps_totals sale3 H "Sugar").
Defined.

(** ** The processed set *)

Section ProcessedFacts.

Variable api : ItemsApi.

(** A sale that is not skipped sends at least one request. *)
Lemma sale_sends soldItems invoiceId st :
  soldItems <> [] ->
  alreadyProcessed invoiceId st = false ->
  requestsSince st (snd (updateStockOnSale api soldItems invoiceId st)) <> [].
Proof.
  intros Hne Hrun.
  destruct (sale_requests api soldItems invoiceId st Hne Hrun) as (k & E & L & _).
  rewrite (requestsSince_app _ _ _ E).
  destruct (bardanaFailure api subtract soldItems st) as [e|] eqn:Hb.
  - unfold bardanaFailure in Hb. unfold bardanaCalls.
    destruct (gt _ _); [discriminate | discriminate Hb].
  - specialize (L eq_refl). intros Hnil.
    apply app_eq_nil in Hnil. destruct Hnil as [_ ->]. cbn in L.
    destruct (consolidate_keys soldItems) as [_ Hin].
    destruct soldItems as [|x l]; [congruence|].
    specialize (Hin (itemName x)). rewrite <- L in Hin. cbn in Hin. tauto.
Qed.

Lemma sale_marks soldItems id st :
  truthyStr id = true ->
  soldItems <> [] ->
  id ∉ processedInvoices st ->
  fst (updateStockOnSale api soldItems (Some id) st) = Ok tt ->
  processedInvoices (snd (updateStockOnSale api soldItems (Some id) st))
  = {[id]} ∪ processedInvoices st.
Proof.
  intros Hid Hne Hfresh Hok.
  assert (Hrun : alreadyProcessed (Some id) st = false).
  { cbn. rewrite Hid. now apply bool_decide_eq_false. }
  rewrite updateStockOnSale_unfold in * by assumption.
  destruct (bardanaFailure api subtract soldItems st); [discriminate Hok|].
  cbn. rewrite Hid. cbn. rewrite forEach_processed.
  unfold afterBardana. now destruct (gt _ _).
Qed.

End ProcessedFacts.

(** X5.  [removeProcessedInvoice] undoes the mark of a sale: after a completed
    sale under a fresh non-empty id the count of processed invoices is one
    more; removing the id gives back the set there was before, and the same
    sale under that id is then carried out again, not skipped. *)
Theorem remove_reenables_sale api soldItems id st :
  truthyStr id = true ->
  soldItems <> [] ->
  id ∉ processedInvoices st ->
  fst (updateStockOnSale api soldItems (Some id) st) = Ok tt ->
  let st1 := snd (updateStockOnSale api soldItems (Some id) st) in
  let st2 := snd (removeProcessedInvoice id st1) in
  getProcessedInvoicesCount st1 = S (getProcessedInvoicesCount st)
  /\ processedInvoices st2 = processedInvoices st
  /\ isInvoiceProcessed id st2 = false
  /\ requests st2 = requests st1
  /\ requestsSince st2 (snd (updateStockOnSale api soldItems (Some id) st2)) <> [].
Proof.
  intros Hid Hne Hfresh Hok st1 st2.
  pose proof (sale_marks api soldItems id st Hid Hne Hfresh Hok) as Hmark.
  fold st1 in Hmark.
  assert (Hback : processedInvoices st2 = processedInvoices st).
  { unfold st2. cbn [snd removeProcessedInvoice processedInvoices].
    replace (processedInvoices st1) with ({[id]} ∪ processedInvoices st).
    apply set_eq. intros x. rewrite elem_of_difference, elem_of_union,
      elem_of_singleton. split; [tauto|]. intros Hx. split; [tauto|].
    intros ->. tauto. }
  assert (Hnot : id ∉ processedInvoices st2).
  { intros Hin. apply Hfresh. now rewrite <- Hback. }
  split.
  { unfold getProcessedInvoicesCount.
    replace (processedInvoices st1) with ({[id]} ∪ processedInvoices st).
    rewrite size_union, size_singleton; [reflexivity|].
    intros x Hx Hx'. apply elem_of_singleton in Hx. now subst. }
  split; [exact Hback|]. split.
  { unfold isInvoiceProcessed. now apply bool_decide_eq_false. }
  split; [reflexivity|].
  apply sale_sends; [exact Hne|].
  cbn [alreadyProcessed]. rewrite Hid. cbn [andb].
  now apply bool_decide_eq_false.
Qed.

(** The sample sale under INV-1, then the id removed. *)
Lemma remove_reenables_sale_witness :
  let st1 := snd (updateStockOnSale shop sale1 (Some "INV-1") start) in
  let st2 := snd (removeProcessedInvoice "INV-1" st1) in
  getProcessedInvoicesCount st1 = S (getProcessedInvoicesCount start)
  /\ processedInvoices st2 = processedInvoices start
  /\ isInvoiceProcessed "INV-1" st2 = false
  /\ requests st2 = requests st1
  /\ requestsSince st2 (snd (updateStockOnSale shop sale1 (Some "INV-1") st2)) <> [].
Proof.
  apply (remove_reenables_sale shop sale1 "INV-1" start).
  - reflexivity.
  - discriminate.
  - apply not_elem_of_empty.
  - reflexivity.
Defined.

(** X6.  [clearProcessedInvoices] empties the set and touches nothing else:
    afterwards the count is 0, no invoice is processed, and no sale of a
    non-empty list is skipped, whatever its id. *)
Theorem clear_forgets_every_invoice api st :
  let st' := snd (clearProcessedInvoices st) in
  getProcessedInvoicesCount st' = 0%nat
  /\ requests st' = requests st
  /\ console st' = console st
  /\ (forall id, isInvoiceProcessed id st' = false)
  /\ (forall soldItems invoiceId,
        soldItems <> [] ->
        requestsSince st' (snd (updateStockOnSale api soldItems invoiceId st')) <> []).
Proof.
  cbv zeta. split; [reflexivity|]. split; [reflexivity|]. split; [reflexivity|].
  split.
  - intros id. apply bool_decide_eq_false. cbn. apply not_elem_of_empty.
  - intros soldItems invoiceId Hne. apply sale_sends; [exact Hne|].
    destruct invoiceId as [id|]; [|reflexivity]. cbn.
    rewrite bool_decide_eq_false_2 by apply not_elem_of_empty.
    apply andb_false_r.
Qed.

(** ** Rounding to hundredths *)

(** Comparisons and operations on canonical rationals, read in [Q]. *)
Ltac in_Q :=
  repeat progress
    (unfold Qclt, Qcle, Qcplus, Qcminus, Qcopp, Qcmult, Qcdiv, Qcinv, Q2Qc,
       Qc_of_Z in *;
     cbn [this] in *; rewrite ?Qred_correct in *).

Section RoundingFacts.

Lemma Num_is (x : Qc) (q : Q) : (this x == q)%Q -> Num x = ofQ q.
Proof. intros H. apply Num_eq. cbn. now rewrite Qred_correct. Qed.

Lemma round_fraction (a : Z) (b : positive) :
  round (ofQ (a # b)) = ofZ ((2 * a + Zpos b) / (2 * Zpos b)).
Proof.
  unfold round, ofQ, ofZ. do 2 f_equal.
  transitivity (Qfloor ((2 * a + Zpos b) # (2 * b))); [|reflexivity].
  apply Qfloor_comp. in_Q. unfold Qeq, Qplus. cbn. lia.
Qed.

Lemma div_of_Num (a : Qc) (z : Z) :
  z <> 0 -> (Num a / ofZ z)%js = Num (a / Qc_of_Z z)%Qc.
Proof.
  intros Hz. unfold JS.div, ofZ. rewrite decide_False; [reflexivity|].
  intros H. apply (f_equal this) in H. cbn in H. injection H as H. lia.
Qed.

(** [(n/100 - k/30) * 100] and [(r/100 + k/30) * 100], as fractions. *)
Lemma hundredths_less_bags (n k : Z) :
  ((ofZ n / ofZ 100 - ofZ k / ofZ 30) * ofZ 100)%js = ofQ ((3 * n - 10 * k) # 3).
Proof.
  unfold ofZ at 1 3. rewrite !div_of_Num by lia. unfold ofZ. cbn [JS.sub JS.mul].
  apply Num_is. in_Q. rewrite (Qmake_Qdiv (3 * n - 10 * k) 3).
  unfold Z.sub. rewrite inject_Z_plus, inject_Z_opp, !inject_Z_mult. field.
Qed.

Lemma hundredths_plus_bags (r k : Z) :
  ((ofZ r / ofZ 100 + ofZ k / ofZ 30) * ofZ 100)%js = ofQ ((3 * r + 10 * k) # 3).
Proof.
  unfold ofZ at 1 3. rewrite !div_of_Num by lia. unfold ofZ. cbn [JS.add JS.mul].
  apply Num_is. in_Q. rewrite (Qmake_Qdiv (3 * r + 10 * k) 3).
  rewrite inject_Z_plus, !inject_Z_mult. field.
Qed.

Lemma max_zero_hundredths (r : Z) :
  0 <= r -> JS.max zero (ofZ r / ofZ 100)%js = (ofZ r / ofZ 100)%js.
Proof.
  intros Hr. unfold ofZ at 1. rewrite div_of_Num by lia. unfold JS.max, zero, ofZ.
  destruct (decide _) as [_|Hnot]; [reflexivity|].
  apply Num_eq. apply Qle_antisym.
  - change (Qc_of_Z 0 <= Qc_of_Z r / Qc_of_Z 100)%Qc. in_Q.
    rewrite Zle_Qle in Hr. revert Hr. generalize (inject_Z r). intros x Hx.
    assert (E : (x * / inject_Z 100 == x * (1 # 100))%Q)
      by (unfold inject_Z; field).
    rewrite E. unfold inject_Z in *. lra.
  - apply Qnot_lt_le. exact Hnot.
Qed.

Lemma sale_of_hundredths (n k : Z) :
  0 <= 3 * n - 10 * k ->
  stockAfterSale (ofZ n / ofZ 100)%js (ofZ k)
  = (ofZ ((6 * n - 20 * k + 3) / 6) / ofZ 100)%js.
Proof.
  intros H. unfold stockAfterSale. cbv zeta.
  rewrite hundredths_less_bags, round_fraction.
  replace ((2 * (3 * n - 10 * k) + 3) / (2 * 3)) with ((6 * n - 20 * k + 3) / 6)
    by (f_equal; lia).
  apply max_zero_hundredths. Z.to_euclidean_division_equations. lia.
Qed.

Lemma revert_of_hundredths (r k : Z) :
  stockAfterRevert (ofZ r / ofZ 100)%js (ofZ k)
  = (ofZ ((6 * r + 20 * k + 3) / 6) / ofZ 100)%js.
Proof.
  unfold stockAfterRevert. cbv zeta.
  rewrite hundredths_plus_bags, round_fraction.
  do 2 f_equal. f_equal; lia.
Qed.

End RoundingFacts.

(** X7.  A sale and its reversal cancel on the stock of an item: for a stock
    with two decimals (n hundredths of a bag) and a whole number k of kg that
    the stock covers (k/30 bags at most), the stock the reversal writes after
    the sale is the stock there was before the sale. *)
Theorem revert_restores_covered_stock (n k : Z) :
  lt (ofZ n / ofZ 100 - ofZ k / ofZ 30)%js zero = false ->
  stockAfterRevert (stockAfterSale (ofZ n / ofZ 100)%js (ofZ k)) (ofZ k)
  = (ofZ n / ofZ 100)%js.
Proof.
  intros Hcover.
  assert (H : 0 <= 3 * n - 10 * k).
  { apply Z.nlt_ge. intros Hneg.
    assert (Hlt : lt (ofZ n / ofZ 100 - ofZ k / ofZ 30)%js zero = true);
      [|congruence].
    unfold ofZ at 1 3. rewrite !div_of_Num by lia. unfold lt, gt, zero, ofZ.
    cbn [JS.sub]. apply bool_decide_eq_true.
    unfold Qclt, Qcminus, Qcplus, Qcopp, Qcdiv, Qcmult, Qcinv, Q2Qc, Qc_of_Z.
    cbn [this]. rewrite ?Qred_correct.
    assert (E : (inject_Z n * / inject_Z 100 + - (inject_Z k * / inject_Z 30)
                 == inject_Z (3 * n - 10 * k) * (1 # 300))%Q).
    { unfold Z.sub. rewrite inject_Z_plus, inject_Z_opp, !inject_Z_mult. unfold inject_Z. field. }
    rewrite E. rewrite Zlt_Qlt in Hneg. revert Hneg.
    generalize (inject_Z (3 * n - 10 * k)). intros x Hx.
    unfold inject_Z in *. lra. }
  rewrite sale_of_hundredths by exact H.
  rewrite revert_of_hundredths. do 2 f_equal.
  Z.to_euclidean_division_equations. lia.
Qed.

(** 3.50 bags, 45 kg sold and restored. *)
Lemma revert_restores_covered_stock_witness :
  stockAfterRevert (stockAfterSale (ofZ 350 / ofZ 100)%js (ofZ 45)) (ofZ 45)
  = (ofZ 350 / ofZ 100)%js.
Proof. apply (revert_restores_covered_stock 350 45). reflexivity. Defined.

(** A sale that was clamped is not undone by its reversal: one bag, 100 kg
    sold and restored, leaves 3.33 bags. *)
Example revert_after_clamp :
  stockAfterRevert (stockAfterSale (ofZ 1) (ofZ 100)) (ofZ 100) = ofQ (333 # 100).
Proof. apply Num_eq. vm_compute. reflexivity. Qed.

Section NearestFacts.

(** [Math.round] is within one half of its argument, halves going up. *)
Lemma round_nearest (x : Qc) :
  exists n : Z,
    round (Num x) = ofZ n
    /\ (Qc_of_Z n <= x + Q2Qc (1 # 2))%Qc
    /\ (x - Q2Qc (1 # 2) < Qc_of_Z n)%Qc.
Proof.
  exists (Qfloor (x + Q2Qc (1 # 2))%Qc). split; [reflexivity|].
  pose proof (Qfloor_le (x + Q2Qc (1 # 2))%Qc) as Hle.
  pose proof (Qlt_floor (x + Q2Qc (1 # 2))%Qc) as Hlt.
  revert Hle Hlt. generalize (Qfloor (x + Q2Qc (1 # 2))%Qc). intros n Hle Hlt.
  rewrite inject_Z_plus in Hlt. in_Q.
  split; [exact Hle|]. revert Hlt. generalize (inject_Z n) (this x).
  intros a b Hlt. unfold inject_Z in *. lra.
Qed.

End NearestFacts.

(** X8.  Every stock the manager writes for finite figures is a whole
    number of hundredths of a bag, the domain on which a covered sale and
    its reversal cancel: a purchase and a reversal write n/100 for the same
    integer n, a sale writes n/100 with n not negative. *)
Theorem written_stock_in_hundredths (o q : Qc) :
  (exists n : Z,
      stockAfterPurchase (Num o) (Num q) = (ofZ n / ofZ 100)%js
      /\ stockAfterRevert (Num o) (Num q) = (ofZ n / ofZ 100)%js)
  /\ (exists n : Z,
         0 <= n /\ stockAfterSale (Num o) (Num q) = (ofZ n / ofZ 100)%js).
Proof.
  split.
  - unfold stockAfterPurchase, stockAfterRevert. cbv zeta.
    assert (Hx : ((Num o + Num q / ofZ 30) * ofZ 100)%js
                 = Num ((o + q / Qc_of_Z 30) * Qc_of_Z 100)%Qc)
      by (rewrite div_of_Num by lia; reflexivity).
    rewrite Hx.
    destruct (round_nearest ((o + q / Qc_of_Z 30) * Qc_of_Z 100)%Qc)
      as (n & Hr & _).
    rewrite Hr. exists n. split; reflexivity.
  - unfold stockAfterSale. cbv zeta.
    assert (Hx : ((Num o - Num q / ofZ 30) * ofZ 100)%js
                 = Num ((o - q / Qc_of_Z 30) * Qc_of_Z 100)%Qc)
      by (rewrite div_of_Num by lia; reflexivity).
    rewrite Hx.
    destruct (round_nearest ((o - q / Qc_of_Z 30) * Qc_of_Z 100)%Qc)
      as (n & Hr & _).
    rewrite Hr. destruct (Z_le_gt_dec 0 n) as [Hn|Hn].
    + exists n. split; [exact Hn|]. now apply max_zero_hundredths.
    + exists 0. split; [lia|].
      unfold ofZ at 1 3. rewrite !div_of_Num by lia. unfold JS.max, zero, ofZ.
      rewrite decide_False; [apply Num_eq; vm_compute; reflexivity|].
      apply Qcle_not_lt. in_Q.
      assert (E : (inject_Z n * / inject_Z 100 == inject_Z n * (1 # 100))%Q)
        by field.
      rewrite E. assert (Hq : (inject_Z n <= inject_Z 0)%Q)
        by (rewrite <- Zle_Qle; lia).
      change (inject_Z 0) with 0%Q in *. lra.
Qed.

(** ** Stock queries *)

Section QueryFacts.

Variable api : ItemsApi.

Lemma getItemStock_value name st :
  fst (getItemStock api name st)
  = Ok match respondGetItems api (requests st) name with
       | Ok items =>
           match findItem name items with
           | Some item => round (openingStock item * ofZ 30)%js
           | None => zero
           end
       | Throw _ => zero
       end.
Proof.
  unfold getItemStock, tryCatch, bind, getItems, logError, ret.
  destruct (respondGetItems api (requests st) name) as [items|e]; [|reflexivity].
  now destruct (findItem name items).
Qed.

Lemma hasSufficientStock_value name required st :
  fst (hasSufficientStock api name required st)
  = Ok (ge match respondGetItems api (requests st) name with
           | Ok items =>
               match findItem name items with
               | Some item => round (openingStock item * ofZ 30)%js
               | None => zero
               end
           | Throw _ => zero
           end required).
Proof.
  unfold hasSufficientStock, bind.
  pose proof (getItemStock_value name st) as H.
  destruct (getItemStock api name st) as [[v|e] st']; cbn in H; [|discriminate H].
  injection H as ->. reflexivity.
Qed.

End QueryFacts.

(** X9.  [hasSufficientStock] compares the required kg with the stock rounded
    to whole kg: for an item that is found with stock s bags, the answer is
    true only if the required quantity is at most 30 s + 0.5 kg, and false
    only if it is more than 30 s - 0.5 kg. *)
Theorem stock_check_within_half_kg api name (required s : Qc) st items item :
  respondGetItems api (requests st) name = Ok items ->
  findItem name items = Some item ->
  openingStock item = Num s ->
  exists answer,
    fst (hasSufficientStock api name (Num required) st) = Ok answer
    /\ (answer = true -> (required <= s * Qc_of_Z 30 + Q2Qc (1 # 2))%Qc)
    /\ (answer = false -> (s * Qc_of_Z 30 - Q2Qc (1 # 2) < required)%Qc).
Proof.
  intros Hget Hfind Hs. rewrite hasSufficientStock_value, Hget, Hfind, Hs.
  change (Num s * ofZ 30)%js with (Num (s * Qc_of_Z 30)%Qc).
  destruct (round_nearest (s * Qc_of_Z 30)%Qc) as (n & Hr & Hle & Hlt).
  rewrite Hr. eexists. split; [reflexivity|]. unfold ge, ofZ. split; intros H.
  - apply bool_decide_eq_true in H. eapply Qcle_trans; eassumption.
  - apply bool_decide_eq_false in H. apply Qcnot_le_lt in H.
    eapply Qclt_trans; eassumption.
Qed.

(** Wheat at 3.33 bags (99.9 kg) passes the check for 100 kg. *)
Lemma stock_check_within_half_kg_witness :
  exists answer,
    fst (hasSufficientStock
           {| respondUpdateBardanaStock := respondUpdateBardanaStock shop;
              respondGetItems := fun _ _ => Ok [wheatWith (ofQ (333 # 100))];
              respondUpdateItem := respondUpdateItem shop;
              respondGetBardana := respondGetBardana shop |}
           "Wheat" (Num (Qc_of_Z 100)) start) = Ok answer
    /\ (answer = true
        -> (Qc_of_Z 100 <= Q2Qc (333 # 100) * Qc_of_Z 30 + Q2Qc (1 # 2))%Qc)
    /\ (answer = false
        -> (Q2Qc (333 # 100) * Qc_of_Z 30 - Q2Qc (1 # 2) < Qc_of_Z 100)%Qc).
Proof.
  eapply stock_check_within_half_kg; reflexivity.
Defined.

Example stock_check_overstates :
  fst (hasSufficientStock
         {| respondUpdateBardanaStock := respondUpdateBardanaStock shop;
            respondGetItems := fun _ _ => Ok [wheatWith (ofQ (333 # 100))];
            respondUpdateItem := respondUpdateItem shop;
            respondGetBardana := respondGetBardana shop |}
         "Wheat" (ofZ 100) start) = Ok true.
Proof. reflexivity. Qed.

(** X10.  For an item that is not found, or when the look-up is rejected, the
    stock counts as 0 kg: [getItemStock] resolves with 0 and
    [hasSufficientStock] answers whether 0 >= required; neither throws, and
    neither touches the processed set. *)
Theorem stock_check_of_unknown_item api name required st :
  match respondGetItems api (requests st) name with
  | Ok items => findItem name items = None
  | Throw _ => True
  end ->
  fst (getItemStock api name st) = Ok zero
  /\ fst (hasSufficientStock api name required st) = Ok (ge zero required)
  /\ requests (snd (hasSufficientStock api name required st))
     = requests st ++ [GetItems name]
  /\ processedInvoices (snd (hasSufficientStock api name required st))
     = processedInvoices st.
Proof.
  intros H. rewrite getItemStock_value, hasSufficientStock_value.
  assert (Hstate : requests (snd (hasSufficientStock api name required st))
                   = requests st ++ [GetItems name]
                   /\ processedInvoices (snd (hasSufficientStock api name required st))
                      = processedInvoices st).
  { unfold hasSufficientStock, getItemStock, tryCatch, bind, getItems, logError, ret.
    destruct (respondGetItems api (requests st) name) as [items|e]; cbn.
    - destruct (findItem name items); cbn; auto.
    - auto. }
  destruct (respondGetItems api (requests st) name) as [items|e].
  - rewrite H. tauto.
  - tauto.
Qed.

(** Sugar is not in the catalog of the sample collaborator. *)
Lemma stock_check_of_unknown_item_witness :
  fst (getItemStock shop "Sugar" start) = Ok zero
  /\ fst (hasSufficientStock shop "Sugar" (ofZ 30) start) = Ok (ge zero (ofZ 30))
  /\ requests (snd (hasSufficientStock shop "Sugar" (ofZ 30) start))
     = requests start ++ [GetItems "Sugar"]
  /\ processedInvoices (snd (hasSufficientStock shop "Sugar" (ofZ 30) start))
     = processedInvoices start.
Proof.
  apply (stock_check_of_unknown_item shop "Sugar" (ofZ 30) start).
  reflexivity.
Defined.

(** ** The transactions of a party *)

Import PartyManagerRest.

Section TransactionFacts.

Variable getTime : string -> number.

Lemma filter_filter {A} (f : A -> bool) (l : list A) :
  List.filter f (List.filter f l) = List.filter f l.
Proof.
  induction l as [|x l IH]; [reflexivity|]. cbn.
  destruct (f x) eqn:Hx; [|exact IH]. cbn. now rewrite Hx, IH.
Qed.

Lemma collect_of_own partyName phoneNumber sales purchases payments :
  collect partyName phoneNumber
    (List.filter (fun s => sameParty partyName phoneNumber
                             (sale_partyName s) (sale_phoneNumber s)) sales)
    (List.filter (fun p => sameParty partyName phoneNumber
                             (purchase_partyName p) (purchase_phoneNumber p)) purchases)
    (List.filter (fun p => sameParty partyName phoneNumber
                             (payment_partyName p) (payment_phoneNumber p)) payments)
  = collect partyName phoneNumber sales purchases payments.
Proof. unfold collect. now rewrite !filter_filter. Qed.

Lemma collect_partyId partyName phoneNumber sales purchases payments :
  Forall (fun t => partyId t
                   = (toLowerCase partyName +:+ "-" +:+ phoneNumber)%string)
         (collect partyName phoneNumber sales purchases payments).
Proof.
  unfold collect. rewrite !Forall_app, !Forall_forall.
  repeat split; intros t Ht; apply list_elem_of_In, in_map_iff in Ht;
    destruct Ht as (x & <- & _); reflexivity.
Qed.

Lemma collect_case partyName partyName' phoneNumber sales purchases payments :
  toLowerCase partyName = toLowerCase partyName' ->
  collect partyName phoneNumber sales purchases payments
  = collect partyName' phoneNumber sales purchases payments.
Proof. intros H. unfold collect, sameParty. now rewrite H. Qed.

Lemma gt_difference (a b : Qc) :
  gt (Num b - Num a)%js zero = bool_decide (a < b)%Qc.
Proof.
  unfold gt, zero, ofZ. cbn [JS.sub]. apply bool_decide_ext.
  in_Q. generalize (this a) (this b). intros x y. unfold inject_Z. split; lra.
Qed.

Lemma insertSorted_sorted x l :
  getTime (date x) <> NaN ->
  Forall (fun t => getTime (date t) <> NaN) l ->
  StronglySorted (notOlder getTime) l ->
  StronglySorted (notOlder getTime) (insertSorted getTime x l).
Proof.
  intros Hx Hl Hs. induction l as [|y l IH]; cbn.
  - repeat constructor.
  - apply Forall_cons in Hl. destruct Hl as [Hy Hl].
    apply StronglySorted_inv in Hs. destruct Hs as [Hs Hyl].
    unfold compareByDate.
    destruct (getTime (date x)) as [a|] eqn:Ha; [|congruence].
    destruct (getTime (date y)) as [b|] eqn:Hb; [|congruence].
    rewrite gt_difference. destruct (bool_decide (a < b)%Qc) eqn:Hab.
    + apply bool_decide_eq_true in Hab. constructor; [now apply IH|].
      apply (Permutation_Forall
               (Permutation_sym (insertSorted_permutation getTime x l))).
      constructor; [|exact Hyl].
      unfold notOlder, ge. rewrite Ha, Hb. apply bool_decide_eq_true.
      now apply Qclt_le_weak.
    + apply bool_decide_eq_false in Hab. apply Qcnot_lt_le in Hab.
      constructor; [constructor; assumption|].
      constructor.
      * unfold notOlder, ge. rewrite Ha, Hb. now apply bool_decide_eq_true.
      * rewrite Forall_forall in *. intros z Hz.
        specialize (Hyl z Hz). specialize (Hl z Hz).
        unfold notOlder, ge in *. rewrite Ha. rewrite Hb in Hyl.
        destruct (getTime (date z)) as [c|]; [|congruence].
        apply bool_decide_eq_true. apply bool_decide_eq_true in Hyl.
        eapply Qcle_trans; eassumption.
Qed.

Lemma sortByDate_sorted l :
  Forall (fun t => getTime (date t) <> NaN) l ->
  StronglySorted (notOlder getTime) (sortByDate getTime l).
Proof.
  induction l as [|x l IH]; intros H; cbn; [constructor|].
  apply Forall_cons in H. destruct H as [Hx Hl].
  apply insertSorted_sorted; [exact Hx | | now apply IH].
  apply (Permutation_Forall (Permutation_sym (sortByDate_permutation getTime l))).
  exact Hl.
Qed.

End TransactionFacts.

(** X11.  The party name is matched without regard to case: two spellings of
    a name that differ only in the case of their letters give the same
    transactions, hence the same breakdown and the same balance. *)
Theorem party_name_ignores_case getTime api partyName partyName' phoneNumber :
  toLowerCase partyName = toLowerCase partyName' ->
  getPartyTransactions getTime api partyName phoneNumber
  = getPartyTransactions getTime api partyName' phoneNumber
  /\ calculatePartyBalanceFromTransactions getTime api partyName phoneNumber
     = calculatePartyBalanceFromTransactions getTime api partyName' phoneNumber
  /\ getPartyBalance getTime api partyName phoneNumber
     = getPartyBalance getTime api partyName' phoneNumber.
Proof.
  intros H.
  assert (E : getPartyTransactions getTime api partyName phoneNumber
              = getPartyTransactions getTime api partyName' phoneNumber).
  { unfold getPartyTransactions.
    destruct (getSales api), (getPurchases api), (getPayments api);
      cbn; try reflexivity.
    now rewrite (collect_case _ _ _ _ _ _ H). }
  unfold calculatePartyBalanceFromTransactions, getPartyBalance.
  now rewrite E.
Qed.

(** The sample party, asked for in capitals. *)
Lemma party_name_ignores_case_witness :
  getPartyTransactions noDate apiMissingAmount "RAVI" "98"
  = getPartyTransactions noDate apiMissingAmount "ravi" "98"
  /\ calculatePartyBalanceFromTransactions noDate apiMissingAmount "RAVI" "98"
     = calculatePartyBalanceFromTransactions noDate apiMissingAmount "ravi" "98"
  /\ getPartyBalance noDate apiMissingAmount "RAVI" "98"
     = getPartyBalance noDate apiMissingAmount "ravi" "98".
Proof.
  apply (party_name_ignores_case noDate apiMissingAmount "RAVI" "ravi" "98").
  reflexivity.
Defined.

(** X12.  Only the records of the party count: the transactions are those of
    the sales, purchases and payments whose name (without regard to case) and
    phone number are the party's, one transaction per such record, each
    carrying the party id; the records of other parties change nothing. *)
Theorem only_own_records_count getTime sales purchases payments
    partyName phoneNumber :
  let own {A} (name phone : A -> string) (l : list A) :=
    List.filter (fun r => sameParty partyName phoneNumber (name r) (phone r)) l in
  let api := {| getSales := Ok sales; getPurchases := Ok purchases;
                getPayments := Ok payments |} in
  let ownApi := {| getSales := Ok (own sale_partyName sale_phoneNumber sales);
                   getPurchases :=
                     Ok (own purchase_partyName purchase_phoneNumber purchases);
                   getPayments :=
                     Ok (own payment_partyName payment_phoneNumber payments) |} in
  exists txs,
    getPartyTransactions getTime api partyName phoneNumber = Ok txs
    /\ getPartyTransactions getTime ownApi partyName phoneNumber = Ok txs
    /\ length txs
       = (length (own sale_partyName sale_phoneNumber sales)
          + length (own purchase_partyName purchase_phoneNumber purchases)
          + length (own payment_partyName payment_phoneNumber payments))%nat
    /\ Forall (fun t => partyId t
                        = (toLowerCase partyName +:+ "-" +:+ phoneNumber)%string)
              txs.
Proof.
  intros own api ownApi. eexists. split; [reflexivity|].
  pose proof (sortByDate_permutation getTime
                (collect partyName phoneNumber sales purchases payments)) as Hperm.
  split; [|split].
  - unfold getPartyTransactions, ownApi, own. cbn.
    now rewrite collect_of_own.
  - rewrite (Permutation_length Hperm). unfold collect, own.
    rewrite !length_app, !length_map. lia.
  - apply (Permutation_Forall (Permutation_sym Hperm)). apply collect_partyId.
Qed.

(** X13.  The transactions come newest first: when the date of every
    transaction returned parses, each one is at least as recent as all those
    after it. *)
Theorem transactions_newest_first getTime api partyName phoneNumber txs :
  getPartyTransactions getTime api partyName phoneNumber = Ok txs ->
  Forall (fun t => getTime (date t) <> NaN) txs ->
  StronglySorted (notOlder getTime) txs.
Proof.
  unfold getPartyTransactions.
  destruct (getSales api) as [sales|], (getPurchases api) as [purchases|],
    (getPayments api) as [payments|]; cbn; intros [= <-] H;
    try constructor.
  apply sortByDate_sorted.
  apply (Permutation_Forall (sortByDate_permutation getTime _)). exact H.
Qed.

(** Two sales of the sample party, the older one fetched first. *)
Lemma transactions_newest_first_witness :
  StronglySorted (notOlder byLength)
    (sortByDate byLength
       (collect "Ravi" "98" [saleOn "2024"; saleOn "2024-01-05"] [] [])).
Proof.
  apply (transactions_newest_first byLength apiTwoSales "Ravi" "98").
  - reflexivity.
  - repeat constructor; discriminate.
Defined.

(** ** Parties with their balances *)

Section PartiesFacts.

Variable getTime : string -> number.
Variable api : Api.

(** The balance of a party, as [getPartyBalance] resolves it. *)
Lemma getPartyBalance_resolves partyName phoneNumber :
  exists b, getPartyBalance getTime api partyName phoneNumber = Ok b.
Proof.
  destruct (getPartyTransactions_resolves getTime api partyName phoneNumber)
    as [txs H].
  destruct (calculate_of_transactions _ _ _ _ _ H) as [_ ->]. eauto.
Qed.

Lemma withBalance_resolves p :
  exists e,
    withBalance getTime api p = Ok e
    /\ party e = p
    /\ getPartyBalance getTime api (party_name p) (party_phoneNumber p)
       = Ok (calculatedBalance e)
    /\ calculatePartyBalanceFromTransactions getTime api (party_name p)
         (party_phoneNumber p)
       = Ok {| balance := calculatedBalance e;
               totalInvoiced := pb_totalInvoiced e;
               totalBilled := pb_totalBilled e;
               totalPaymentIn := pb_totalPaymentIn e;
               totalPaymentOut := pb_totalPaymentOut e;
               transactionCount := pb_transactionCount e |}.
Proof.
  destruct (getPartyTransactions_resolves getTime api (party_name p)
              (party_phoneNumber p)) as [txs H].
  destruct (calculate_of_transactions _ _ _ _ _ H) as [Hc Hb].
  unfold withBalance. rewrite Hc, Hb. cbn [bindR]. eexists.
  split; [reflexivity|]. cbn [party calculatedBalance pb_totalInvoiced
    pb_totalBilled pb_totalPaymentIn pb_totalPaymentOut pb_transactionCount].
  split; [reflexivity|]. split.
  - f_equal. rewrite balanceOf_sum, breakdownOf_sums. reflexivity.
  - now destruct (breakdownOf txs).
Qed.

Lemma allR_withBalance parties :
  exists l,
    allR (withBalance getTime api) parties = Ok l
    /\ map party l = parties
    /\ Forall (fun e =>
                 getPartyBalance getTime api (party_name (party e))
                   (party_phoneNumber (party e))
                 = Ok (calculatedBalance e)
                 /\ calculatePartyBalanceFromTransactions getTime api
                      (party_name (party e)) (party_phoneNumber (party e))
                    = Ok {| balance := calculatedBalance e;
                            totalInvoiced := pb_totalInvoiced e;
                            totalBilled := pb_totalBilled e;
                            totalPaymentIn := pb_totalPaymentIn e;
                            totalPaymentOut := pb_totalPaymentOut e;
                            transactionCount := pb_transactionCount e |}) l.
Proof.
  induction parties as [|p ps IH].
  - exists []. repeat split. constructor.
  - destruct IH as (l & Hl & Hm & Hf).
    destruct (withBalance_resolves p) as (e & He & Hp & Hb & Hc).
    exists (e :: l). cbn. rewrite He. cbn. rewrite Hl. cbn.
    split; [reflexivity|]. split; [now rewrite Hp, Hm|].
    constructor; [|exact Hf]. rewrite Hp. split; assumption.
Qed.

(** The map built by the loop over the parties. *)
Lemma balances_loop customers (start : gmap string number) :
  exists balances,
    foldl (fun acc customer =>
             bindR acc (fun balances =>
             bindR (getPartyBalance getTime api (party_name customer)
                      (party_phoneNumber customer)) (fun balance =>
             Ok (<[partyKey customer := balance]> balances))))
          (Ok start) customers
    = Ok balances
    /\ (forall key, ~ In key (map partyKey customers) ->
                    balances !! key = start !! key)
    /\ (NoDup (map partyKey customers) ->
        forall c, In c customers ->
                  exists b,
                    getPartyBalance getTime api (party_name c) (party_phoneNumber c)
                    = Ok b
                    /\ balances !! partyKey c = Some b).
Proof.
  revert start. induction customers as [|c cs IH]; intros start.
  - exists start. cbn. split; [reflexivity|]. split; [reflexivity|].
    intros _ c [].
  - cbn [foldl bindR].
    destruct (getPartyBalance_resolves (party_name c) (party_phoneNumber c))
      as [b Hb].
    rewrite Hb. cbn [bindR].
    destruct (IH (<[partyKey c := b]> start)) as (balances & Hfold & Hout & Hin).
    exists balances. split; [exact Hfold|]. split.
    + intros key Hkey. cbn in Hkey. rewrite Hout by tauto.
      apply lookup_insert_ne. tauto.
    + intros Hnd c' Hc'. cbn in Hnd. apply NoDup_cons in Hnd.
      destruct Hnd as [Hfresh Hnd]. destruct Hc' as [<-|Hc'].
      * exists b. split; [exact Hb|]. rewrite Hout.
        -- apply lookup_insert_eq.
        -- now rewrite <- list_elem_of_In.
      * now apply Hin.
Qed.

End PartiesFacts.

(** X14.  [getPartiesWithBalances] never throws.  When the parties cannot be
    fetched it resolves with the empty list; otherwise with one entry per
    party, in order, whose figures are the breakdown
    [calculatePartyBalanceFromTransactions] gives for the party and whose
    balance is the one [getPartyBalance] gives. *)
Theorem parties_with_balances getTime api getParties :
  match getParties with
  | Throw _ => getPartiesWithBalances getTime api getParties = Ok []
  | Ok parties =>
      exists l,
        getPartiesWithBalances getTime api getParties = Ok l
        /\ map party l = parties
        /\ Forall (fun e =>
                     getPartyBalance getTime api (party_name (party e))
                       (party_phoneNumber (party e))
                     = Ok (calculatedBalance e)
                     /\ calculatePartyBalanceFromTransactions getTime api
                          (party_name (party e)) (party_phoneNumber (party e))
                        = Ok {| balance := calculatedBalance e;
                                totalInvoiced := pb_totalInvoiced e;
                                totalBilled := pb_totalBilled e;
                                totalPaymentIn := pb_totalPaymentIn e;
                                totalPaymentOut := pb_totalPaymentOut e;
                                transactionCount := pb_transactionCount e |}) l
  end.
Proof.
  destruct getParties as [parties|e]; [|reflexivity].
  destruct (allR_withBalance getTime api parties) as (l & Hl & Hm & Hf).
  exists l. unfold getPartiesWithBalances, getAllParties. cbn. rewrite Hl.
  repeat split; assumption.
Qed.

(** X15.  The balance map of the sales and purchase screens: for parties with
    pairwise distinct keys "name-phone" the map is always set, the balance
    shown for each of them is the one [getPartyBalance] computes, never the
    stored one, and a party that was not in the list is shown with its stored
    balance. *)
Theorem shown_balance_is_computed getTime api customers :
  NoDup (map partyKey customers) ->
  exists balances,
    calculateCustomerBalances getTime api customers = Some balances
    /\ (forall c, In c customers ->
                  getPartyBalance getTime api (party_name c) (party_phoneNumber c)
                  = Ok (latestBalance balances c))
    /\ (forall c, ~ In (partyKey c) (map partyKey customers) ->
                  latestBalance balances c = party_balance c).
Proof.
  intros Hnd.
  destruct (balances_loop getTime api customers ∅) as (balances & Hfold & Hout & Hin).
  exists balances. unfold calculateCustomerBalances. rewrite Hfold.
  split; [reflexivity|]. split.
  - intros c Hc. destruct (Hin Hnd c Hc) as (b & Hb & Hlook).
    unfold latestBalance. now rewrite Hlook.
  - intros c Hc. unfold latestBalance. rewrite (Hout _ Hc).
    now rewrite lookup_empty.
Qed.

(** Two parties with different keys. *)
Lemma shown_balance_is_computed_witness :
  exists balances,
    calculateCustomerBalances noDate apiMissingAmount [ravi; asha] = Some balances
    /\ (forall c, In c [ravi; asha] ->
                  getPartyBalance noDate apiMissingAmount (party_name c)
                    (party_phoneNumber c)
                  = Ok (latestBalance balances c))
    /\ (forall c, ~ In (partyKey c) (map partyKey [ravi; asha]) ->
                  latestBalance balances c = party_balance c).
Proof.
  apply (shown_balance_is_computed noDate apiMissingAmount [ravi; asha]).
  apply (bool_decide_unpack _). vm_compute. reflexivity.
Defined.

(** ** The item edit form, both ways *)

Section FormBothWays.

Lemma invalid_false_ge (x : number) : invalid x = false -> ge x zero = true.
Proof.
  destruct x as [q|]; [|discriminate]. unfold invalid, lt, gt, ge, zero, ofZ.
  intros H. apply bool_decide_eq_false in H. apply bool_decide_eq_true.
  now apply Qcnot_lt_le.
Qed.

Lemma ge_zero_valid (x : number) : ge x zero = true -> invalid x = false.
Proof.
  destruct x as [q|]; [|discriminate]. unfold invalid, lt, gt, ge, zero, ofZ.
  intros H. apply bool_decide_eq_true in H. apply bool_decide_eq_false.
  now apply Qcle_not_lt.
Qed.

Lemma bags_not_negative (x : number) :
  ge x zero = true -> ge (x / ofZ 30)%js zero = true.
Proof.
  destruct x as [q|]; [|discriminate]. unfold ge, zero, ofZ, JS.div.
  destruct (decide (Qc_of_Z 30 = 0%Qc)) as [H30|H30];
    [now apply thirty_nonzero in H30|].
  intros H. apply bool_decide_eq_true in H. apply bool_decide_eq_true.
  revert H. in_Q. intros H.
  assert (E : (this q * / inject_Z 30 == this q * (1 # 30))%Q) by field.
  rewrite E. change (inject_Z 0) with 0%Q in *. lra.
Qed.

Lemma kg_not_negative (x : number) :
  ge x zero = true -> ge (x * ofZ 30)%js zero = true.
Proof.
  destruct x as [q|]; [|discriminate]. unfold ge, zero, ofZ, JS.mul.
  intros H. apply bool_decide_eq_true in H. apply bool_decide_eq_true.
  revert H. in_Q. intros H.
  change (inject_Z 0) with 0%Q in *. change (inject_Z 30) with (30 # 1)%Q. lra.
Qed.

End FormBothWays.

(** X16.  Whatever is typed into the edit form, a patch that
    [handleSaveItem] sends carries a non-blank trimmed name, a non-blank
    date, and four numbers that are neither [NaN] nor negative, the two
    stocks included after their division by 30. *)
Theorem saved_patch_is_valid (itemForm : ItemForm) (data : UpdateData) :
  handleSaveItem itemForm = Some data ->
  upd_productName data = trim (form_productName itemForm)
  /\ upd_productName data <> EmptyString
  /\ trim (upd_asOfDate data) <> EmptyString
  /\ upd_category data = form_category itemForm
  /\ ge (upd_purchasePrice data) zero = true
  /\ ge (upd_salePrice data) zero = true
  /\ ge (upd_openingStock data) zero = true
  /\ ge (upd_lowStockAlert data) zero = true.
Proof.
  unfold handleSaveItem. intros H.
  destruct (bool_decide (trim (form_productName itemForm) = EmptyString)) eqn:Hn;
    [discriminate H|].
  destruct (bool_decide (trim (form_asOfDate itemForm) = EmptyString)) eqn:Hd;
    [discriminate H|].
  cbn [orb] in H.
  destruct (invalid (form_purchasePrice itemForm)) eqn:Hp; [discriminate H|].
  destruct (invalid (form_salePrice itemForm)) eqn:Hs; [discriminate H|].
  destruct (invalid (form_openingStock itemForm)) eqn:Ho; [discriminate H|].
  destruct (invalid (form_lowStockAlert itemForm)) eqn:Hl; [discriminate H|].
  injection H as <-. cbn.
  apply bool_decide_eq_false in Hn, Hd.
  repeat split; auto using invalid_false_ge, bags_not_negative.
Qed.

(** The wheat form with 100 kg. *)
Lemma saved_patch_is_valid_witness :
  upd_productName (wheatData (ofZ 100)) = trim (form_productName (wheatForm (ofZ 100)))
  /\ upd_productName (wheatData (ofZ 100)) <> EmptyString
  /\ trim (upd_asOfDate (wheatData (ofZ 100))) <> EmptyString
  /\ upd_category (wheatData (ofZ 100)) = form_category (wheatForm (ofZ 100))
  /\ ge (upd_purchasePrice (wheatData (ofZ 100))) zero = true
  /\ ge (upd_salePrice (wheatData (ofZ 100))) zero = true
  /\ ge (upd_openingStock (wheatData (ofZ 100))) zero = true
  /\ ge (upd_lowStockAlert (wheatData (ofZ 100))) zero = true.
Proof.
  apply (saved_patch_is_valid (wheatForm (ofZ 100)) (wheatData (ofZ 100))).
  reflexivity.
Defined.

(** X17.  Opening an item and saving the form untouched: for a stored item
    with a non-blank name and date and four numbers that are neither [NaN]
    nor negative, [handleSaveItem] accepts what [loadItem] filled in; it
    sends the stored prices, category and date back unchanged, the name
    trimmed, and each stock as (bags * 30) / 30, the kg shown divided by 30
    again, which in binary64 is not always the stored value. *)
Theorem load_then_save_is_accepted (foundItem : Item) :
  trim (productName foundItem) <> EmptyString ->
  trim (asOfDate foundItem) <> EmptyString ->
  ge (purchasePrice foundItem) zero = true ->
  ge (salePrice foundItem) zero = true ->
  ge (openingStock foundItem) zero = true ->
  ge (lowStockAlert foundItem) zero = true ->
  handleSaveItem (loadItem foundItem)
  = Some {| upd_productName := trim (productName foundItem);
            upd_category := category foundItem;
            upd_purchasePrice := purchasePrice foundItem;
            upd_salePrice := salePrice foundItem;
            upd_openingStock := (openingStock foundItem * ofZ 30 / ofZ 30)%js;
            upd_asOfDate := asOfDate foundItem;
            upd_lowStockAlert := (lowStockAlert foundItem * ofZ 30 / ofZ 30)%js |}.
Proof.
  intros Hn Hd Hp Hs Ho Hl. unfold handleSaveItem, loadItem.
  cbn [form_productName form_category form_purchasePrice form_salePrice
       form_openingStock form_asOfDate form_lowStockAlert].
  rewrite (bool_decide_eq_false_2 _ Hn), (bool_decide_eq_false_2 _ Hd).
  cbn [orb].
  rewrite (ge_zero_valid _ Hp), (ge_zero_valid _ Hs).
  rewrite (ge_zero_valid _ (kg_not_negative _ Ho)).
  rewrite (ge_zero_valid _ (kg_not_negative _ Hl)).
  reflexivity.
Qed.

(** The stored wheat with a third of a bag. *)
Lemma load_then_save_is_accepted_witness :
  handleSaveItem (loadItem (wheatWith (ofQ (1 # 3))))
  = Some {| upd_productName := trim "Wheat";
            upd_category := Primary;
            upd_purchasePrice := ofZ 20;
            upd_salePrice := ofZ 25;
            upd_openingStock := (ofQ (1 # 3) * ofZ 30 / ofZ 30)%js;
            upd_asOfDate := "2024-01-01";
            upd_lowStockAlert := (ofZ 2 * ofZ 30 / ofZ 30)%js |}.
Proof.
  apply (load_then_save_is_accepted (wheatWith (ofQ (1 # 3))));
    vm_compute; congruence.
Defined.

(** ** The stock queries *)

Section QueriesFrame.

Variable api : ItemsApi.

Lemma getItemStock_reads name st : reads (getItemStock api name) (GetItems name) st.
Proof.
  unfold reads, getItemStock, tryCatch, bind, getItems, logError, ret.
  destruct (respondGetItems api (requests st) name) as [items|e];
    [destruct (findItem name items)|]; cbn; auto.
Qed.

Lemma getBardanaStock_reads st : reads (getBardanaStock api) GetBardana st.
Proof.
  unfold reads, getBardanaStock, tryCatch, bind, getBardana, logError, ret.
  destruct (respondGetBardana api (requests st)) as [item|e]; cbn; auto.
Qed.

End QueriesFrame.

Section QueriesMore.

Variable api : ItemsApi.

Lemma hasSufficientStock_reads name required st :
  reads (hasSufficientStock api name required) (GetItems name) st.
Proof.
  destruct (getItemStock_reads api name st) as (Hok & Hreq & Hset).
  unfold reads, hasSufficientStock, bind, ret in *.
  destruct (getItemStock api name st) as [[v|e] st']; [|discriminate Hok].
  cbn in *. auto.
Qed.

Lemma hasSufficientBardanaStock_reads required st :
  reads (hasSufficientBardanaStock api required) GetBardana st.
Proof.
  destruct (getBardanaStock_reads api st) as (Hok & Hreq & Hset).
  unfold reads, hasSufficientBardanaStock, bind, ret in *.
  destruct (getBardanaStock api st) as [[v|e] st']; [|discriminate Hok].
  cbn in *. auto.
Qed.

Lemma getAllItemsWithStock_reads st :
  reads (getAllItemsWithStock api) (GetItems "") st.
Proof.
  unfold reads, getAllItemsWithStock, tryCatch, bind, getItems, logError, ret.
  destruct (respondGetItems api (requests st) "") as [items|e]; cbn; auto.
Qed.

Lemma getLowStockItems_reads st :
  reads (getLowStockItems api) (GetItems "") st.
Proof.
  unfold reads, getLowStockItems, tryCatch, bind, getItems, logError, ret.
  destruct (respondGetItems api (requests st) "") as [items|e]; cbn; auto.
Qed.

Lemma le_numbers (x y : number) :
  le x y = true <-> exists a b, x = Num a /\ y = Num b /\ (a <= b)%Qc.
Proof.
  unfold le, ge. destruct x as [a|], y as [b|]; split;
    try discriminate; try (intros (a' & b' & H1 & H2 & _); discriminate).
  - intros H. apply bool_decide_eq_true in H. eauto.
  - intros (a' & b' & [= ->] & [= ->] & H). now apply bool_decide_eq_true.
Qed.

Lemma filter_sublist {A} (f : A -> bool) (l : list A) :
  sublist (List.filter f l) l.
Proof.
  induction l as [|x l IH]; cbn; [constructor|].
  destruct (f x); now constructor.
Qed.

End QueriesMore.

(** X18.  The six stock queries only read: whatever the collaborator
    answers, each resolves without throwing, sends exactly one request, the
    look-up it is built on, and no update, and leaves the set of processed
    invoices as it was. *)
Theorem queries_only_read api name required st :
  reads (getItemStock api name) (GetItems name) st
  /\ reads (hasSufficientStock api name required) (GetItems name) st
  /\ reads (getBardanaStock api) GetBardana st
  /\ reads (hasSufficientBardanaStock api required) GetBardana st
  /\ reads (getAllItemsWithStock api) (GetItems "") st
  /\ reads (getLowStockItems api) (GetItems "") st.
Proof.
  repeat split;
    first [ apply getItemStock_reads | apply hasSufficientStock_reads
          | apply getBardanaStock_reads | apply hasSufficientBardanaStock_reads
          | apply getAllItemsWithStock_reads | apply getLowStockItems_reads ].
Qed.

(** X19.  The low-stock list against the full list, asked in the same state:
    when the items cannot be fetched both are empty; otherwise
    [getAllItemsWithStock] gives the fetched items and [getLowStockItems] a
    sublist of them, in the same order, holding exactly the items whose stock
    and alert level are both numbers with stock at most the alert level, so
    an item whose stock or alert level is [NaN] is never reported. *)
Theorem low_stock_items_of_all api st :
  exists all low,
    fst (getAllItemsWithStock api st) = Ok all
    /\ fst (getLowStockItems api st) = Ok low
    /\ all = match respondGetItems api (requests st) "" with
             | Ok items => items
             | Throw _ => []
             end
    /\ sublist low all
    /\ (forall item,
          item ∈ low
          <-> item ∈ all
              /\ exists o a, openingStock item = Num o
                             /\ lowStockAlert item = Num a /\ (o <= a)%Qc)
    /\ (forall item,
          item ∈ low -> openingStock item <> NaN /\ lowStockAlert item <> NaN).
Proof.
  unfold getAllItemsWithStock, getLowStockItems, tryCatch, bind, getItems,
    logError, ret.
  destruct (respondGetItems api (requests st) "") as [items|e]; cbn [fst].
  - exists items, (List.filter (fun item => le (openingStock item) (lowStockAlert item))
                     items).
    assert (Hiff : forall item,
               item ∈ List.filter (fun item => le (openingStock item) (lowStockAlert item))
                      items
               <-> item ∈ items
                   /\ exists o a, openingStock item = Num o
                                  /\ lowStockAlert item = Num a /\ (o <= a)%Qc).
    { intros item. rewrite !list_elem_of_In, filter_In, le_numbers. reflexivity. }
    split; [reflexivity|]. split; [reflexivity|]. split; [reflexivity|].
    split; [apply filter_sublist|]. split; [exact Hiff|].
    intros item Hin. apply Hiff in Hin.
    destruct Hin as (_ & o & a & Ho & Ha & _). split; congruence.
  - exists [], [].
    split; [reflexivity|]. split; [reflexivity|]. split; [reflexivity|].
    split; [constructor|]. split.
    + intros item. split; [intros H | intros [H _]]; now apply elem_of_nil in H.
    + intros item H. now apply elem_of_nil in H.
Qed.
